(** * Reflective wellness coach: memory, fact extraction, moods and tasks

    A shallow embedding of the Python back end (memory_manager.py,
    conversation_chain.py, mood_tracker.py, task_manager.py) and the
    properties of its memory and retrieval subsystem.

    Conventions.
    - Python [str] values are modelled by [string]; the text functions below
      follow Python on ASCII text (code points below 128).
    - A Python exception that leaves a pure function is [None] in an
      [option] result.  Code that calls the store runs in the monad
      [Memory.M], which threads the collections and the log of store calls
      and carries the exception; [try_except] and [catch] are the
      [try]/[except] blocks of the source.
    - The collection store (ChromaDB), [json], [float], [datetime] and the
      embedding distance are libraries: the store follows the contract of
      the specification, the others are parameters or are modelled by
      their results.
    - The clock ([datetime.now]) and fresh identifiers ([uuid.uuid4]) are
      explicit arguments. *)

From Stdlib Require Import ZArith QArith String Ascii List Sorted.
From Stdlib Require OrderedTypeEx Qround.
From stdpp Require Import base option gmap strings list.

Open Scope string_scope.
Open Scope list_scope.

(** ** Python text functions *)

Module PyStr.

(** [str.isspace] on ASCII: tab to carriage return, the four separators
    0x1c to 0x1f, and the blank.  The same class is [\s] in a [str]
    pattern of [re]. *)
Definition is_space (c : ascii) : bool :=
  let n := nat_of_ascii c in
  ((9 <=? n)%nat && (n <=? 13)%nat) || ((28 <=? n)%nat && (n <=? 32)%nat).

Definition is_upper (c : ascii) : bool :=
  let n := nat_of_ascii c in (65 <=? n)%nat && (n <=? 90)%nat.

Definition is_lower (c : ascii) : bool :=
  let n := nat_of_ascii c in (97 <=? n)%nat && (n <=? 122)%nat.

Definition is_alpha (c : ascii) : bool := is_upper c || is_lower c.

Definition to_lower (c : ascii) : ascii :=
  if is_upper c then ascii_of_nat (nat_of_ascii c + 32) else c.

Definition to_upper (c : ascii) : ascii :=
  if is_lower c then ascii_of_nat (nat_of_ascii c - 32) else c.

(** [s.lower()] *)
Fixpoint lower (s : string) : string :=
  match s with
  | EmptyString => EmptyString
  | String c s' => String (to_lower c) (lower s')
  end.

(** [s.lstrip()] *)
Fixpoint lstrip (s : string) : string :=
  match s with
  | EmptyString => EmptyString
  | String c s' => if is_space c then lstrip s' else s
  end.

(** [s.rstrip()] *)
Fixpoint rstrip (s : string) : string :=
  match s with
  | EmptyString => EmptyString
  | String c s' =>
      match rstrip s' with
      | EmptyString => if is_space c then EmptyString else String c EmptyString
      | r => String c r
      end
  end.

(** [s.strip()] *)
Definition strip (s : string) : string := rstrip (lstrip s).

(** The rest of [s] after the prefix [p], when [s] starts with [p]. *)
Fixpoint strip_prefix (p s : string) : option string :=
  match p, s with
  | EmptyString, _ => Some s
  | String a p', String b s' =>
      if Ascii.eqb a b then strip_prefix p' s' else None
  | String _ _, EmptyString => None
  end.

(** [s.startswith(p)] *)
Definition startswith (p s : string) : bool :=
  match strip_prefix p s with Some _ => true | None => false end.

(** [sep in s] *)
Fixpoint contains (sep s : string) : bool :=
  startswith sep s ||
  match s with
  | EmptyString => false
  | String _ s' => contains sep s'
  end.

(** The text before and after the first occurrence of [sep] in [s]. *)
Fixpoint partition (sep s : string) : option (string * string) :=
  match strip_prefix sep s with
  | Some t => Some (EmptyString, t)
  | None =>
      match s with
      | EmptyString => None
      | String c s' =>
          match partition sep s' with
          | Some (h, t) => Some (String c h, t)
          | None => None
          end
      end
  end.

(** [s.split(sep, 1)]: one element when [sep] does not occur, two when it
    does. *)
Definition split1 (sep s : string) : list string :=
  match partition sep s with
  | Some (h, t) => [h; t]
  | None => [s]
  end.

(** [s.title()]: a letter is upper-cased when the character before it is
    not a letter, and lower-cased otherwise. *)
Fixpoint title_from (prev_cased : bool) (s : string) : string :=
  match s with
  | EmptyString => EmptyString
  | String c s' =>
      if is_alpha c
      then String (if prev_cased then to_lower c else to_upper c)
                  (title_from true s')
      else String c (title_from false s')
  end.

Definition title (s : string) : string := title_from false s.

Fixpoint take_while (f : ascii -> bool) (s : string) : string :=
  match s with
  | EmptyString => EmptyString
  | String c s' => if f c then String c (take_while f s') else EmptyString
  end.

End PyStr.

(** ** Fact extraction (conversation_chain.py) *)

(** A fact is text or a list of texts. *)
Inductive fact_value :=
  | FStr (s : string)
  | FList (l : list string).

Module Facts.
Import PyStr.

(** The character class [[a-zA-Z\s]] of the two name patterns. *)
Definition name_class (c : ascii) : bool := is_alpha c || is_space c.

(** A match of [lit ([a-zA-Z\s]+)] that starts at the head of [s]: the
    literal, then the longest non-empty run of the class. *)
Definition match_name_at (lit s : string) : option string :=
  match strip_prefix lit s with
  | Some rest =>
      match take_while name_class rest with
      | EmptyString => None
      | g => Some g
      end
  | None => None
  end.

(** [re.search(lit ([a-zA-Z\s]+), s)]: group 1 of the leftmost match. *)
Fixpoint re_search_name (lit s : string) : option string :=
  match match_name_at lit s with
  | Some g => Some g
  | None =>
      match s with
      | EmptyString => None
      | String _ s' => re_search_name lit s'
      end
  end.

(** The literal parts of [name_patterns], in the order of the list. *)
Definition name_patterns : list string := ["my name is "; "call me "].

(** The name a pattern yields: group 1, stripped and title-cased. *)
Definition pattern_name (lit message_lower : string) : option string :=
  match re_search_name lit message_lower with
  | Some g => Some (title (strip g))
  | None => None
  end.

(** One turn of the loop over [name_patterns]. *)
Definition name_step (message_lower : string)
    (facts : gmap string fact_value) (lit : string) : gmap string fact_value :=
  match pattern_name lit message_lower with
  | Some name =>
      if (1 <? String.length name)%nat then <["name" := FStr name]> facts
      else facts
  | None => facts
  end.

Definition scan_names (message_lower : string) : gmap string fact_value :=
  foldl (name_step message_lower) ∅ name_patterns.

(** The categorisation of the text after [store this:]. *)
Definition store_this (fact_text : string) : option (gmap string fact_value) :=
  if contains "dog" fact_text && contains "name is" fact_text then
    pet ← split1 "name is" fact_text !! 1%nat;
    Some {["pets" := FList [title (strip pet)]]}
  else if contains "cat" fact_text && contains "name is" fact_text then
    cat ← split1 "name is" fact_text !! 1%nat;
    Some {["pets" := FList [title (strip cat)]]}
  else if contains "like" fact_text || contains "enjoy" fact_text then
    activity ← (if contains "like" fact_text
                then strip <$> split1 "like" fact_text !! 1%nat
                else strip <$> split1 "enjoy" fact_text !! 1%nat);
    Some {["support_preferences" := FList [activity]]}
  else Some {["notes" := FList [fact_text]]}.

(** [ConversationChain._extract_user_facts] *)
Definition _extract_user_facts (message : string) : option (gmap string fact_value) :=
  let message_lower := strip (lower message) in
  if startswith "store this:" message_lower
     || startswith "store this :" message_lower
  then
    tail ← split1 ":" message_lower !! 1%nat;
    store_this (strip tail)
  else Some (scan_names message_lower).

End Facts.

(** ** Values and documents *)

(** The JSON values the modelled code builds and reads.  A float is the
    rational it denotes.  A list holds texts, as every list written by the
    modelled code does.  [PObject] is a nested object, kept as its JSON
    text: the modelled code only passes such values along. *)
Inductive pyval :=
  | PNone
  | PBool (b : bool)
  | PInt (z : Z)
  | PFloat (q : Q)
  | PStr (s : string)
  | PList (l : list string)
  | PObject (json_text : string).

(** What [json.loads] gives: an object (a Python [dict]) or another value,
    kept as its text. *)
Inductive json :=
  | JObject (d : gmap string pyval)
  | JValue (json_text : string).

(** A stored document is a text.  [json.dumps] and [json.loads] are library
    functions, so a document is modelled by what [json.loads] makes of it:
    [Json v] is the text [json.dumps] writes for [v], [Malformed t] is a
    text that [json.loads] rejects with JSONDecodeError. *)
Inductive document :=
  | Json (v : json)
  | Malformed (text : string).

Definition json_dumps (d : gmap string pyval) : document := Json (JObject d).

Definition json_loads (doc : document) : option json :=
  match doc with
  | Json v => Some v
  | Malformed _ => None
  end.

(** Truth value of a document as a Python [str]: only the empty text is
    false, and [json.dumps] never writes it. *)
Definition doc_truthy (doc : document) : bool :=
  match doc with
  | Json _ => true
  | Malformed t => negb (String.eqb t "")
  end.

(** Metadata values: the values the code hands to the store with a
    record, which are all but None. *)
Inductive meta_value :=
  | MStr (s : string)
  | MInt (z : Z)
  | MFloat (q : Q)
  | MBool (b : bool)
  | MList (l : list string)
  | MObject (json_text : string).

Global Instance Q_eq_dec : EqDecision Q.
Proof. solve_decision. Defined.

Global Instance fact_value_eq_dec : EqDecision fact_value.
Proof. solve_decision. Defined.

Global Instance meta_value_eq_dec : EqDecision meta_value.
Proof. solve_decision. Defined.

(** ** Stable sorting *)

(** [list.sort(key=...)] is stable: elements with equal keys keep their
    order.  [le_key x y] is [key x <= key y]. *)
Section stable_sort.
Context {A : Type} (le_key : A -> A -> bool).

Fixpoint insert_sorted (x : A) (l : list A) : list A :=
  match l with
  | [] => [x]
  | y :: l' => if le_key x y then x :: y :: l' else y :: insert_sorted x l'
  end.

Fixpoint stable_sort (l : list A) : list A :=
  match l with
  | [] => []
  | x :: l' => insert_sorted x (stable_sort l')
  end.
End stable_sort.

(** [l[:n]] for a Python integer [n]. *)
Definition py_take {A} (n : Z) (l : list A) : list A :=
  if (0 <=? n)%Z then take (Z.to_nat n) l
  else take (List.length l - Z.to_nat (- n)) l.

(** ** The vector collection store *)

Module Store.

Record record := Record_ {
  rec_id : string;
  rec_document : document;
  rec_metadata : gmap string meta_value
}.

(** A collection holds its records in insertion order. *)
Definition collection := list record.

Definition has_id (id : string) (r : record) : bool := String.eqb (rec_id r) id.

(** Modelled from the spec: the collection store (ChromaDB) is a library,
    not under src/.  [get(ids)] returns the records with one of the ids. *)
Definition get (c : collection) (ids : list string) : list record :=
  List.filter (fun r => existsb (String.eqb (rec_id r)) ids) c.

(** Modelled from the spec: [get(where)] is an exact-match metadata
    filter, with AND-semantics across the filter keys. *)
Definition matches (w : list (string * meta_value)) (r : record) : bool :=
  forallb (fun kv => bool_decide (rec_metadata r !! kv.1 = Some kv.2)) w.

Definition get_where (c : collection) (w : list (string * meta_value)) : list record :=
  List.filter (matches w) c.

(** Modelled from the spec: [add] fails with DuplicateIdError if the id
    already exists, and appends the record otherwise. *)
Definition add (c : collection) (r : record) : option collection :=
  if existsb (has_id (rec_id r)) c then None else Some (c ++ [r]).

(** Modelled from the spec: [update] fails with NotFoundError if the id is
    absent, and overwrites document and metadata in place otherwise. *)
Definition update (c : collection) (r : record) : option collection :=
  if existsb (has_id (rec_id r)) c
  then Some (List.map (fun r' => if has_id (rec_id r) r' then r else r') c)
  else None.

(** Modelled from the spec: [delete] removes the records with the id; the
    spec names no error for it. *)
Definition delete (c : collection) (id : string) : collection :=
  List.filter (fun r => negb (has_id id r)) c.

Definition count (c : collection) : nat := List.length c.

(** A hit of a similarity query. *)
Record hit := Hit {
  hit_record : record;
  hit_distance : Q
}.

Definition le_distance (h1 h2 : hit) : bool :=
  Qle_bool (hit_distance h1) (hit_distance h2).

(** Modelled from the spec: [query] ranks the records by the distance
    between the query text and the document text (lower is more similar)
    and returns up to [k] of them.  The distance itself belongs to the
    embedding model and is the parameter [dist]. *)
Definition query (dist : string -> document -> Q)
    (c : collection) (query_text : string) (k : Z) : list hit :=
  take (Z.to_nat k)
    (stable_sort le_distance
       (List.map (fun r => Hit r (dist query_text (rec_document r))) c)).

End Store.

(** ** The memory manager (memory_manager.py) *)

Module Memory.
Import Store.

(** The six collections of [MemoryManager._init_chromadb]. *)
Inductive coll_name :=
  | Reflections | ImportantMemories | MoodData
  | SosRequests | UserProfile | Journals.

Global Instance coll_name_eq_dec : EqDecision coll_name.
Proof. solve_decision. Defined.

(** The calls made on the store, kept in the order they are made. *)
Inductive store_call :=
  | CallGet (ids : list string)
  | CallGetWhere (w : list (string * meta_value))
  | CallAdd (id : string)
  | CallUpdate (id : string)
  | CallDelete (id : string)
  | CallQuery (query_text : string) (k : Z).

Record memory := Memory_ {
  reflections_collection : collection;
  important_memories_collection : collection;
  mood_data_collection : collection;
  sos_requests_collection : collection;
  user_profile_collection : collection;
  journals_collection : collection;
  calls : list (coll_name * store_call)
}.

Definition empty_memory : memory := Memory_ [] [] [] [] [] [] [].

Definition coll (n : coll_name) (m : memory) : collection :=
  match n with
  | Reflections => reflections_collection m
  | ImportantMemories => important_memories_collection m
  | MoodData => mood_data_collection m
  | SosRequests => sos_requests_collection m
  | UserProfile => user_profile_collection m
  | Journals => journals_collection m
  end.

Definition set_coll (n : coll_name) (c : collection) (m : memory) : memory :=
  match n with
  | Reflections =>
      Memory_ c (important_memories_collection m) (mood_data_collection m)
        (sos_requests_collection m) (user_profile_collection m)
        (journals_collection m) (calls m)
  | ImportantMemories =>
      Memory_ (reflections_collection m) c (mood_data_collection m)
        (sos_requests_collection m) (user_profile_collection m)
        (journals_collection m) (calls m)
  | MoodData =>
      Memory_ (reflections_collection m) (important_memories_collection m) c
        (sos_requests_collection m) (user_profile_collection m)
        (journals_collection m) (calls m)
  | SosRequests =>
      Memory_ (reflections_collection m) (important_memories_collection m)
        (mood_data_collection m) c (user_profile_collection m)
        (journals_collection m) (calls m)
  | UserProfile =>
      Memory_ (reflections_collection m) (important_memories_collection m)
        (mood_data_collection m) (sos_requests_collection m) c
        (journals_collection m) (calls m)
  | Journals =>
      Memory_ (reflections_collection m) (important_memories_collection m)
        (mood_data_collection m) (sos_requests_collection m)
        (user_profile_collection m) c (calls m)
  end.

Definition logged (n : coll_name) (call : store_call) (m : memory) : memory :=
  Memory_ (reflections_collection m) (important_memories_collection m)
    (mood_data_collection m) (sos_requests_collection m)
    (user_profile_collection m) (journals_collection m)
    (calls m ++ [(n, call)]).

(** Code that reads and writes the store and may raise: the result is
    [None] when an exception is raised; what was written before stays. *)
Definition M (A : Type) : Type := memory -> option A * memory.

Definition ret {A} (a : A) : M A := fun m => (Some a, m).

Definition bind {A B} (x : M A) (f : A -> M B) : M B :=
  fun m => match x m with
           | (Some a, m') => f a m'
           | (None, m') => (None, m')
           end.

(** [try: body except Exception: handler] *)
Definition try_except {A} (body handler : M A) : M A :=
  fun m => match body m with
           | (Some a, m') => (Some a, m')
           | (None, m') => handler m'
           end.

(** A method whose outermost [try] returns [fallback] on any exception. *)
Definition catch {A} (body : M A) (fallback : A) : memory -> A * memory :=
  fun m => match body m with
           | (Some a, m') => (a, m')
           | (None, m') => (fallback, m')
           end.

(** A call of such a method from inside another one. *)
Definition call {A} (f : memory -> A * memory) : M A :=
  fun m => (Some (f m).1, (f m).2).

(** An exception raised by a step that does not touch the store. *)
Definition of_option {A} (o : option A) : M A := fun m => (o, m).

Global Instance M_ret : MRet M := @ret.
Global Instance M_bind : MBind M := fun A B f x => bind x f.

(** The store calls, on a named collection. *)
Definition do_get (n : coll_name) (ids : list string) : M (list record) :=
  fun m => (Some (get (coll n m) ids), logged n (CallGet ids) m).

Definition do_get_where (n : coll_name) (w : list (string * meta_value))
    : M (list record) :=
  fun m => (Some (get_where (coll n m) w), logged n (CallGetWhere w) m).

Definition do_add (n : coll_name) (r : record) : M unit :=
  fun m =>
    match add (coll n m) r with
    | Some c' => (Some tt, set_coll n c' (logged n (CallAdd (rec_id r)) m))
    | None => (None, logged n (CallAdd (rec_id r)) m)
    end.

Definition do_update (n : coll_name) (r : record) : M unit :=
  fun m =>
    match update (coll n m) r with
    | Some c' => (Some tt, set_coll n c' (logged n (CallUpdate (rec_id r)) m))
    | None => (None, logged n (CallUpdate (rec_id r)) m)
    end.

Definition do_delete (n : coll_name) (id : string) : M unit :=
  fun m => (Some tt, set_coll n (delete (coll n m) id) (logged n (CallDelete id) m)).

Definition do_query (dist : string -> document -> Q) (n : coll_name)
    (query_text : string) (k : Z) : M (list hit) :=
  fun m => (Some (query dist (coll n m) query_text k),
            logged n (CallQuery query_text k) m).

(** *** update_user_profile *)

Inductive profile_update :=
  | ProfileUpdated (timestamp profile_id : string)
  | ProfileNotUpdated.

Definition profile_id : string := "user_profile_main".

Definition profile_metadata (timestamp : string) : gmap string meta_value :=
  <["id" := MStr profile_id]>
    (<["timestamp" := MStr timestamp]>
       (<["type" := MStr "user_profile"]>
          (<["last_updated" := MStr timestamp]> ∅))).

Definition profile_record (profile_data : gmap string pyval)
    (timestamp : string) : record :=
  Record_ profile_id (json_dumps profile_data) (profile_metadata timestamp).

(** [MemoryManager.update_user_profile]; [now] is the clock reading. *)
Definition update_user_profile (profile_data : gmap string pyval)
    (now : string) : memory -> profile_update * memory :=
  let r := profile_record profile_data now in
  catch
    (try_except
       (existing ← do_get UserProfile [profile_id];
        match existing with
        | _ :: _ => do_update UserProfile r
        | [] => do_add UserProfile r
        end)
       (do_add UserProfile r);;
     ret (ProfileUpdated now profile_id))
    ProfileNotUpdated.

(** *** get_user_profile *)

Inductive profile_lookup :=
  | ProfileFound (profile : json) (metadata : gmap string meta_value)
  | ProfileAbsent
  | ProfileError.

Definition get_user_profile : memory -> profile_lookup * memory :=
  catch
    (results ← do_get UserProfile [profile_id];
     match results with
     | r :: _ =>
         if doc_truthy (rec_document r) then
           profile_data ← of_option (json_loads (rec_document r));
           ret (ProfileFound profile_data (rec_metadata r))
         else ret ProfileAbsent
     | [] => ret ProfileAbsent
     end)
    ProfileError.

(** [existing_profile.get("profile", {})] *)
Definition profile_of (p : profile_lookup) : json :=
  match p with
  | ProfileFound profile _ => profile
  | ProfileAbsent | ProfileError => JObject ∅
  end.

(** *** get_relevant_memories *)

Record relevant := Relevant {
  content : document;
  metadata : gmap string meta_value;
  collection_name : string;
  distance : Q
}.

Definition le_relevance (x y : relevant) : bool :=
  Qle_bool (distance x) (distance y).

(** The collections searched, with the tag each hit gets. *)
Definition searched : list (string * coll_name) :=
  [("reflections", Reflections);
   ("important_memories", ImportantMemories);
   ("user_profile", UserProfile)].

Definition tag (name : string) (h : hit) : relevant :=
  Relevant (rec_document (hit_record h)) (rec_metadata (hit_record h))
    name (hit_distance h).

(** The tagged hits one collection contributes. *)
Definition hits_of (dist : string -> document -> Q) (query_text : string)
    (n_results : Z) (name : string) (c : collection) : list relevant :=
  List.map (tag name) (query dist c query_text (Z.min n_results 3)).

(** The body of the loop over the collections. *)
Fixpoint search_all (dist : string -> document -> Q) (query_text : string)
    (n_results : Z) (cs : list (string * coll_name))
    (relevant_memories : list relevant) : M (list relevant) :=
  match cs with
  | [] => ret relevant_memories
  | (name, c) :: cs' =>
      found ← try_except
                 (results ← do_query dist c query_text (Z.min n_results 3);
                  ret (relevant_memories ++ List.map (tag name) results))
                 (ret relevant_memories);
      search_all dist query_text n_results cs' found
  end.

(** [MemoryManager.get_relevant_memories] *)
Definition get_relevant_memories (dist : string -> document -> Q)
    (query_text : string) (n_results : Z) : memory -> list relevant * memory :=
  catch
    (relevant_memories ← search_all dist query_text n_results searched [];
     ret (py_take n_results (stable_sort le_relevance relevant_memories)))
    [].

End Memory.

(** ** Storing extracted facts (conversation_chain.py) *)

Module Chain.
Import Memory.

Section store_facts.
(** [list(set(xs))]: the distinct elements of [xs] in the iteration
    order of a Python set, which the language does not specify. *)
Variable list_of_set : list string -> list string.

(** [profile_data.get(key, [])], replaced by [[]] when it is not a
    list. *)
Definition existing_list (profile_data : gmap string pyval)
    (key : string) : list string :=
  match profile_data !! key with
  | Some (PList l) => l
  | _ => []
  end.

(** The body of the loop over [facts.items()]. *)
Definition merge_step (key : string) (value : fact_value)
    (profile_data : gmap string pyval) : gmap string pyval :=
  match value with
  | FList value =>
      let existing := existing_list profile_data key in
      let merged := list_of_set (existing ++ value) in
      <[key := PList merged]> profile_data
  | FStr s => <[key := PStr s]> profile_data
  end.

(** The value a turn of the loop writes at [key], in terms of the profile
    the loop started from. *)
Definition merged_value (profile_data : gmap string pyval) (key : string)
    (value : fact_value) : pyval :=
  match value with
  | FList l => PList (list_of_set (existing_list profile_data key ++ l))
  | FStr s => PStr s
  end.

(** The loop.  The keys of a dict are distinct and a turn reads and
    writes its own key only, so the order of the turns is immaterial. *)
Definition merge_facts (facts : gmap string fact_value)
    (profile_data : gmap string pyval) : gmap string pyval :=
  map_fold merge_step profile_data facts.

(** [ConversationChain._store_user_facts]; [now_merge] is the clock
    read for [last_updated], [now_update] the one read by
    [update_user_profile]. *)
Definition _store_user_facts (facts : gmap string fact_value)
    (now_merge now_update : string) : memory -> unit * memory :=
  catch
    (if decide (facts = ∅) then mret tt
     else
       existing_profile ← call get_user_profile;
       match profile_of existing_profile with
       | JObject profile_data =>
           let merged := merge_facts facts profile_data in
           let stamped := <["last_updated" := PStr now_merge]> merged in
           call (update_user_profile stamped now_update);;
           mret tt
       | JValue _ => of_option None
       end)
    tt.
End store_facts.

End Chain.

(** ** Mood logging (mood_tracker.py) *)

Module Mood.
Import PyStr Store Memory.

(** [self.mood_values] *)
Definition mood_values : list (string * Z) :=
  [("terrible", 1); ("very_bad", 2); ("bad", 3); ("poor", 4); ("okay", 5);
   ("good", 6); ("very_good", 7); ("great", 8); ("excellent", 9);
   ("amazing", 10)]%Z.

Fixpoint assoc {B} (k : string) (l : list (string * B)) : option B :=
  match l with
  | [] => None
  | (k', v) :: l' => if String.eqb k k' then Some v else assoc k l'
  end.

(** [self.value_moods.get(value, "unknown")], the reverse table. *)
Definition value_mood (value : Z) : string :=
  match List.find (fun kv => (kv.2 =? value)%Z) mood_values with
  | Some kv => kv.1
  | None => "unknown"
  end.

(** A Python float. *)
Inductive pyfloat :=
  | Finite (q : Q)
  | Infinity
  | NaN.

(** The exceptions [_parse_mood_value] tells apart. *)
Inductive exn := ValueError | OverflowError.

(** [int(f)]: truncation towards zero. *)
Definition int_of_float (f : pyfloat) : exn + Z :=
  match f with
  | Finite q => inr (Z.quot (Qnum q) (Z.pos (Qden q)))
  | Infinity => inl OverflowError
  | NaN => inl ValueError
  end.

(** What [log_mood] is given as [mood]: a number, or a text.  A value
    that is neither (None, a list) takes the text branch through
    [str(mood)] and is modelled by that text. *)
Inductive mood_input :=
  | MoodInt (z : Z)
  | MoodBool (b : bool)
  | MoodFloat (f : pyfloat)
  | MoodText (s : string).

(** [value if 1 <= value <= 10 else None] *)
Definition in_scale (value : Z) : option Z :=
  if ((1 <=? value) && (value <=? 10))%Z then Some value else None.

Section parse.
(** [float(s)] for a text, [None] when it raises ValueError.  The
    grammar of float literals belongs to Python. *)
Variable py_float : string -> option pyfloat.

(** [MoodTracker._parse_mood_value] *)
Definition _parse_mood_value (mood : mood_input) : option Z :=
  match mood with
  | MoodInt z => in_scale z
  | MoodBool b => in_scale (if b then 1 else 0)%Z
  | MoodFloat f =>
      match int_of_float f with
      | inr value => in_scale value
      | inl _ => None
      end
  | MoodText s =>
      let mood_str := strip (lower s) in
      match py_float mood_str with
      | Some f =>
          match int_of_float f with
          | inr value => in_scale value
          | inl ValueError => assoc mood_str mood_values
          | inl OverflowError => None
          end
      | None => assoc mood_str mood_values
      end
  end.

Inductive log_result :=
  | MoodLogged (mood_entry : gmap string pyval) (timestamp : string)
  | MoodRejected (error : string)
  | MoodFailed.

(** The mood entry written by [log_mood].  [sentiment] is the polarity
    and subjectivity TextBlob gives for the note. *)
Definition mood_entry (mood_id : string) (mood_value : Z) (note : string)
    (sentiment : pyval) (timestamp : string) : gmap string pyval :=
  let mood_data :=
    <["id" := PStr mood_id]>
      (<["mood_value" := PInt mood_value]>
         (<["mood_label" := PStr (value_mood mood_value)]>
            (<["note" := PStr note]>
               (<["timestamp" := PStr timestamp]>
                  (<["context" := PObject "{}"]> ∅))))) in
  if String.eqb note "" then mood_data
  else <["note_sentiment" := sentiment]> mood_data.

Definition mood_metadata (mood_id : string) (mood_value : Z)
    (note timestamp : string) : gmap string meta_value :=
  <["id" := MStr mood_id]>
    (<["mood_value" := MInt mood_value]>
       (<["timestamp" := MStr timestamp]>
          (<["type" := MStr "mood_entry"]>
             (<["has_note" := MBool (negb (String.eqb note ""))]> ∅)))).

(** [MoodTracker.log_mood], without the insight texts of the result.
    [mood_id] is the fresh uuid and [now] the clock reading. *)
Definition log_mood (mood : mood_input) (note : string)
    (sentiment : pyval) (mood_id now : string)
    : memory -> log_result * memory :=
  catch
    (match _parse_mood_value mood with
     | None => mret (MoodRejected "Invalid mood value")
     | Some mood_value =>
         let mood_data := mood_entry mood_id mood_value note sentiment now in
         do_add MoodData
           (Record_ mood_id (json_dumps mood_data)
              (mood_metadata mood_id mood_value note now));;
         mret (MoodLogged mood_data now)
     end)
    MoodFailed.
End parse.

(** *** Reading the entries of a period *)

(** A [datetime]: the instant it denotes, and whether it carries an
    offset.  An aware and a naive datetime cannot be compared. *)
Record datetime := Datetime {
  instant : Z;
  aware : bool
}.

(** [a <= b], [None] when it raises TypeError. *)
Definition dt_le (a b : datetime) : option bool :=
  if Bool.eqb (aware a) (aware b) then Some (instant a <=? instant b)%Z
  else None.

(** [s.replace('Z', '+00:00')] *)
Fixpoint replace_Z (s : string) : string :=
  match s with
  | EmptyString => EmptyString
  | String c s' =>
      if Ascii.eqb c "Z"%char then ("+00:00" ++ replace_Z s')%string
      else String c (replace_Z s')
  end.

(** [x['timestamp']] as the sort key; the entries listed all have a text
    there. *)
Definition timestamp_of (d : gmap string pyval) : string :=
  match d !! "timestamp" with
  | Some (PStr s) => s
  | _ => ""
  end.

Definition le_timestamp (x y : gmap string pyval) : bool :=
  String.leb (timestamp_of x) (timestamp_of y).

Section entries.
(** [datetime.fromisoformat(s)], [None] when it raises ValueError. *)
Variable fromisoformat : string -> option datetime.

(** The body of the inner [try]: the entry of a document and whether it
    lies in the period; [None] when an exception is raised. *)
Definition read_entry (start_date end_date : datetime) (doc : document)
    : option (gmap string pyval * bool) :=
  loaded ← json_loads doc;
  match loaded with
  | JObject mood_data =>
      ts ← mood_data !! "timestamp";
      match ts with
      | PStr s =>
          entry_time ← fromisoformat (replace_Z s);
          not_before ← dt_le start_date entry_time;
          if (not_before : bool) then
            not_after ← dt_le entry_time end_date;
            Some (mood_data, not_after)
          else Some (mood_data, false)
      | _ => None
      end
  | JValue _ => None
  end.

(** One turn of the loop over the documents. *)
Definition collect_entry (start_date end_date : datetime)
    (mood_entries : list (gmap string pyval)) (r : record)
    : list (gmap string pyval) :=
  match read_entry start_date end_date (rec_document r) with
  | Some (mood_data, true) => mood_entries ++ [mood_data]
  | Some (_, false) => mood_entries
  | None => mood_entries
  end.

(** [MoodTracker._get_mood_entries_in_range] *)
Definition _get_mood_entries_in_range (start_date end_date : datetime)
    : memory -> list (gmap string pyval) * memory :=
  catch
    (results ← do_get_where MoodData [("type", MStr "mood_entry")];
     let mood_entries :=
       foldl (collect_entry start_date end_date) [] results in
     mret (stable_sort le_timestamp mood_entries))
    [].
End entries.

End Mood.

(** ** Comparing Python values *)

Module PyCmp.

(** The number a bool, an int or a float denotes. *)
Definition number (v : pyval) : option Q :=
  match v with
  | PBool b => Some (if b then 1 else 0)%Q
  | PInt z => Some (inject_Z z)
  | PFloat q => Some q
  | _ => None
  end.

Fixpoint list_eqb (l1 l2 : list string) : bool :=
  match l1, l2 with
  | [], [] => true
  | x :: l1', y :: l2' => String.eqb x y && list_eqb l1' l2'
  | _, _ => false
  end.

(** [l1 < l2] on lists of texts: the first differing elements decide, and
    a proper prefix is smaller. *)
Fixpoint list_ltb (l1 l2 : list string) : bool :=
  match l1, l2 with
  | [], [] => false
  | [], _ :: _ => true
  | _ :: _, [] => false
  | x :: l1', y :: l2' =>
      if String.eqb x y then list_ltb l1' l2' else String.ltb x y
  end.

(** [v1 == v2] *)
Definition py_eq (v1 v2 : pyval) : bool :=
  match number v1, number v2 with
  | Some q1, Some q2 => Qeq_bool q1 q2
  | Some _, None | None, Some _ => false
  | None, None =>
      match v1, v2 with
      | PNone, PNone => true
      | PStr s1, PStr s2 => String.eqb s1 s2
      | PList l1, PList l2 => list_eqb l1 l2
      | PObject t1, PObject t2 => String.eqb t1 t2
      | _, _ => false
      end
  end.

(** [v1 < v2], [None] when it raises TypeError. *)
Definition py_lt (v1 v2 : pyval) : option bool :=
  match number v1, number v2 with
  | Some q1, Some q2 => Some (negb (Qle_bool q2 q1))
  | Some _, None | None, Some _ => None
  | None, None =>
      match v1, v2 with
      | PStr s1, PStr s2 => Some (String.ltb s1 s2)
      | PList l1, PList l2 => Some (list_ltb l1 l2)
      | _, _ => None
      end
  end.

(** Whether [v] can be a dict key: lists and objects cannot. *)
Definition hashable (v : pyval) : bool :=
  match v with
  | PList _ | PObject _ => false
  | _ => true
  end.

(** [v == text] for a text. *)
Definition is_text (text : string) (v : pyval) : bool :=
  match v with
  | PStr s => String.eqb s text
  | _ => false
  end.

(** [list.sort] with a comparison that may raise.  [lt x y] is
    [key(x) < key(y)].  The sort is stable, and an exception of a
    comparison it makes leaves through the sort.  Which pairs a sort
    compares depends on its algorithm: this one and CPython's agree on
    lists whose keys all compare (both give the stable sorted list) and
    on lists of two elements (both compare the second with the first). *)
Section sort_exn.
Context {A : Type} (lt : A -> A -> option bool).

Fixpoint insert_exn (x : A) (l : list A) : option (list A) :=
  match l with
  | [] => Some [x]
  | y :: l' =>
      b ← lt y x;
      if (b : bool) then cons y <$> insert_exn x l'
      else Some (x :: y :: l')
  end.

Fixpoint sort_exn (l : list A) : option (list A) :=
  match l with
  | [] => Some []
  | x :: l' => sorted ← sort_exn l'; insert_exn x sorted
  end.
End sort_exn.

End PyCmp.

(** ** The task manager (task_manager.py) *)

Module Tasks.
Import PyStr PyCmp Store Memory.

(** [self.priority_levels] *)
Definition priority_levels : list (string * Z) :=
  [("low", 1); ("medium", 2); ("high", 3); ("urgent", 4)]%Z.

(** The keys of [self.task_categories]. *)
Definition task_categories : list string :=
  ["self_care"; "mindfulness"; "exercise"; "social"; "work"; "personal";
   "health"; "learning"; "creative"; "household"].

Definition priority_known (priority : string) : bool :=
  existsb (fun kv => String.eqb priority kv.1) priority_levels.

Definition category_known (category : string) : bool :=
  existsb (String.eqb category) task_categories.

(** [any(keyword in text for keyword in keywords)] *)
Definition any_in (keywords : list string) (text : string) : bool :=
  existsb (fun keyword => contains keyword text) keywords.

Definition tag_keywords : list (string * list string) :=
  [("exercise", ["exercise"; "workout"; "gym"; "run"; "walk"; "bike"]);
   ("meditation", ["meditate"; "mindfulness"; "breathe"; "calm"]);
   ("social", ["call"; "meet"; "friend"; "family"; "visit"]);
   ("creative", ["draw"; "write"; "paint"; "music"; "create"]);
   ("learning", ["study"; "learn"; "read"; "course"; "skill"]);
   ("health", ["doctor"; "appointment"; "medicine"; "therapy"]);
   ("urgent", ["urgent"; "asap"; "deadline"; "important"]);
   ("relaxing", ["relax"; "rest"; "sleep"; "break"; "vacation"])].

(** [TaskManager._extract_tags] *)
Definition _extract_tags (text : string) : list string :=
  let text_lower := lower text in
  List.map fst
    (List.filter (fun tk => any_in tk.2 text_lower) tag_keywords).

(** [TaskManager._estimate_effort] *)
Definition _estimate_effort (title description : string) : string :=
  let text := lower (title ++ " " ++ description)%string in
  if any_in ["project"; "complete"; "finish"; "major"; "big"; "complex"] text
  then "high"
  else if any_in ["quick"; "simple"; "easy"; "call"; "email"; "check"] text
  then "low"
  else "medium".

Definition category_suggestions : list (string * list string) :=
  [("self_care",
    ["Set a peaceful environment before starting";
     "Practice self-compassion throughout";
     "Celebrate completing this self-care activity"]);
   ("work",
    ["Take breaks every hour";
     "Practice deep breathing if you feel stressed";
     "Remember that your worth isn't tied to productivity"]);
   ("exercise",
    ["Start slowly and listen to your body";
     "Focus on how movement makes you feel";
     "Celebrate any movement, no matter how small"]);
   ("social",
    ["Be present and engaged";
     "Practice active listening";
     "It's okay if social interactions feel challenging"])].

(** [TaskManager._generate_wellness_suggestions] *)
Definition _generate_wellness_suggestions (category wellness_impact : string)
    : list string :=
  let suggestions := default [] (Mood.assoc category category_suggestions) in
  let suggestions :=
    if String.eqb wellness_impact "challenging" then
      suggestions ++
        ["Break this task into smaller, manageable steps";
         "Plan a self-care activity for after completion";
         "Remember it's okay to ask for help"]
    else if String.eqb wellness_impact "positive" then
      suggestions ++
        ["Savor the positive feelings this task brings";
         "Notice how accomplishing this improves your mood"]
    else suggestions in
  take 3 suggestions.

(** A field as a metadata value: [None] for None, which is removed
    before the record is written
    ([{k: v for k, v in metadata.items() if v is not None}]); every other
    value goes to the store as it is. *)
Definition meta_of (v : pyval) : option meta_value :=
  match v with
  | PNone => None
  | PBool b => Some (MBool b)
  | PInt z => Some (MInt z)
  | PFloat q => Some (MFloat q)
  | PStr s => Some (MStr s)
  | PList l => Some (MList l)
  | PObject json_text => Some (MObject json_text)
  end.

Definition put_meta (key : string) (v : pyval)
    (metadata : gmap string meta_value) : gmap string meta_value :=
  match meta_of v with
  | Some mv => <[key := mv]> metadata
  | None => metadata
  end.

(** The metadata of [_save_task_to_memory] and [_update_task_in_memory];
    [None] when a field it indexes is missing (KeyError). *)
Definition task_metadata (task : gmap string pyval)
    : option (gmap string meta_value) :=
  id ← task !! "id";
  status ← task !! "status";
  priority ← task !! "priority";
  category ← task !! "category";
  created_at ← task !! "created_at";
  wellness_impact ← task !! "wellness_impact";
  let due_date := default PNone (task !! "due_date") in
  Some (foldl (fun metadata kv => put_meta kv.1 kv.2 metadata) ∅
          [("id", id); ("type", PStr "task"); ("status", status);
           ("priority", priority); ("category", category);
           ("created_at", created_at); ("due_date", due_date);
           ("wellness_impact", wellness_impact)]).

(** The record both write.  Modelled from the spec: the id of a record
    is a text (the MemoryRecord of the data model), so a task whose
    [id] is no text has no record. *)
Definition task_record (task : gmap string pyval) : option record :=
  metadata ← task_metadata task;
  id ← task !! "id";
  match id with
  | PStr s => Some (Record_ s (json_dumps task) metadata)
  | _ => None
  end.

(** [TaskManager._save_task_to_memory]: an exception is printed and
    swallowed. *)
Definition _save_task_to_memory (task : gmap string pyval)
    : memory -> unit * memory :=
  catch (r ← of_option (task_record task); do_add ImportantMemories r) tt.

(** [TaskManager._update_task_in_memory] *)
Definition _update_task_in_memory (task : gmap string pyval)
    : memory -> unit * memory :=
  catch (r ← of_option (task_record task); do_update ImportantMemories r) tt.

Inductive add_result :=
  | TaskAdded (task : gmap string pyval)
  | TaskAddFailed.

Section add.
(** The due date as [add_task] parses it: [datetime.fromisoformat] and
    then the four [strptime] formats, giving the ISO text of the first
    that fits, or [None] when none does. *)
Variable parse_due_date : string -> option string.

(** [TaskManager.add_task], without the motivation and tip texts of the
    result.  [task_id] is the fresh uuid and [now] the clock reading. *)
Definition add_task (title description priority : string)
    (due_date : option string) (category wellness_impact : string)
    (task_id now : string) : memory -> add_result * memory :=
  let parsed_due_date :=
    match due_date with
    | Some d =>
        if String.eqb d "" then PNone
        else match parse_due_date d with
             | Some iso => PStr iso
             | None => PNone
             end
    | None => PNone
    end in
  let task : gmap string pyval :=
    <["id" := PStr task_id]>
    (<["title" := PStr (strip title)]>
    (<["description" := PStr (strip description)]>
    (<["priority" := PStr (if priority_known priority then priority
                           else "medium")]>
    (<["category" := PStr (if category_known category then category
                           else "personal")]>
    (<["wellness_impact" := PStr wellness_impact]>
    (<["status" := PStr "pending"]>
    (<["created_at" := PStr now]>
    (<["due_date" := parsed_due_date]>
    (<["completed_at" := PNone]>
    (<["tags" := PList (_extract_tags (title ++ " " ++ description)%string)]>
    (<["estimated_effort" := PStr (_estimate_effort title description)]>
    (<["wellness_suggestions" :=
         PList (_generate_wellness_suggestions category wellness_impact)]>
       ∅)))))))))))) in
  catch
    (call (_save_task_to_memory task);;
     mret (TaskAdded task))
    TaskAddFailed.
End add.

(** *** Listing *)

(** The sort key of [get_all_tasks]:
    [(-priority_levels.get(priority, 2), due_date)]; [None] when the task
    is no dict (AttributeError) or the priority cannot be a dict key
    (TypeError). *)
Definition sort_key (t : json) : option (Z * pyval) :=
  match t with
  | JObject d =>
      let priority := default (PStr "medium") (d !! "priority") in
      if hashable priority then
        let level :=
          match priority with
          | PStr s => default 2%Z (Mood.assoc s priority_levels)
          | _ => 2%Z
          end in
        Some ((- level)%Z, default (PStr "9999-12-31") (d !! "due_date"))
      else None
  | JValue _ => None
  end.

(** [k1 < k2] on the key tuples: the first components that differ
    decide. *)
Definition key_lt (k1 k2 : Z * pyval) : option bool :=
  if (k1.1 =? k2.1)%Z then
    if py_eq k1.2 k2.2 then Some false else py_lt k1.2 k2.2
  else Some (k1.1 <? k2.1)%Z.

Definition sort_tasks (tasks : list json) : option (list json) :=
  keyed ← mapM (fun t => k ← sort_key t; Some (k, t)) tasks;
  sorted ← sort_exn (fun x y => key_lt x.1 y.1) keyed;
  Some (List.map snd sorted).

Definition task_filter (status category : option string)
    : list (string * meta_value) :=
  [("type", MStr "task")]
  ++ match status with
     | Some s => if String.eqb s "" then [] else [("status", MStr s)]
     | None => []
     end
  ++ match category with
     | Some c => if String.eqb c "" then [] else [("category", MStr c)]
     | None => []
     end.

(** The loop over the documents: one that [json.loads] rejects is
    skipped. *)
Definition load_task (tasks : list json) (r : record) : list json :=
  match json_loads (rec_document r) with
  | Some task => tasks ++ [task]
  | None => tasks
  end.

(** [TaskManager.get_all_tasks] *)
Definition get_all_tasks (status category : option string)
    : memory -> list json * memory :=
  catch
    (results ← do_get_where ImportantMemories (task_filter status category);
     of_option (sort_tasks (foldl load_task [] results)))
    [].

(** *** Updating *)

Definition allowed_updates : list string :=
  ["title"; "description"; "priority"; "category"; "status"; "due_date";
   "wellness_impact"].

(** [next((t for t in existing_tasks if t['id'] == task_id), None)];
    the outer [None] is an exception of [t['id']]. *)
Fixpoint find_task (task_id : string) (existing_tasks : list json)
    : option (option (gmap string pyval)) :=
  match existing_tasks with
  | [] => Some None
  | JObject d :: rest =>
      id ← d !! "id";
      if is_text task_id id then Some (Some d) else find_task task_id rest
  | JValue _ :: _ => None
  end.

(** One turn of the loop over [updates.items()]; [now] is the clock
    reading for [completed_at]. *)
Definition apply_update (now : string) (key : string) (value : pyval)
    (acc : option (gmap string pyval)) : option (gmap string pyval) :=
  task ← acc;
  if existsb (String.eqb key) allowed_updates then
    if String.eqb key "status" && is_text "completed" value then
      status ← task !! "status";
      let task :=
        if negb (is_text "completed" status)
        then <["completed_at" := PStr now]> task
        else task in
      Some (<[key := value]> task)
    else Some (<[key := value]> task)
  else Some task.

Inductive update_result :=
  | TaskUpdated (task : gmap string pyval)
  | TaskNotFound
  | TaskUpdateFailed.

(** [TaskManager.update_task], without the celebration text of the
    result (the text needs [task['title']], which is kept).
    [now_completed] and [now_updated] are the clock readings. *)
Definition update_task (task_id : string) (updates : gmap string pyval)
    (now_completed now_updated : string)
    : memory -> update_result * memory :=
  catch
    (existing_tasks ← call (get_all_tasks None None);
     found ← of_option (find_task task_id existing_tasks);
     match found with
     | None => mret TaskNotFound
     | Some task =>
         task ← of_option
                  (map_fold (apply_update now_completed) (Some task) updates);
         let task := <["updated_at" := PStr now_updated]> task in
         call (_update_task_in_memory task);;
         (if is_text "completed" (default PNone (updates !! "status"))
          then of_option (task !! "title");; mret tt
          else mret tt);;
         mret (TaskUpdated task)
     end)
    TaskUpdateFailed.

(** [TaskManager.delete_task] *)
Definition delete_task (task_id : string) : memory -> bool * memory :=
  catch (do_delete ImportantMemories task_id;; mret true) false.

End Tasks.


(** ** More of the memory manager (memory_manager.py) *)

Module Manager.
Import PyCmp Store Memory Tasks.

(** A message of the short-term buffer. *)
Inductive message :=
  | HumanMessage (content : string)
  | AIMessage (content : string)
  | OtherMessage (content : string).

(** *** Saving *)

(** What a save reports: the dict of a success, or [saved: False]. *)
Inductive save_result :=
  | Saved (result : gmap string pyval)
  | NotSaved.

(** The metadata written with a record,
    [{k: v for k, v in metadata.items() if v is not None}]: the fields
    whose value is not None. *)
Definition clean_metadata (fields : list (string * pyval))
    : gmap string meta_value :=
  foldl (fun metadata kv => put_meta kv.1 kv.2 metadata) ∅ fields.

(** [MemoryManager.save_reflection]; [reflection_id] is the fresh uuid
    and [now] the clock reading. *)
Definition save_reflection (reflection_content : document) (category : pyval)
    (reflection_id now : string) : memory -> save_result * memory :=
  catch
    (let metadata :=
       clean_metadata
         [("id", PStr reflection_id); ("category", category);
          ("timestamp", PStr now); ("type", PStr "reflection")] in
     do_add Reflections (Record_ reflection_id reflection_content metadata);;
     mret (Saved (<["id" := PStr reflection_id]>
                    (<["saved" := PBool true]>
                       (<["category" := category]>
                          (<["timestamp" := PStr now]> ∅))))))
    NotSaved.

(** [MemoryManager.remember_important] *)
Definition remember_important (content : document) (importance : pyval)
    (memory_id now : string) : memory -> save_result * memory :=
  catch
    (let metadata :=
       clean_metadata
         [("id", PStr memory_id); ("importance", importance);
          ("timestamp", PStr now); ("type", PStr "important_memory")] in
     do_add ImportantMemories (Record_ memory_id content metadata);;
     mret (Saved (<["id" := PStr memory_id]>
                    (<["saved" := PBool true]>
                       (<["importance" := importance]>
                          (<["timestamp" := PStr now]> ∅))))))
    NotSaved.

Section sos.
(** The document a text is: which texts are JSON is up to [json]. *)
Variable document_of : string -> document.

(** [MemoryManager.save_sos_request].  Modelled from the spec: the
    document of a record is a text (the MemoryRecord of the data model),
    so a content that is no text gives no record. *)
Definition save_sos_request (sos_data : gmap string pyval) (sos_id : string)
    : memory -> save_result * memory :=
  catch
    (timestamp ← of_option (sos_data !! "timestamp");
     let metadata :=
       clean_metadata
         [("id", PStr sos_id);
          ("urgency", default (PStr "medium") (sos_data !! "urgency"));
          ("timestamp", timestamp);
          ("type", PStr "sos_request");
          ("location", default (PStr "unknown") (sos_data !! "location"))] in
     content ← of_option (sos_data !! "content");
     doc ← of_option (match content with
                      | PStr s => Some (document_of s)
                      | _ => None
                      end);
     do_add SosRequests (Record_ sos_id doc metadata);;
     mret (Saved (<["id" := PStr sos_id]>
                    (<["saved" := PBool true]>
                       (<["timestamp" := timestamp]> ∅)))))
    NotSaved.
End sos.

(** *** Statistics *)

Record stats := Stats {
  message_count : nat;
  max_token_limit : Z;
  long_term : gmap string nat
}.

(** The collections [get_memory_stats] counts. *)
Definition counted : list (string * coll_name) :=
  [("reflections", Reflections);
   ("important_memories", ImportantMemories);
   ("mood_data", MoodData);
   ("sos_requests", SosRequests);
   ("user_profile", UserProfile)].

(** [MemoryManager.get_memory_stats]; [messages] is the short-term
    buffer and [limit] the token limit the manager was made with. *)
Definition get_memory_stats (messages : list message) (limit : Z)
    (m : memory) : stats :=
  Stats (List.length messages) limit
    (foldl (fun long_term nc => <[nc.1 := count (coll nc.2 m)]> long_term)
       ∅ counted).

(** *** Reflections *)

(** An entry of the list [get_user_reflections] returns; a field the
    metadata does not hold is None. *)
Record reflection := Reflection {
  refl_id : option meta_value;
  refl_content : document;
  refl_category : option meta_value;
  refl_timestamp : option meta_value;
  refl_type : option meta_value
}.

Definition reflection_of (r : record) : reflection :=
  Reflection (rec_metadata r !! "id") (rec_document r)
    (rec_metadata r !! "category") (rec_metadata r !! "timestamp")
    (rec_metadata r !! "type").

(** The Python value of a metadata field, None when it is absent. *)
Definition field_value (v : option meta_value) : pyval :=
  match v with
  | None => PNone
  | Some (MStr s) => PStr s
  | Some (MInt z) => PInt z
  | Some (MFloat q) => PFloat q
  | Some (MBool b) => PBool b
  | Some (MList l) => PList l
  | Some (MObject json_text) => PObject json_text
  end.

(** [l.sort(key=..., reverse=True)]: the list is reversed, sorted, and
    reversed again, so that elements with equal keys keep their order. *)
Definition sort_reverse {A} (lt : A -> A -> option bool) (l : list A)
    : option (list A) :=
  sorted ← sort_exn lt (rev l); Some (rev sorted).

(** [v1 <= v2] for two numbers, for two texts and for two lists of
    texts. *)
Definition py_le (v1 v2 : pyval) : Prop :=
  match number v1, number v2 with
  | Some q1, Some q2 => (q1 <= q2)%Q
  | None, None =>
      match v1, v2 with
      | PStr s1, PStr s2 => String.leb s1 s2 = true
      | PList l1, PList l2 => list_ltb l2 l1 = false
      | _, _ => False
      end
  | _, _ => False
  end.

Section reflections.
(** The cut the store makes for [limit]: which of the records found it
    returns. *)
Variable limited : list record -> Z -> list record.

(** [MemoryManager.get_user_reflections] *)
Definition get_user_reflections (category : option string) (limit : Z)
    : memory -> list reflection * memory :=
  let where_filter :=
    match category with
    | Some c => if String.eqb c "" then [] else [("category", MStr c)]
    | None => []
    end in
  catch
    (results ← do_get_where Reflections where_filter;
     let reflections := List.map reflection_of (limited results limit) in
     of_option
       (sort_reverse
          (fun x y => py_lt (field_value (refl_timestamp x))
                        (field_value (refl_timestamp y)))
          reflections))
    [].
End reflections.

(** *** Journals *)

Inductive journal_saved :=
  | JournalSaved (id timestamp : string)
  | JournalNotSaved.

Definition journal_document (user_id now text : string) : gmap string pyval :=
  <["userId" := PStr user_id]>
    (<["date" := PStr now]> (<["text" := PStr text]> ∅)).

Definition journal_metadata (entry_id user_id now : string)
    : gmap string meta_value :=
  <["id" := MStr entry_id]>
    (<["userId" := MStr user_id]>
       (<["date" := MStr now]> (<["type" := MStr "journal_entry"]> ∅))).

(** [MemoryManager.save_journal_entry] *)
Definition save_journal_entry (user_id text entry_id now : string)
    : memory -> journal_saved * memory :=
  catch
    (do_add Journals
       (Record_ entry_id (json_dumps (journal_document user_id now text))
          (journal_metadata entry_id user_id now));;
     mret (JournalSaved entry_id now))
    JournalNotSaved.

(** An entry as [get_latest_journal_entry] returns it: the dict of the
    document with the metadata of the record under the key metadata.
    [entry_fields] holds the other keys. *)
Record journal_entry := JournalEntry {
  entry_fields : gmap string pyval;
  entry_metadata : gmap string meta_value
}.

(** The body of the inner [try]: [None] when the document is not JSON
    or is no dict, which takes no item. *)
Definition read_journal (r : record) : option journal_entry :=
  loaded ← json_loads (rec_document r);
  match loaded with
  | JObject d => Some (JournalEntry (base.delete "metadata" d) (rec_metadata r))
  | JValue _ => None
  end.

Inductive journal_lookup :=
  | JournalFound (entry : journal_entry)
  | JournalNoEntries
  | JournalError.

(** The [where] of [get_latest_journal_entry]. *)
Definition journal_filter (user_id : string) : list (string * meta_value) :=
  [("userId", MStr user_id); ("type", MStr "journal_entry")].

(** [MemoryManager.get_latest_journal_entry] *)
Definition get_latest_journal_entry (user_id : string)
    : memory -> journal_lookup * memory :=
  catch
    (results ← do_get_where Journals (journal_filter user_id);
     let entries := omap read_journal results in
     match entries with
     | [] => mret JournalNoEntries
     | _ :: _ =>
         keyed ← of_option
                   (mapM (fun e => k ← entry_fields e !! "date"; Some (k, e))
                      entries);
         sorted ← of_option (sort_reverse (fun x y => py_lt x.1 y.1) keyed);
         match sorted with
         | latest :: _ => mret (JournalFound latest.2)
         | [] => of_option None
         end
     end)
    JournalError.

(** *** Facts by category *)

Section category.
(** [d.get(key)] for the nested object with the JSON text [text]. *)
Variable object_get : string -> string -> option pyval.

(** [MemoryManager.get_user_memory_category]: a profile or a value under
    memories that is no dict has no [get], and the exception gives the
    empty list. *)
Definition get_user_memory_category (category : string)
    : memory -> pyval * memory :=
  catch
    (profile ← call get_user_profile;
     match profile_of profile with
     | JObject d =>
         match d !! "memories" with
         | None => mret (PList [])
         | Some (PObject text) =>
             mret (default (PList []) (object_get text category))
         | Some _ => of_option None
         end
     | JValue _ => of_option None
     end)
    (PList []).
End category.

End Manager.

(** ** The memory feedback (conversation_chain.py) *)

Module Feedback.

Section feedback.
(** [str(l)] for a list of texts, as an f-string writes it. *)
Variable repr_list : list string -> string.

Definition fact_text (v : fact_value) : string :=
  match v with
  | FStr s => s
  | FList l => repr_list l
  end.

(** [', '.join(v)]: over the elements of a list, and over the characters
    of a text. *)
Definition join_fact (v : fact_value) : string :=
  match v with
  | FList l => String.concat ", " l
  | FStr s =>
      String.concat ", "
        (List.map (fun c => String c EmptyString) (list_ascii_of_string s))
  end.

(** The sentence for a key the facts hold. *)
Definition sentence (facts : gmap string fact_value) (key : string)
    (text : fact_value -> string) : list string :=
  match facts !! key with
  | Some v => [text v]
  | None => []
  end.

(** [ConversationChain._generate_memory_feedback] *)
Definition _generate_memory_feedback (facts : gmap string fact_value)
    (language : string) : string :=
  if decide (facts = ∅) then ""
  else
    let feedback :=
      sentence facts "name"
        (fun v => "I've stored that your name is " ++ fact_text v
                  ++ ". This will help me personalize our conversations.")%string
      ++ sentence facts "pets"
           (fun v => "I've stored that your pet's name is " ++ join_fact v
                     ++ ".")%string
      ++ sentence facts "support_preferences"
           (fun v => "I've stored your support preference: " ++ join_fact v
                     ++ ".")%string
      ++ sentence facts "notes"
           (fun v => "I've stored this note: " ++ join_fact v ++ ".")%string in
    match feedback with
    | [] => ""
    | _ :: _ => String.concat " " feedback
    end.
End feedback.

End Feedback.

(** ** Views of the task results *)

Module TaskViews.
Import Tasks.


(** The task a call of [add_task] reports. *)
Definition added (a : add_result) : gmap string pyval :=
  match a with
  | TaskAdded task => task
  | TaskAddFailed => ∅
  end.

End TaskViews.


(** * Properties *)

(** ** Text *)

Module PyStrTheory.
Import PyStr.

Lemma strip_prefix_app (p s t : string) :
  strip_prefix p s = Some t -> s = (p ++ t)%string.
Proof.
  revert s; induction p as [|a p IH]; intros s H; simpl in H.
  - injection H as ->; reflexivity.
  - destruct s as [|b s]; [discriminate|].
    destruct (Ascii.eqb a b) eqn:E; [|discriminate].
    apply Ascii.eqb_eq in E; subst b.
    apply IH in H; rewrite H at 1; reflexivity.
Qed.

Lemma startswith_contains (p s : string) :
  startswith p s = true -> contains p s = true.
Proof. intros H; destruct s; simpl; rewrite H; reflexivity. Qed.

(** [sep in s] holds exactly when [s.split(sep, 1)] has a second part. *)
Lemma contains_partition (sep s : string) :
  contains sep s = true -> exists h t, partition sep s = Some (h, t).
Proof.
  induction s as [|c s IH]; simpl; unfold startswith.
  - destruct (strip_prefix sep "") eqn:E; [eauto|discriminate].
  - destruct (strip_prefix sep (String c s)) eqn:E; [eauto|].
    simpl; intros H; destruct (IH H) as (h & t & ->); eauto.
Qed.

Lemma contains_split1 (sep s : string) :
  contains sep s = true -> exists t, split1 sep s !! 1%nat = Some t.
Proof.
  intros H; destruct (contains_partition _ _ H) as (h & t & E).
  unfold split1; rewrite E; eauto.
Qed.

End PyStrTheory.

(** ** Fact extraction *)

Module FactsTheory.
Import PyStr PyStrTheory Facts.

(** After the guard of the branch, the text has a colon to split at. *)
Lemma store_this_has_colon (s : string) :
  startswith "store this:" s || startswith "store this :" s = true ->
  exists tail, split1 ":" s !! 1%nat = Some tail.
Proof.
  intros H; apply contains_split1.
  apply orb_true_iff in H; destruct H as [H|H]; unfold startswith in H.
  - destruct (strip_prefix "store this:" s) eqn:E; [|discriminate].
    apply strip_prefix_app in E; subst s; reflexivity.
  - destruct (strip_prefix "store this :" s) eqn:E; [|discriminate].
    apply strip_prefix_app in E; subst s; reflexivity.
Qed.

(** The branch writes one list of one text, under one of three keys. *)
Lemma store_this_shape (fact_text : string) :
  exists key item,
    store_this fact_text = Some {[key := FList [item]]} /\
    (key = "pets" \/ key = "support_preferences" \/ key = "notes").
Proof.
  unfold store_this.
  destruct (contains "name is" fact_text) eqn:Hn.
  - destruct (contains_split1 _ _ Hn) as (t & Ht).
    destruct (contains "dog" fact_text); simpl; [rewrite Ht; simpl; eauto 6|].
    destruct (contains "cat" fact_text); simpl; [rewrite Ht; simpl; eauto 6|].
    destruct (contains "like" fact_text) eqn:Hl; simpl.
    { destruct (contains_split1 _ _ Hl) as (u & ->); simpl; eauto 6. }
    destruct (contains "enjoy" fact_text) eqn:He; simpl; [|eauto 6].
    destruct (contains_split1 _ _ He) as (u & ->); simpl; eauto 6.
  - rewrite !andb_false_r.
    destruct (contains "like" fact_text) eqn:Hl; simpl.
    { destruct (contains_split1 _ _ Hl) as (u & ->); simpl; eauto 6. }
    destruct (contains "enjoy" fact_text) eqn:He; simpl; [|eauto 6].
    destruct (contains_split1 _ _ He) as (u & ->); simpl; eauto 6.
Qed.

(** C5. A message whose lower-cased, trimmed form starts with
    "store this:" (or "store this :") gets the delta of the store-this
    branch and nothing else: the extraction returns what [store_this]
    gives for the text after the colon, that delta is one list of one text
    under pets, support_preferences or notes, and it has no name key, so
    the name patterns are not applied to the message.  "Store this: my
    dog's name is Bruno" yields exactly pets = ["Bruno"], and a stored
    text that itself reads "my name is john" becomes a note, not a name. *)
Theorem extract_store_this_only (message : string) :
  startswith "store this:" (strip (lower message))
  || startswith "store this :" (strip (lower message)) = true ->
  (exists tail,
      split1 ":" (strip (lower message)) !! 1%nat = Some tail /\
      _extract_user_facts message = store_this (strip tail)) /\
  (exists key item facts,
      _extract_user_facts message = Some facts /\
      facts = {[key := FList [item]]} /\
      (key = "pets" \/ key = "support_preferences" \/ key = "notes") /\
      facts !! "name" = None) /\
  _extract_user_facts "Store this: my dog's name is Bruno"
    = Some {["pets" := FList ["Bruno"]]} /\
  _extract_user_facts "store this: my name is john"
    = Some {["notes" := FList ["my name is john"]]}.
Proof.
  intros H.
  destruct (store_this_has_colon _ H) as (tail & Ht).
  assert (E : _extract_user_facts message = store_this (strip tail)).
  { unfold _extract_user_facts. rewrite H, Ht. reflexivity. }
  split; [eauto|]. split.
  - destruct (store_this_shape (strip tail)) as (key & item & Hs & Hk).
    exists key, item, {[key := FList [item]]}.
    rewrite E. repeat split; auto.
    apply lookup_singleton_ne.
    destruct Hk as [->|[->| ->]]; discriminate.
  - split; reflexivity.
Qed.

Lemma extract_store_this_only_witness :
  exists facts,
    _extract_user_facts "Store this : I like tea" = Some facts /\
    facts !! "name" = None.
Proof.
  destruct (extract_store_this_only "Store this : I like tea" eq_refl)
    as (_ & (key & item & facts & H1 & _ & _ & H2) & _).
  exists facts; split; assumption.
Defined.

(** C4, as stated, fails: on "my name is john call me jo" both patterns
    match with names longer than one character, the first one captures
    "John Call Me Jo", and the name stored is "Jo", which the second
    pattern wrote over it. *)
Lemma first_pattern_does_not_win :
  exists message n1 n2,
    pattern_name "my name is " (strip (lower message)) = Some n1 /\
    pattern_name "call me " (strip (lower message)) = Some n2 /\
    (1 < String.length n1)%nat /\ (1 < String.length n2)%nat /\
    (_extract_user_facts message ≫= lookup "name") <> Some (FStr n1).
Proof.
  exists "my name is john call me jo", "John Call Me Jo", "Jo".
  repeat split; try reflexivity; try (simpl; lia).
  vm_compute. discriminate.
Qed.

(** C4, amended.  When a message outside the store-this branch matches
    both name patterns and each trimmed name is longer than one character,
    the name field holds the title-cased name captured by the last
    pattern, "call me": the loop has no break, each matching pattern
    writes name in turn, and the later one overwrites the earlier. *)
Theorem last_pattern_wins (message n1 n2 : string) :
  startswith "store this:" (strip (lower message))
  || startswith "store this :" (strip (lower message)) = false ->
  pattern_name "my name is " (strip (lower message)) = Some n1 ->
  pattern_name "call me " (strip (lower message)) = Some n2 ->
  (1 < String.length n1)%nat -> (1 < String.length n2)%nat ->
  _extract_user_facts message = Some {["name" := FStr n2]}.
Proof.
  intros Hs H1 H2 L1 L2.
  unfold _extract_user_facts; rewrite Hs.
  unfold scan_names, name_patterns; simpl.
  unfold name_step; rewrite H1, H2.
  apply Nat.ltb_lt in L1, L2; rewrite L1, L2.
  f_equal; try apply insert_insert_eq.
Qed.

Lemma last_pattern_wins_witness :
  _extract_user_facts "my name is john call me jo"
    = Some {["name" := FStr "Jo"]}.
Proof.
  apply (last_pattern_wins "my name is john call me jo" "John Call Me Jo" "Jo");
    try reflexivity; simpl; lia.
Defined.

End FactsTheory.

(** ** The user profile *)

Module MemoryTheory.
Import Store Memory.

Lemma get_one (c : collection) (id : string) :
  get c [id] = List.filter (has_id id) c.
Proof.
  unfold get. apply List.filter_ext. intros r; simpl. apply orb_false_r.
Qed.

Lemma filter_nil_existsb {A} (f : A -> bool) (l : list A) :
  List.filter f l = [] <-> existsb f l = false.
Proof.
  induction l as [|x l IH]; simpl; [tauto|].
  destruct (f x); simpl; [split; discriminate|exact IH].
Qed.

Lemma update_user_profile_unfold (P : gmap string pyval) (now : string) (m : memory) :
  update_user_profile P now m =
  (ProfileUpdated now profile_id,
   let m' := logged UserProfile (CallGet [profile_id]) m in
   let r := profile_record P now in
   if existsb (has_id profile_id) (user_profile_collection m) then
     set_coll UserProfile
       (List.map (fun r' => if has_id profile_id r' then r else r')
          (user_profile_collection m))
       (logged UserProfile (CallUpdate profile_id) m')
   else
     set_coll UserProfile (user_profile_collection m ++ [r])
       (logged UserProfile (CallAdd profile_id) m')).
Proof.
  unfold update_user_profile, catch, try_except, mbind, M_bind, bind, do_get, ret.
  rewrite get_one. simpl.
  destruct (List.filter (has_id profile_id) (user_profile_collection m)) eqn:E.
  - apply filter_nil_existsb in E. 
    unfold do_add, add. simpl. rewrite E. reflexivity.
  - assert (E' : existsb (has_id profile_id) (user_profile_collection m) = true).
    { destruct (existsb _ _) eqn:X; [reflexivity|].
      apply filter_nil_existsb in X. congruence. }
    unfold do_update, update. simpl. rewrite E'. reflexivity.
Qed.

Section replace.
Variables (id : string) (r : record).
Hypothesis r_id : rec_id r = id.

Let repl (r' : record) : record := if has_id id r' then r else r'.

Lemma has_id_true (r' : record) : has_id id r' = true <-> rec_id r' = id.
Proof. unfold has_id. apply String.eqb_eq. Qed.

Lemma has_id_self : has_id id r = true.
Proof. apply has_id_true, r_id. Qed.

Lemma existsb_has_id (c : collection) :
  existsb (has_id id) c = true <-> In id (List.map rec_id c).
Proof.
  rewrite existsb_exists, in_map_iff.
  split; intros (x & H1 & H2).
  - exists x; split; [apply has_id_true|]; assumption.
  - exists x; split; [|apply has_id_true]; assumption.
Qed.

Lemma replace_ids (c : collection) :
  List.map rec_id (List.map repl c) = List.map rec_id c.
Proof.
  rewrite List.map_map. apply List.map_ext. intros x. unfold repl.
  destruct (has_id id x) eqn:E; [|reflexivity].
  apply has_id_true in E. congruence.
Qed.

Lemma replace_absent (c : collection) :
  existsb (has_id id) c = false -> List.filter (has_id id) (List.map repl c) = [].
Proof.
  induction c as [|x c IH]; simpl; [reflexivity|].
  intros H; apply orb_false_iff in H; destruct H as [H1 H2].
  unfold repl at 1; rewrite H1, H1. auto.
Qed.

Lemma replace_present (c : collection) :
  NoDup (List.map rec_id c) -> existsb (has_id id) c = true ->
  List.filter (has_id id) (List.map repl c) = [r].
Proof.
  induction c as [|x c IH]; simpl; [discriminate|].
  intros ND H. apply NoDup_cons in ND; destruct ND as [Hx ND].
  destruct (has_id id x) eqn:E.
  - replace (repl x) with r by (unfold repl; rewrite E; reflexivity).
    rewrite has_id_self. f_equal. apply replace_absent.
    destruct (existsb (has_id id) c) eqn:X; [|reflexivity].
    apply existsb_has_id in X. apply has_id_true in E. rewrite E in Hx.
    exfalso; apply Hx. apply list_elem_of_In; exact X.
  - replace (repl x) with x by (unfold repl; rewrite E; reflexivity).
    rewrite E. apply IH; assumption.
Qed.

Lemma append_absent (c : collection) :
  existsb (has_id id) c = false -> List.filter (has_id id) (c ++ [r]) = [r].
Proof.
  intros H. rewrite List.filter_app. simpl. rewrite has_id_self.
  apply filter_nil_existsb in H. rewrite H. reflexivity.
Qed.

Lemma append_NoDup (c : collection) :
  NoDup (List.map rec_id c) -> existsb (has_id id) c = false ->
  NoDup (List.map rec_id (c ++ [r])).
Proof.
  intros ND H. rewrite List.map_app. simpl. apply NoDup_app. repeat split.
  - exact ND.
  - intros x Hx Hr. apply list_elem_of_In in Hx, Hr. destruct Hr as [<-|[]].
    rewrite r_id in Hx. apply existsb_has_id in Hx. congruence.
  - apply NoDup_singleton.
Qed.
End replace.

Lemma profile_record_id (P : gmap string pyval) (now : string) :
  rec_id (profile_record P now) = profile_id.
Proof. reflexivity. Qed.

(** What one call leaves behind, whatever was stored before. *)
Lemma update_user_profile_post (P : gmap string pyval) (now : string) (m : memory) :
  NoDup (List.map rec_id (user_profile_collection m)) ->
  let m' := (update_user_profile P now m).2 in
  (update_user_profile P now m).1 = ProfileUpdated now profile_id /\
  existsb (has_id profile_id) (user_profile_collection m') = true /\
  NoDup (List.map rec_id (user_profile_collection m')) /\
  List.filter (has_id profile_id) (user_profile_collection m')
    = [profile_record P now].
Proof.
  intros ND. rewrite update_user_profile_unfold. simpl.
  split; [reflexivity|].
  destruct (existsb (has_id profile_id) (user_profile_collection m)) eqn:E; simpl.
  - repeat split.
    + apply existsb_has_id.
      rewrite (replace_ids profile_id _ (profile_record_id P now)).
      apply existsb_has_id, E.
    + rewrite (replace_ids profile_id _ (profile_record_id P now)). exact ND.
    + apply (replace_present profile_id _ (profile_record_id P now)); assumption.
  - repeat split.
    + rewrite existsb_app. simpl. apply orb_true_r.
    + apply (append_NoDup profile_id _ (profile_record_id P now)); assumption.
    + apply (append_absent profile_id _ (profile_record_id P now)); assumption.
Qed.

(** A call on a collection that holds the profile is one [get] and one
    [update], which overwrites the record where it is. *)
Lemma update_user_profile_present (P : gmap string pyval) (now : string) (m : memory) :
  existsb (has_id profile_id) (user_profile_collection m) = true ->
  let m' := (update_user_profile P now m).2 in
  update (user_profile_collection m) (profile_record P now)
    = Some (user_profile_collection m') /\
  count (user_profile_collection m') = count (user_profile_collection m) /\
  calls m' = calls m ++ [(UserProfile, CallGet [profile_id]);
                         (UserProfile, CallUpdate profile_id)].
Proof.
  intros E. rewrite update_user_profile_unfold. simpl. rewrite E. simpl.
  repeat split.
  - unfold update. simpl. fold (has_id profile_id). rewrite E. reflexivity.
  - unfold count. apply List.length_map.
  - rewrite <- app_assoc. reflexivity.
Qed.

(** C1. Calling [update_user_profile] twice in a row, on any state of
    the profile collection whose ids are distinct, leaves exactly one
    record with the id "user_profile_main", holding the profile and the
    metadata of the second call.  Both calls report success with that id.
    The second call is one [get] followed by one [update] of the store (no
    [delete], no [add]): it overwrites the record in place and the count
    of the collection does not change.  From the empty collection the
    collection holds that single record after each call. *)
Theorem profile_upsert_single_record
    (P : gmap string pyval) (t1 t2 : string) (m : memory) :
  NoDup (List.map rec_id (user_profile_collection m)) ->
  let m1 := (update_user_profile P t1 m).2 in
  let m2 := (update_user_profile P t2 m1).2 in
  (update_user_profile P t1 m).1 = ProfileUpdated t1 "user_profile_main" /\
  (update_user_profile P t2 m1).1 = ProfileUpdated t2 "user_profile_main" /\
  List.filter (has_id "user_profile_main") (user_profile_collection m2)
    = [profile_record P t2] /\
  count (user_profile_collection m2) = count (user_profile_collection m1) /\
  update (user_profile_collection m1) (profile_record P t2)
    = Some (user_profile_collection m2) /\
  calls m2 = calls m1 ++ [(UserProfile, CallGet ["user_profile_main"]);
                          (UserProfile, CallUpdate "user_profile_main")] /\
  (user_profile_collection m = [] ->
   user_profile_collection m1 = [profile_record P t1] /\
   user_profile_collection m2 = [profile_record P t2] /\
   count (user_profile_collection m2) = 1%nat).
Proof.
  intros ND m1 m2.
  destruct (update_user_profile_post P t1 m ND) as (R1 & E1 & ND1 & F1).
  fold m1 in E1, ND1, F1.
  destruct (update_user_profile_post P t2 m1 ND1) as (R2 & E2 & ND2 & F2).
  fold m2 in E2, ND2, F2.
  destruct (update_user_profile_present P t2 m1 E1) as (U & C & L).
  fold m2 in U, C, L.
  repeat split; try assumption.
  - subst m1. rewrite update_user_profile_unfold. simpl. rewrite H. reflexivity.
  - subst m2. rewrite update_user_profile_unfold. simpl.
    subst m1. rewrite update_user_profile_unfold. simpl. rewrite H. reflexivity.
  - subst m2. rewrite update_user_profile_unfold. simpl.
    subst m1. rewrite update_user_profile_unfold. simpl. rewrite H. reflexivity.
Qed.

Lemma profile_upsert_single_record_witness :
  let P : gmap string pyval := {["name" := PStr "Alex"]} in
  let m1 := (update_user_profile P "t1" empty_memory).2 in
  let m2 := (update_user_profile P "t2" m1).2 in
  user_profile_collection m2 = [profile_record P "t2"] /\
  count (user_profile_collection m2) = 1%nat.
Proof.
  intros P m1 m2.
  destruct (profile_upsert_single_record P "t1" "t2" empty_memory (NoDup_nil_2))
    as (_ & _ & _ & _ & _ & _ & H).
  destruct (H eq_refl) as (_ & H2 & H3). split; assumption.
Defined.

End MemoryTheory.

(** ** Merging facts into the profile *)

Module ChainTheory.
Import Store Memory MemoryTheory Chain.

Section merge.
Variable list_of_set : list string -> list string.

(** What Python promises of [list(set(xs))]: the elements of [xs], each
    once. *)
Hypothesis list_of_set_spec :
  forall xs, NoDup (list_of_set xs) /\ forall x, x ∈ list_of_set xs <-> x ∈ xs.

(** The loop leaves at every key of the delta the value its turn writes,
    and every other key as it was. *)
Lemma merge_facts_lookup (facts : gmap string fact_value)
    (profile_data : gmap string pyval) (key : string) :
  merge_facts list_of_set facts profile_data !! key =
  match facts !! key with
  | Some value => Some (merged_value list_of_set profile_data key value)
  | None => profile_data !! key
  end.
Proof.
  unfold merge_facts. revert key.
  apply (map_fold_weak_ind
           (fun r (m : gmap string fact_value) => forall key,
              r !! key = match m !! key with
                         | Some value =>
                             Some (merged_value list_of_set profile_data key value)
                         | None => profile_data !! key
                         end)).
  - intros key. rewrite lookup_empty. reflexivity.
  - intros i x m r Hi IH key.
    destruct (decide (i = key)) as [->|Hne].
    + rewrite lookup_insert_eq.
      unfold merge_step, merged_value, existing_list.
      destruct x as [s|l]; rewrite lookup_insert_eq; [reflexivity|].
      rewrite (IH key), Hi. reflexivity.
    + rewrite (lookup_insert_ne m i key x Hne).
      rewrite <- (IH key). unfold merge_step.
      destruct x; apply lookup_insert_ne; assumption.
Qed.

(** Scalar facts overwrite. *)
Lemma merge_facts_scalar (facts : gmap string fact_value)
    (profile_data : gmap string pyval) (key s : string) :
  facts !! key = Some (FStr s) ->
  merge_facts list_of_set facts profile_data !! key = Some (PStr s).
Proof. intros H. rewrite merge_facts_lookup, H. reflexivity. Qed.

(** C2. For every profile and every fact delta, at a key where the delta
    holds a list the merge writes a list without duplicates.  When the
    profile holds a list at that key, the elements written are exactly
    those of the stored list and those of the delta list: every stored
    element is kept and every new one is added.  When the profile holds
    nothing or no list at that key, they are exactly those of the delta
    list.  The order is the one Python gives the set.  Merging pets
    ["Bruno"] with the delta pets ["Bruno"; "Whiskers"], and with the
    delta pets ["Whiskers"], gives a permutation of ["Bruno"; "Whiskers"];
    merging the text "Bruno" with the delta pets ["Whiskers"] gives
    ["Whiskers"]. *)
Theorem merge_list_is_set_union :
  (forall (facts : gmap string fact_value) (profile_data : gmap string pyval)
          (key : string) (value : list string),
      facts !! key = Some (FList value) ->
      exists merged,
        merge_facts list_of_set facts profile_data !! key = Some (PList merged) /\
        NoDup merged /\
        (forall x, x ∈ merged <->
                   x ∈ existing_list profile_data key \/ x ∈ value) /\
        (forall existing, profile_data !! key = Some (PList existing) ->
           forall x, x ∈ merged <-> x ∈ existing \/ x ∈ value) /\
        ((forall existing, profile_data !! key <> Some (PList existing)) ->
           forall x, x ∈ merged <-> x ∈ value)) /\
  (exists merged,
      merge_facts list_of_set {["pets" := FList ["Bruno"; "Whiskers"]]}
        {["pets" := PList ["Bruno"]]} !! "pets" = Some (PList merged) /\
      merged ≡ₚ ["Bruno"; "Whiskers"]) /\
  (exists merged,
      merge_facts list_of_set {["pets" := FList ["Whiskers"]]}
        {["pets" := PList ["Bruno"]]} !! "pets" = Some (PList merged) /\
      merged ≡ₚ ["Bruno"; "Whiskers"]) /\
  (exists merged,
      merge_facts list_of_set {["pets" := FList ["Whiskers"]]}
        {["pets" := PStr "Bruno"]} !! "pets" = Some (PList merged) /\
      merged ≡ₚ ["Whiskers"]).
Proof.
  assert (G : forall (facts : gmap string fact_value)
                     (profile_data : gmap string pyval)
                     (key : string) (value : list string),
      facts !! key = Some (FList value) ->
      exists merged,
        merge_facts list_of_set facts profile_data !! key = Some (PList merged) /\
        NoDup merged /\
        (forall x, x ∈ merged <->
                   x ∈ existing_list profile_data key \/ x ∈ value) /\
        (forall existing, profile_data !! key = Some (PList existing) ->
           forall x, x ∈ merged <-> x ∈ existing \/ x ∈ value) /\
        ((forall existing, profile_data !! key <> Some (PList existing)) ->
           forall x, x ∈ merged <-> x ∈ value)).
  { intros facts profile_data key value H.
    exists (list_of_set (existing_list profile_data key ++ value)).
    rewrite merge_facts_lookup, H.
    destruct (list_of_set_spec (existing_list profile_data key ++ value))
      as [ND EL].
    assert (U : forall x,
               x ∈ list_of_set (existing_list profile_data key ++ value) <->
               x ∈ existing_list profile_data key \/ x ∈ value).
    { intros x. rewrite (EL x). apply elem_of_app. }
    split; [reflexivity|]. split; [exact ND|]. split; [exact U|]. split.
    - intros existing E x. rewrite (U x). unfold existing_list. rewrite E.
      reflexivity.
    - intros N x. rewrite (U x). unfold existing_list.
      destruct (profile_data !! key) as [[| | | | |existing|]|] eqn:E;
        try (rewrite elem_of_nil; tauto).
      destruct (N existing eq_refl). }
  assert (two : NoDup ["Bruno"; "Whiskers"]).
  { apply NoDup_cons; split.
    + intros Hx. apply list_elem_of_singleton in Hx. discriminate.
    + apply NoDup_singleton. }
  split; [exact G|]. split; [|split].
  - destruct (G {["pets" := FList ["Bruno"; "Whiskers"]]}
                {["pets" := PList ["Bruno"]]} "pets" ["Bruno"; "Whiskers"])
      as (merged & E & ND & _ & EL & _); [reflexivity|].
    exists merged. split; [exact E|].
    apply NoDup_Permutation; [exact ND|exact two|].
    intros x. rewrite (EL ["Bruno"] eq_refl x).
    rewrite list_elem_of_singleton, !elem_of_cons, elem_of_nil. tauto.
  - destruct (G {["pets" := FList ["Whiskers"]]}
                {["pets" := PList ["Bruno"]]} "pets" ["Whiskers"])
      as (merged & E & ND & _ & EL & _); [reflexivity|].
    exists merged. split; [exact E|].
    apply NoDup_Permutation; [exact ND|exact two|].
    intros x. rewrite (EL ["Bruno"] eq_refl x).
    rewrite !list_elem_of_singleton, !elem_of_cons, elem_of_nil. tauto.
  - destruct (G {["pets" := FList ["Whiskers"]]}
                {["pets" := PStr "Bruno"]} "pets" ["Whiskers"])
      as (merged & E & ND & _ & _ & EL); [reflexivity|].
    exists merged. split; [exact E|].
    apply NoDup_Permutation; [exact ND|apply NoDup_singleton|].
    apply EL. intros existing X. discriminate.
Qed.

(** What [_store_user_facts] persists: the whole merged profile, stamped
    with [last_updated], as the single profile record. *)
Lemma store_user_facts_persists (facts : gmap string fact_value)
    (now_merge now_update : string) (m : memory)
    (profile_data : gmap string pyval) :
  facts <> ∅ ->
  NoDup (List.map rec_id (user_profile_collection m)) ->
  profile_of (get_user_profile m).1 = JObject profile_data ->
  List.filter (has_id profile_id)
    (user_profile_collection
       (_store_user_facts list_of_set facts now_merge now_update m).2)
  = [profile_record
       (<["last_updated" := PStr now_merge]>
          (merge_facts list_of_set facts profile_data)) now_update].
Proof.
  intros Hf ND Hp.
  unfold _store_user_facts, catch, mbind, M_bind, bind, call.
  destruct (decide (facts = ∅)) as [E|_]; [contradiction|].
  cbn [fst snd]. rewrite Hp. cbn [fst snd].
  apply update_user_profile_post.
  unfold get_user_profile, catch, mbind, M_bind, bind, do_get.
  destruct (get (coll UserProfile m) [profile_id]) as [|r rs]; [exact ND|].
  destruct (doc_truthy (rec_document r)); [|exact ND].
  unfold of_option. destruct (json_loads (rec_document r)); exact ND.
Qed.

End merge.

Lemma merge_list_is_set_union_witness :
  (exists merged,
      merge_facts remove_dups {["pets" := FList ["Bruno"; "Whiskers"]]}
        {["pets" := PList ["Bruno"]]} !! "pets" = Some (PList merged) /\
      merged ≡ₚ ["Bruno"; "Whiskers"]) /\
  (exists merged,
      merge_facts remove_dups {["pets" := FList ["Whiskers"]]}
        {["pets" := PList ["Bruno"]]} !! "pets" = Some (PList merged) /\
      merged ≡ₚ ["Bruno"; "Whiskers"]).
Proof.
  assert (S : forall xs : list string,
             NoDup (remove_dups xs) /\ forall x, x ∈ remove_dups xs <-> x ∈ xs).
  { intros xs. split; [apply NoDup_remove_dups|].
    intros x. apply elem_of_remove_dups. }
  destruct (merge_list_is_set_union remove_dups S) as (_ & A & B & _).
  split; [exact A|exact B].
Defined.

End ChainTheory.

(** ** Stable sorting *)

Module SortTheory.

Section stable.
Context {A : Type} (le : A -> A -> bool).

Lemma insert_sorted_perm (x : A) (l : list A) :
  insert_sorted le x l ≡ₚ x :: l.
Proof.
  induction l as [|y l IH]; simpl; [reflexivity|].
  destruct (le x y); [reflexivity|].
  rewrite IH. apply Permutation_swap.
Qed.

Lemma stable_sort_perm (l : list A) : stable_sort le l ≡ₚ l.
Proof.
  induction l as [|x l IH]; simpl; [reflexivity|].
  rewrite insert_sorted_perm, IH. reflexivity.
Qed.


Hypothesis le_total : forall x y, le x y = true \/ le y x = true.
Hypothesis le_trans : forall x y z, le x y = true -> le y z = true -> le x z = true.

Lemma insert_sorted_sorted (x : A) (l : list A) :
  StronglySorted (fun a b => le a b = true) l ->
  StronglySorted (fun a b => le a b = true) (insert_sorted le x l).
Proof.
  induction 1 as [|y l S IH F]; simpl.
  - repeat constructor.
  - destruct (le x y) eqn:E.
    + constructor; [constructor; assumption|].
      constructor; [exact E|].
      eapply Forall_impl; [exact F|]. intros z Hz. simpl in Hz. eauto.
    + constructor; [exact IH|].
      rewrite insert_sorted_perm. constructor; [|exact F].
      destruct (le_total x y); congruence.
Qed.

Lemma stable_sort_sorted (l : list A) :
  StronglySorted (fun a b => le a b = true) (stable_sort le l).
Proof.
  induction l; simpl; [constructor|]. apply insert_sorted_sorted; assumption.
Qed.

(** Stability: the elements of a class of equal keys keep their order.
    [P] is such a class when any two of its elements are in order. *)
Lemma insert_sorted_filter (P : A -> bool) (x : A) (l : list A) :
  (forall y, P x = true -> P y = true -> le x y = true) ->
  List.filter P (insert_sorted le x l) = List.filter P (x :: l).
Proof.
  intros HP. induction l as [|y l IH]; simpl; [reflexivity|].
  destruct (le x y) eqn:E; [reflexivity|].
  simpl in *. rewrite IH.
  destruct (P x) eqn:Px, (P y) eqn:Py; try reflexivity.
  rewrite (HP y eq_refl Py) in E. discriminate.
Qed.

Lemma stable_sort_filter (P : A -> bool) (l : list A) :
  (forall x y, P x = true -> P y = true -> le x y = true) ->
  List.filter P (stable_sort le l) = List.filter P l.
Proof.
  intros HP. induction l as [|x l IH]; simpl; [reflexivity|].
  rewrite insert_sorted_filter by (intros y; apply HP).
  simpl. rewrite IH. reflexivity.
Qed.

End stable.
End SortTheory.

(** ** Relevance ranking *)

Module RankingTheory.
Import Store Memory SortTheory.

Lemma le_relevance_total (x y : relevant) :
  le_relevance x y = true \/ le_relevance y x = true.
Proof.
  unfold le_relevance. rewrite !Qle_bool_iff.
  destruct (Qlt_le_dec (distance y) (distance x)) as [H|H]; [right|left].
  - apply Qlt_le_weak, H.
  - exact H.
Qed.

Lemma le_relevance_trans (x y z : relevant) :
  le_relevance x y = true -> le_relevance y z = true -> le_relevance x z = true.
Proof. unfold le_relevance. rewrite !Qle_bool_iff. apply Qle_trans. Qed.

Lemma StronglySorted_weaken {A} (R S : A -> A -> Prop) (l : list A) :
  (forall x y, R x y -> S x y) -> StronglySorted R l -> StronglySorted S l.
Proof.
  intros HRS. induction 1 as [|x l H IH F]; constructor; [exact IH|].
  eapply Forall_impl; [exact F|]. intros y. apply HRS.
Qed.

Section ranking.
Variable dist : string -> document -> Q.

Lemma get_relevant_memories_unfold (query_text : string) (n_results : Z)
    (m : memory) :
  (get_relevant_memories dist query_text n_results m).1 =
  py_take n_results
    (stable_sort le_relevance
       (hits_of dist query_text n_results "reflections" (reflections_collection m)
        ++ hits_of dist query_text n_results "important_memories"
             (important_memories_collection m)
        ++ hits_of dist query_text n_results "user_profile"
             (user_profile_collection m))).
Proof.
  unfold get_relevant_memories, catch, mbind, M_bind, bind. simpl.
  unfold try_except, mbind, M_bind, bind, do_query, ret. simpl.
  rewrite <- app_assoc. reflexivity.
Qed.

Lemma hits_of_length (query_text : string) (n_results : Z) (name : string)
    (c : collection) :
  (List.length (hits_of dist query_text n_results name c)
   <= Z.to_nat (Z.min n_results 3))%nat.
Proof.
  unfold hits_of, query. rewrite List.length_map, length_take. lia.
Qed.

Lemma hits_of_tag (query_text : string) (n_results : Z) (name : string)
    (c : collection) (x : relevant) :
  In x (hits_of dist query_text n_results name c) -> collection_name x = name.
Proof.
  unfold hits_of. rewrite in_map_iff. intros (h & <- & _). reflexivity.
Qed.


(** C3. [get_relevant_memories] queries the reflections, the important
    memories and the profile collection, each for up to min(n, 3) hits,
    tags every hit with the name of its collection, sorts all hits by
    ascending distance, hits of equal distance keeping the order they were
    collected in (collection by collection, each in the order of its
    query), and returns the first n.  With one record in each collection
    at distances 0.9, 0.2 and 0.5 and n = 2, the result is the hit at 0.2
    followed by the hit at 0.5. *)
Theorem relevant_memories_ranked (query_text : string) (n : Z) (m : memory) :
  let hits := hits_of dist query_text n in
  let all :=
    hits "reflections" (reflections_collection m)
    ++ hits "important_memories" (important_memories_collection m)
    ++ hits "user_profile" (user_profile_collection m) in
  let ranked := stable_sort le_relevance all in
  let result := (get_relevant_memories dist query_text n m).1 in
  (forall name c,
      (List.length (hits name c) <= Z.to_nat (Z.min n 3))%nat /\
      forall x, In x (hits name c) -> collection_name x = name) /\
  ranked ≡ₚ all /\
  StronglySorted (fun x y => (distance x <= distance y)%Q) ranked /\
  (forall d,
      List.filter (fun x => Qeq_bool (distance x) d) ranked
      = List.filter (fun x => Qeq_bool (distance x) d) all) /\
  result = py_take n ranked /\
  ((0 <= n)%Z -> result = take (Z.to_nat n) ranked) /\
  (forall r1 r2 r3,
      n = 2%Z ->
      reflections_collection m = [r1] ->
      important_memories_collection m = [r2] ->
      user_profile_collection m = [r3] ->
      (dist query_text (rec_document r1) == 9 # 10)%Q ->
      (dist query_text (rec_document r2) == 2 # 10)%Q ->
      (dist query_text (rec_document r3) == 5 # 10)%Q ->
      result =
      [tag "important_memories" (Hit r2 (dist query_text (rec_document r2)));
       tag "user_profile" (Hit r3 (dist query_text (rec_document r3)))]).
Proof.
  intros hits all ranked result.
  split; [intros name c; split;
          [apply hits_of_length | intros x; apply hits_of_tag]|].
  split; [apply stable_sort_perm|].
  split.
  { apply (StronglySorted_weaken (fun x y => le_relevance x y = true)).
    - intros x y. unfold le_relevance. apply Qle_bool_iff.
    - apply stable_sort_sorted; [apply le_relevance_total|apply le_relevance_trans]. }
  split.
  { intros d. apply stable_sort_filter. intros x y Hx Hy.
    apply Qeq_bool_iff in Hx, Hy. unfold le_relevance. apply Qle_bool_iff.
    rewrite Hx, Hy. apply Qle_refl. }
  assert (R : result = py_take n ranked) by apply get_relevant_memories_unfold.
  split; [exact R|].
  split.
  { intros Hn. rewrite R. unfold py_take.
    destruct (0 <=? n)%Z eqn:E; [reflexivity|]. apply Z.leb_gt in E. lia. }
  intros r1 r2 r3 -> E1 E2 E3 D1 D2 D3.
  rewrite R. subst ranked all hits. rewrite E1, E2, E3.
  unfold hits_of, query. simpl.
  set (d1 := dist query_text (rec_document r1)) in *.
  set (d2 := dist query_text (rec_document r2)) in *.
  set (d3 := dist query_text (rec_document r3)) in *.
  assert (L23 : Qle_bool d2 d3 = true).
  { apply Qle_bool_iff. rewrite D2, D3. discriminate. }
  assert (L12 : Qle_bool d1 d2 = false).
  { destruct (Qle_bool d1 d2) eqn:E; [|reflexivity].
    apply Qle_bool_iff in E. rewrite D1, D2 in E. exfalso. apply E. reflexivity. }
  assert (L13 : Qle_bool d1 d3 = false).
  { destruct (Qle_bool d1 d3) eqn:E; [|reflexivity].
    apply Qle_bool_iff in E. rewrite D1, D3 in E. exfalso. apply E. reflexivity. }
  unfold le_relevance, tag. simpl. rewrite L23. simpl. rewrite L12. simpl.
  rewrite L13. reflexivity.
Qed.

End ranking.

Lemma relevant_memories_ranked_witness :
  let dist := fun (_ : string) (doc : document) =>
    match doc with
    | Malformed t => if String.eqb t "a calm walk" then 9 # 10 else 2 # 10
    | Json _ => 5 # 10
    end in
  let r1 := Record_ "r-1" (Malformed "a calm walk") ∅ in
  let r2 := Record_ "m-1" (Malformed "buy a gift") ∅ in
  let r3 := Record_ "user_profile_main" (json_dumps ∅) ∅ in
  let m := Memory_ [r1] [r2] [] [] [r3] [] [] in
  (get_relevant_memories dist "gift" 2 m).1
  = [tag "important_memories" (Hit r2 (2 # 10));
     tag "user_profile" (Hit r3 (5 # 10))].
Proof.
  intros dist r1 r2 r3 m.
  destruct (relevant_memories_ranked dist "gift" 2 m) as (_ & _ & _ & _ & _ & _ & H).
  apply (H r1 r2 r3); reflexivity.
Defined.

End RankingTheory.

(** ** Mood values *)

Module MoodTheory.
Import PyStr Store Memory Mood.

Section parse.
Variable py_float : string -> option pyfloat.

Lemma in_scale_bounds (value v : Z) :
  in_scale value = Some v -> v = value /\ (1 <= v <= 10)%Z.
Proof.
  unfold in_scale. destruct ((1 <=? value) && (value <=? 10))%Z eqn:E; [|discriminate].
  intros [= <-]. apply andb_true_iff in E. lia.
Qed.

Lemma in_scale_out (value : Z) :
  (value < 1 \/ 10 < value)%Z -> in_scale value = None.
Proof.
  intros H. unfold in_scale.
  destruct ((1 <=? value) && (value <=? 10))%Z eqn:E; [|reflexivity].
  apply andb_true_iff in E. lia.
Qed.

Lemma mood_values_bounds (label : string) (v : Z) :
  assoc label mood_values = Some v -> (1 <= v <= 10)%Z.
Proof.
  unfold mood_values. simpl.
  repeat (destruct (String.eqb label _); [intros [= <-]; lia|]).
  discriminate.
Qed.

(** A parsed mood value lies on the scale. *)
Lemma parse_mood_value_bounds (mood : mood_input) (v : Z) :
  _parse_mood_value py_float mood = Some v -> (1 <= v <= 10)%Z.
Proof.
  destruct mood as [z|b|f|s]; simpl.
  - intros H. apply in_scale_bounds in H. tauto.
  - intros H. apply in_scale_bounds in H. tauto.
  - destruct (int_of_float f); [discriminate|].
    intros H. apply in_scale_bounds in H. tauto.
  - destruct (py_float (strip (lower s))) as [f|].
    + destruct (int_of_float f) as [[]|z].
      * apply mood_values_bounds.
      * discriminate.
      * intros H. apply in_scale_bounds in H. tauto.
    + apply mood_values_bounds.
Qed.

(** A value that does not parse is rejected with a result, and nothing is
    stored. *)
Lemma log_mood_rejects (mood : mood_input) (note : string) (sentiment : pyval)
    (mood_id now : string) (m : memory) :
  _parse_mood_value py_float mood = None ->
  log_mood py_float mood note sentiment mood_id now m
  = (MoodRejected "Invalid mood value", m).
Proof. intros H. unfold log_mood, catch. rewrite H. reflexivity. Qed.

(** A finite float is truncated by [int] and then checked against the
    scale: it parses exactly when it is at least 1 and less than 11, to
    its integer part. *)
Lemma parse_finite_float (q : Q) :
  _parse_mood_value py_float (MoodFloat (Finite q))
  = if Qle_bool 1 q && negb (Qle_bool 11 q) then Some (Qround.Qfloor q) else None.
Proof.
  destruct q as [n d]. unfold _parse_mood_value, int_of_float, in_scale, Qround.Qfloor.
  cbn [Qnum Qden].
  assert (Hd : (0 < Z.pos d)%Z) by reflexivity.
  destruct (Qle_bool 1 (n # d)) eqn:E1.
  - apply Qle_bool_iff in E1. unfold Qle in E1. cbn [Qnum Qden] in E1.
    assert (Hn : (Z.pos d <= n)%Z) by lia.
    rewrite Z.quot_div_nonneg by lia.
    assert (L : (1 <= n / Z.pos d)%Z) by (apply Z.div_le_lower_bound; lia).
    destruct (Qle_bool 11 (n # d)) eqn:E2; cbn [negb andb].
    + apply Qle_bool_iff in E2. unfold Qle in E2. cbn [Qnum Qden] in E2.
      assert (U : (11 <= n / Z.pos d)%Z) by (apply Z.div_le_lower_bound; lia).
      replace (n / Z.pos d <=? 10)%Z with false by (symmetry; apply Z.leb_gt; lia).
      rewrite andb_false_r. reflexivity.
    + assert (N : ~ (11 <= n # d)%Q).
      { intros X. apply Qle_bool_iff in X. congruence. }
      unfold Qle in N. cbn [Qnum Qden] in N.
      assert (U : (n / Z.pos d < 11)%Z) by (apply Z.div_lt_upper_bound; lia).
      replace (1 <=? n / Z.pos d)%Z with true by (symmetry; apply Z.leb_le; lia).
      replace (n / Z.pos d <=? 10)%Z with true by (symmetry; apply Z.leb_le; lia).
      reflexivity.
  - cbn [andb].
    assert (N : ~ (1 <= n # d)%Q).
    { intros X. apply Qle_bool_iff in X. congruence. }
    unfold Qle in N. cbn [Qnum Qden] in N.
    assert (U : (Z.quot n (Z.pos d) < 1)%Z).
    { destruct (Z_le_gt_dec 0 n) as [P|P].
      - rewrite Z.quot_div_nonneg by lia. apply Z.div_lt_upper_bound; lia.
      - pose proof (Z.quot_opp_l n (Z.pos d) ltac:(lia)) as O.
        assert (0 <= Z.quot (- n) (Z.pos d))%Z by (apply Z.quot_pos; lia).
        lia. }
    replace (1 <=? Z.quot n (Z.pos d))%Z with false
      by (symmetry; apply Z.leb_gt; lia).
    reflexivity.
Qed.

(** C8, amended.  With Python's [float] reading "7" as 7.0 and rejecting
    "great" and "invalid": the label "great" parses to 8, the text "7" to
    7, the number 7.9 to 7 by truncation; 11 and the text "invalid" do not
    parse.  A number is truncated to its integer part before it is checked
    against the scale: every parsed value lies in 1..10, an integer parses
    exactly when it lies in 1..10, and a finite float parses exactly when
    it is at least 1 and less than 11, to its integer part, so that a float
    below 1 or from 11 on is rejected while one between 10 and 11 is
    accepted as 10; infinity and NaN do not parse.  A text that [float]
    reads goes the way of that float, and a text that [float] rejects and
    that is no label does not parse.  [log_mood] answers every value that
    does not parse with the failure result "Invalid mood value", stores
    nothing and raises nothing. *)
Theorem mood_value_parsing :
  py_float "7" = Some (Finite 7) ->
  py_float "great" = None ->
  py_float "invalid" = None ->
  _parse_mood_value py_float (MoodText "great") = Some 8%Z /\
  _parse_mood_value py_float (MoodText "7") = Some 7%Z /\
  _parse_mood_value py_float (MoodFloat (Finite (79 # 10))) = Some 7%Z /\
  _parse_mood_value py_float (MoodInt 11) = None /\
  _parse_mood_value py_float (MoodText "invalid") = None /\
  (forall mood v, _parse_mood_value py_float mood = Some v -> (1 <= v <= 10)%Z) /\
  (forall z, (z < 1 \/ 10 < z)%Z -> _parse_mood_value py_float (MoodInt z) = None) /\
  (forall z, (1 <= z <= 10)%Z -> _parse_mood_value py_float (MoodInt z) = Some z) /\
  (forall q, (q < 1 \/ 11 <= q)%Q ->
     _parse_mood_value py_float (MoodFloat (Finite q)) = None) /\
  (forall q, (1 <= q)%Q -> (q < 11)%Q ->
     _parse_mood_value py_float (MoodFloat (Finite q))
     = Some (Qround.Qfloor q)) /\
  _parse_mood_value py_float (MoodFloat Infinity) = None /\
  _parse_mood_value py_float (MoodFloat NaN) = None /\
  (forall s q, py_float (strip (lower s)) = Some (Finite q) ->
     _parse_mood_value py_float (MoodText s)
     = _parse_mood_value py_float (MoodFloat (Finite q))) /\
  (forall s, py_float (strip (lower s)) = None ->
     assoc (strip (lower s)) mood_values = None ->
     _parse_mood_value py_float (MoodText s) = None) /\
  (forall mood note sentiment mood_id now m,
      _parse_mood_value py_float mood = None ->
      log_mood py_float mood note sentiment mood_id now m
      = (MoodRejected "Invalid mood value", m)) /\
  (forall note sentiment mood_id now m,
      log_mood py_float (MoodInt 11) note sentiment mood_id now m
      = (MoodRejected "Invalid mood value", m) /\
      log_mood py_float (MoodText "invalid") note sentiment mood_id now m
      = (MoodRejected "Invalid mood value", m)).
Proof.
  intros F7 Fg Fi.
  assert (P11 : _parse_mood_value py_float (MoodInt 11) = None) by reflexivity.
  assert (Pi : _parse_mood_value py_float (MoodText "invalid") = None).
  { unfold _parse_mood_value; cbv zeta.
    change (strip (lower "invalid")) with "invalid". rewrite Fi. reflexivity. }
  assert (Pg : _parse_mood_value py_float (MoodText "great") = Some 8%Z).
  { unfold _parse_mood_value; cbv zeta.
    change (strip (lower "great")) with "great". rewrite Fg. reflexivity. }
  assert (P7 : _parse_mood_value py_float (MoodText "7") = Some 7%Z).
  { unfold _parse_mood_value; cbv zeta.
    change (strip (lower "7")) with "7". rewrite F7. reflexivity. }
  assert (Zin : forall z, (1 <= z <= 10)%Z ->
                          _parse_mood_value py_float (MoodInt z) = Some z).
  { intros z R. unfold _parse_mood_value, in_scale.
    replace (1 <=? z)%Z with true by (symmetry; apply Z.leb_le; lia).
    replace (z <=? 10)%Z with true by (symmetry; apply Z.leb_le; lia).
    reflexivity. }
  assert (Qout : forall q, (q < 1 \/ 11 <= q)%Q ->
                   _parse_mood_value py_float (MoodFloat (Finite q)) = None).
  { intros q [L|U]; rewrite parse_finite_float.
    - destruct (Qle_bool 1 q) eqn:E; [|reflexivity].
      apply Qle_bool_iff in E. destruct (Qlt_not_le _ _ L E).
    - apply Qle_bool_iff in U. rewrite U, andb_false_r. reflexivity. }
  assert (Qin : forall q, (1 <= q)%Q -> (q < 11)%Q ->
                  _parse_mood_value py_float (MoodFloat (Finite q))
                  = Some (Qround.Qfloor q)).
  { intros q L U. rewrite parse_finite_float.
    apply Qle_bool_iff in L. rewrite L.
    destruct (Qle_bool 11 q) eqn:E; [|reflexivity].
    apply Qle_bool_iff in E. destruct (Qlt_not_le _ _ U E). }
  assert (Tnum : forall s q, py_float (strip (lower s)) = Some (Finite q) ->
                   _parse_mood_value py_float (MoodText s)
                   = _parse_mood_value py_float (MoodFloat (Finite q))).
  { intros s q E. unfold _parse_mood_value. cbv zeta. rewrite E. reflexivity. }
  assert (Tno : forall s, py_float (strip (lower s)) = None ->
                  assoc (strip (lower s)) mood_values = None ->
                  _parse_mood_value py_float (MoodText s) = None).
  { intros s E A. unfold _parse_mood_value. cbv zeta. rewrite E. exact A. }
  split; [exact Pg|]. split; [exact P7|]. split; [reflexivity|].
  split; [exact P11|]. split; [exact Pi|].
  split; [intros mood v H; exact (parse_mood_value_bounds mood v H)|].
  split; [intros z H; apply in_scale_out, H|].
  split; [exact Zin|]. split; [exact Qout|]. split; [exact Qin|].
  split; [reflexivity|]. split; [reflexivity|].
  split; [exact Tnum|]. split; [exact Tno|].
  split; [intros; apply log_mood_rejects; assumption|].
  intros note sentiment mood_id now m.
  split; apply log_mood_rejects; assumption.
Qed.

End parse.

Lemma mood_value_parsing_witness :
  let py_float := fun s : string =>
    if String.eqb s "7" then Some (Finite 7) else None in
  _parse_mood_value py_float (MoodText "great") = Some 8%Z /\
  _parse_mood_value py_float (MoodText "7") = Some 7%Z /\
  _parse_mood_value py_float (MoodFloat (Finite (79 # 10))) = Some 7%Z /\
  _parse_mood_value py_float (MoodFloat (Finite 11)) = None.
Proof.
  intros py_float.
  destruct (mood_value_parsing py_float eq_refl eq_refl eq_refl)
    as (H1 & H2 & H3 & _ & _ & _ & _ & _ & Qout & _).
  split; [exact H1|]. split; [exact H2|]. split; [exact H3|].
  apply Qout. right. apply Qle_refl.
Defined.

(** C8, on the claim as it was worded.  The float 10.9 lies outside
    1..10 and is not rejected: [int] truncates it to 10 before the scale
    is checked, and [log_mood] logs the mood 10. *)
Theorem float_above_scale_is_accepted :
  exists q : Q,
    (10 < q)%Q /\
    (forall py_float,
        _parse_mood_value py_float (MoodFloat (Finite q)) = Some 10%Z) /\
    (forall py_float,
        (log_mood py_float (MoodFloat (Finite q)) "" PNone "m-1" "t0"
           empty_memory).1
        = MoodLogged (mood_entry "m-1" 10 "" PNone "t0") "t0").
Proof.
  exists (109 # 10). split; [reflexivity|]. split; intros; reflexivity.
Qed.

End MoodTheory.

(** ** Reading mood entries *)

Module MoodEntriesTheory.
Import Store Memory Mood SortTheory.

Section entries.
Variable fromisoformat : string -> option datetime.
Variables start_date end_date : datetime.

Local Abbreviation collect := (collect_entry fromisoformat start_date end_date).
Local Abbreviation read := (read_entry fromisoformat start_date end_date).

(** The loop appends, for each document in turn, its entry when it reads
    and lies in the period, and nothing otherwise. *)
Lemma collect_foldl (rs : list record) (acc : list (gmap string pyval)) :
  foldl collect acc rs = acc ++ flat_map (collect []) rs.
Proof.
  revert acc; induction rs as [|r rs IH]; intros acc; simpl.
  - rewrite app_nil_r. reflexivity.
  - rewrite IH. unfold collect_entry.
    destruct (read (rec_document r)) as [[d [|]]|]; simpl;
      rewrite <- ?app_assoc; reflexivity.
Qed.

Lemma entries_unfold (m : memory) :
  (_get_mood_entries_in_range fromisoformat start_date end_date m).1 =
  stable_sort le_timestamp
    (flat_map (collect [])
       (get_where (mood_data_collection m) [("type", MStr "mood_entry")])).
Proof.
  unfold _get_mood_entries_in_range, catch, mbind, M_bind, bind, do_get_where.
  simpl. rewrite collect_foldl. reflexivity.
Qed.

Lemma matches_type (r : record) :
  rec_metadata r !! "type" = Some (MStr "mood_entry") ->
  matches [("type", MStr "mood_entry")] r = true.
Proof.
  intros H. unfold matches. simpl. rewrite bool_decide_eq_true_2; auto.
Qed.

Lemma malformed_unread (t : string) : read (Malformed t) = None.
Proof. reflexivity. Qed.



End entries.


End MoodEntriesTheory.

(** ** Tasks *)

Module TasksTheory.
Import PyStr PyCmp Store Memory MemoryTheory Tasks.

Lemma delete_absent (c : collection) (id : string) :
  existsb (has_id id) c = false -> delete c id = c.
Proof.
  unfold delete. induction c as [|r c IH]; simpl; [reflexivity|].
  intros H. apply orb_false_iff in H. destruct H as [H1 H2].
  rewrite H1. simpl. f_equal. apply IH, H2.
Qed.

Lemma delete_removes (c : collection) (id : string) :
  existsb (has_id id) (delete c id) = false.
Proof.
  unfold delete. induction c as [|r c IH]; simpl; [reflexivity|].
  destruct (has_id id r) eqn:E; simpl; [exact IH|].
  rewrite E. exact IH.
Qed.

(** C7, on the code.  [delete_task] answers True for every id and every
    state of the store: the store's [delete] raises nothing for an id that
    is not there, and [delete_task] makes no check of its own (where
    [update_task] answers "Task not found").  So deleting the id
    "no-such-task" from the empty collection is reported as a success,
    where the claim asks for a failure.  The rest of the claim holds:
    nothing is raised, the collection becomes the store's [delete] of the
    old one, and no record with the id is left. *)
Theorem delete_task_always_succeeds :
  (delete_task "no-such-task" empty_memory).1 = true /\
  important_memories_collection (delete_task "no-such-task" empty_memory).2 = [] /\
  (forall task_id m,
      (delete_task task_id m).1 = true /\
      important_memories_collection (delete_task task_id m).2
      = delete (important_memories_collection m) task_id /\
      existsb (has_id task_id)
        (important_memories_collection (delete_task task_id m).2) = false).
Proof.
  split; [reflexivity|]. split; [reflexivity|].
  intros task_id m.
  unfold delete_task, catch, mbind, M_bind, bind, do_delete. simpl.
  repeat split. apply delete_removes.
Qed.

Section add.
Variable parse_due_date : string -> option string.

Lemma priority_known_iff (priority : string) :
  priority_known priority = true <->
  In priority ["low"; "medium"; "high"; "urgent"].
Proof.
  unfold priority_known, priority_levels. simpl.
  rewrite !orb_true_iff, !String.eqb_eq. intuition congruence.
Qed.

Lemma category_known_iff (category : string) :
  category_known category = true <-> In category task_categories.
Proof.
  unfold category_known. rewrite existsb_exists. split.
  - intros (x & Hx & E). apply String.eqb_eq in E. subst. exact Hx.
  - intros H. exists category. split; [exact H|apply String.eqb_refl].
Qed.

(** A field written with [put_meta] is read back, unless it was None. *)
Lemma put_meta_eq (key : string) (v : pyval) (metadata : gmap string meta_value) :
  put_meta key v metadata !! key
  = match meta_of v with
    | Some mv => Some mv
    | None => metadata !! key
    end.
Proof.
  unfold put_meta. destruct (meta_of v); [apply lookup_insert_eq|reflexivity].
Qed.

Lemma put_meta_ne (key key' : string) (v : pyval)
    (metadata : gmap string meta_value) :
  key <> key' -> put_meta key v metadata !! key' = metadata !! key'.
Proof.
  intros N. unfold put_meta.
  destruct (meta_of v); [apply lookup_insert_ne, N|reflexivity].
Qed.

(** The record of a task that has the six fields the metadata index. *)
Lemma task_record_fields (task : gmap string pyval) (id : string)
    (status priority category created_at wellness_impact : pyval) :
  task !! "id" = Some (PStr id) ->
  task !! "status" = Some status ->
  task !! "priority" = Some priority ->
  task !! "category" = Some category ->
  task !! "created_at" = Some created_at ->
  task !! "wellness_impact" = Some wellness_impact ->
  exists metadata,
    task_record task = Some (Record_ id (json_dumps task) metadata) /\
    metadata !! "type" = Some (MStr "task") /\
    metadata !! "status" = meta_of status /\
    metadata !! "priority" = meta_of priority /\
    metadata !! "category" = meta_of category.
Proof.
  intros I S P C T W. unfold task_record, task_metadata.
  rewrite I, S, P, C, T, W. cbn [mbind option_bind foldl fst snd].
  eexists. split; [reflexivity|].
  repeat split.
  - rewrite !put_meta_ne by discriminate. reflexivity.
  - rewrite !put_meta_ne by discriminate. rewrite put_meta_eq.
    destruct (meta_of status); reflexivity.
  - rewrite !put_meta_ne by discriminate. rewrite put_meta_eq.
    destruct (meta_of priority); [reflexivity|].
    rewrite !put_meta_ne by discriminate. reflexivity.
  - rewrite !put_meta_ne by discriminate. rewrite put_meta_eq.
    destruct (meta_of category); [reflexivity|].
    rewrite !put_meta_ne by discriminate. reflexivity.
Qed.

(** The store after [add_task], for a task that has a record. *)
Lemma save_task_collection (task : gmap string pyval) (r : record)
    (m : memory) :
  task_record task = Some r ->
  important_memories_collection
    (catch (call (_save_task_to_memory task);; mret (TaskAdded task))
       TaskAddFailed m).2
  = if existsb (has_id (rec_id r)) (important_memories_collection m)
    then important_memories_collection m
    else important_memories_collection m ++ [r].
Proof.
  intros R.
  unfold _save_task_to_memory, catch, call, mbind, M_bind, bind, of_option,
    do_add, add.
  rewrite R. cbn [fst snd coll].
  destruct (existsb (has_id (rec_id r)) (important_memories_collection m));
    reflexivity.
Qed.

(** What [add_task] returns and what it hands to the store. *)
Lemma add_task_record (title description priority : string)
    (due_date : option string) (category wellness_impact task_id now : string)
    (m : memory) :
  exists task metadata,
    (add_task parse_due_date title description priority due_date category
       wellness_impact task_id now m).1 = TaskAdded task /\
    task_record task = Some (Record_ task_id (json_dumps task) metadata) /\
    task !! "status" = Some (PStr "pending") /\
    task !! "priority"
    = Some (PStr (if priority_known priority then priority else "medium")) /\
    task !! "category"
    = Some (PStr (if category_known category then category else "personal")) /\
    metadata !! "type" = Some (MStr "task") /\
    metadata !! "status" = Some (MStr "pending") /\
    metadata !! "priority"
    = Some (MStr (if priority_known priority then priority else "medium")) /\
    metadata !! "category"
    = Some (MStr (if category_known category then category else "personal")) /\
    important_memories_collection
      (add_task parse_due_date title description priority due_date category
         wellness_impact task_id now m).2
    = if existsb (has_id task_id) (important_memories_collection m)
      then important_memories_collection m
      else important_memories_collection m
           ++ [Record_ task_id (json_dumps task) metadata].
Proof.
  unfold add_task. cbv zeta.
  match goal with |- context [TaskAdded ?t] => set (task := t) end.
  destruct (task_record_fields task task_id (PStr "pending")
              (PStr (if priority_known priority then priority else "medium"))
              (PStr (if category_known category then category else "personal"))
              (PStr now) (PStr wellness_impact))
    as (metadata & R & Ty & St & Pr & Ca); try reflexivity.
  exists task, metadata. split; [reflexivity|]. split; [exact R|].
  split; [reflexivity|]. split; [reflexivity|]. split; [reflexivity|].
  split; [exact Ty|]. split; [exact St|]. split; [exact Pr|].
  split; [exact Ca|].
  apply (save_task_collection task _ m R).
Qed.

(** C10. [add_task] never rejects a priority or a category: whatever the
    arguments and the state of the store, it returns success with a task
    whose status is "pending", whose priority is the one given when that
    is low, medium, high or urgent and "medium" otherwise, and whose
    category is the one given when that is one of the ten task categories
    and "personal" otherwise.  The task is created in the store with these
    fields: under a fresh id the task collection gains exactly one record,
    with the task returned as its document and with the type task, the
    status pending and the defaulted priority and category as its
    metadata, and the store finds that record under the id. *)
Theorem add_task_defaults (title description priority : string)
    (due_date : option string) (category wellness_impact task_id now : string)
    (m : memory) :
  exists task metadata,
    (add_task parse_due_date title description priority due_date category
       wellness_impact task_id now m).1 = TaskAdded task /\
    task !! "status" = Some (PStr "pending") /\
    task !! "priority"
    = Some (PStr (if priority_known priority then priority else "medium")) /\
    task !! "category"
    = Some (PStr (if category_known category then category else "personal")) /\
    (In priority ["low"; "medium"; "high"; "urgent"] ->
     task !! "priority" = Some (PStr priority)) /\
    (~ In priority ["low"; "medium"; "high"; "urgent"] ->
     task !! "priority" = Some (PStr "medium")) /\
    (In category task_categories -> task !! "category" = Some (PStr category)) /\
    (~ In category task_categories ->
     task !! "category" = Some (PStr "personal")) /\
    List.length task_categories = 10%nat /\
    metadata !! "type" = Some (MStr "task") /\
    metadata !! "status" = Some (MStr "pending") /\
    metadata !! "priority"
    = Some (MStr (if priority_known priority then priority else "medium")) /\
    metadata !! "category"
    = Some (MStr (if category_known category then category else "personal")) /\
    (existsb (has_id task_id) (important_memories_collection m) = false ->
     important_memories_collection
       (add_task parse_due_date title description priority due_date category
          wellness_impact task_id now m).2
     = important_memories_collection m
       ++ [Record_ task_id (json_dumps task) metadata] /\
     get (important_memories_collection
            (add_task parse_due_date title description priority due_date
               category wellness_impact task_id now m).2) [task_id]
     = [Record_ task_id (json_dumps task) metadata]).
Proof.
  destruct (add_task_record title description priority due_date category
              wellness_impact task_id now m)
    as (task & metadata & A & _ & St & Pr & Ca & MT & MS & MP & MC & Co).
  exists task, metadata.
  split; [exact A|]. split; [exact St|]. split; [exact Pr|].
  split; [exact Ca|].
  split; [intros H; apply priority_known_iff in H; rewrite Pr, H; reflexivity|].
  split.
  { intros H. rewrite Pr.
    destruct (priority_known priority) eqn:E; [|reflexivity].
    apply priority_known_iff in E. contradiction. }
  split; [intros H; apply category_known_iff in H; rewrite Ca, H; reflexivity|].
  split.
  { intros H. rewrite Ca.
    destruct (category_known category) eqn:E; [|reflexivity].
    apply category_known_iff in E. contradiction. }
  split; [reflexivity|].
  split; [exact MT|]. split; [exact MS|]. split; [exact MP|].
  split; [exact MC|].
  intros F. rewrite Co, F. split; [reflexivity|].
  rewrite get_one.
  apply (append_absent task_id (Record_ task_id (json_dumps task) metadata)
           eq_refl _ F).
Qed.
End add.


Lemma add_task_defaults_witness :
  exists task metadata,
    (add_task (fun _ => None) "Call mum" "" "bogus" None "nope" "neutral"
       "id-1" "t0" empty_memory).1 = TaskAdded task /\
    task !! "priority" = Some (PStr "medium") /\
    task !! "category" = Some (PStr "personal") /\
    important_memories_collection
      (add_task (fun _ => None) "Call mum" "" "bogus" None "nope" "neutral"
         "id-1" "t0" empty_memory).2
    = [Record_ "id-1" (json_dumps task) metadata] /\
    metadata !! "priority" = Some (MStr "medium") /\
    metadata !! "category" = Some (MStr "personal").
Proof.
  destruct (add_task_defaults (fun _ => None) "Call mum" "" "bogus" None "nope"
              "neutral" "id-1" "t0" empty_memory)
    as (task & metadata & H & _ & _ & _ & _ & Hp & _ & Hc & _ & _ & _ & MP
        & MC & Co).
  exists task, metadata. split; [exact H|]. split; [|split; [|split; [|split]]].
  - apply Hp. simpl. intuition discriminate.
  - apply Hc. unfold task_categories. simpl. intuition discriminate.
  - apply Co. reflexivity.
  - exact MP.
  - exact MC.
Defined.

(** *** Completing a task *)

(** The update [{status: completed}] on a task that is found: the status
    is set, and [completed_at] is stamped with the clock exactly when the
    status was not "completed" before. *)
Lemma complete_update (now : string) (task : gmap string pyval) (status : pyval) :
  task !! "status" = Some status ->
  map_fold (apply_update now) (Some task) {["status" := PStr "completed"]}
  = Some (<["status" := PStr "completed"]>
            (if negb (is_text "completed" status)
             then <["completed_at" := PStr now]> task
             else task)).
Proof.
  intros H. rewrite map_fold_singleton. unfold apply_update. simpl.
  rewrite H. reflexivity.
Qed.

(** [update_task] with [{status: completed}] on a task the listing finds. *)
Lemma update_task_found (task_id now_completed now_updated : string)
    (m : memory) (task : gmap string pyval) (status title : pyval) :
  find_task task_id (get_all_tasks None None m).1 = Some (Some task) ->
  task !! "status" = Some status ->
  task !! "title" = Some title ->
  (update_task task_id {["status" := PStr "completed"]}
     now_completed now_updated m).1
  = TaskUpdated
      (<["updated_at" := PStr now_updated]>
         (<["status" := PStr "completed"]>
            (if negb (is_text "completed" status)
             then <["completed_at" := PStr now_completed]> task
             else task))).
Proof.
  intros F S T.
  unfold update_task, catch, mbind, M_bind, bind, call, of_option. simpl.
  rewrite F. rewrite (complete_update now_completed task status S).
  simpl.
  assert (X : <["updated_at" := PStr now_updated]>
                (<["status" := PStr "completed"]>
                   (if negb (is_text "completed" status)
                    then <["completed_at" := PStr now_completed]> task
                    else task)) !! "title" = Some title).
  { rewrite lookup_insert_ne by discriminate.
    rewrite lookup_insert_ne by discriminate.
    destruct (negb _); [rewrite lookup_insert_ne by discriminate|]; exact T. }
  rewrite X. reflexivity.
Qed.


(** With one stored task the two updates behave as C6 says: the first
    stamps [completed_at] with its clock reading, the second finds the
    task completed and leaves the stamp as it is. *)
Lemma complete_twice_single_task :
  let parse := fun s : string => Some (s ++ "T00:00:00+00:00")%string in
  let completed : gmap string pyval := {["status" := PStr "completed"]} in
  let m1 := (add_task parse "walk" "" "medium" None "personal" "neutral"
               "id-a" "t0" empty_memory).2 in
  let u1 := update_task "id-a" completed "t2" "t3" m1 in
  let u2 := update_task "id-a" completed "t4" "t5" u1.2 in
  (exists task, u1.1 = TaskUpdated task /\
                task !! "completed_at" = Some (PStr "t2")) /\
  (exists task, u2.1 = TaskUpdated task /\
                task !! "completed_at" = Some (PStr "t2") /\
                task !! "updated_at" = Some (PStr "t5")).
Proof.
  split; eexists; repeat split; vm_compute; reflexivity.
Qed.

(** C6, on the code.  Two pending tasks of the same priority are stored
    through [add_task], the first without a due date and the second with
    one.  The listing that [update_task] starts with sorts the tasks by
    (priority, due date); the due dates None and "2025-01-01T00:00:00+00:00"
    cannot be compared, the sort raises, and [get_all_tasks] answers with
    the empty list.  So the update of the first task to status completed
    answers "Task not found", writes nothing, and [completed_at] is never
    stamped, where the claim asks for a stamp with the current time. *)
Theorem complete_lost_by_listing :
  let parse := fun s : string => Some (s ++ "T00:00:00+00:00")%string in
  let completed : gmap string pyval := {["status" := PStr "completed"]} in
  let m1 := (add_task parse "walk" "" "medium" None "personal" "neutral"
               "id-a" "t0" empty_memory).2 in
  let m2 := (add_task parse "call mum" "" "medium" (Some "2025-01-01")
               "social" "neutral" "id-b" "t1" m1).2 in
  let u := update_task "id-a" completed "t2" "t3" m2 in
  List.map rec_id (important_memories_collection m2) = ["id-a"; "id-b"] /\
  (exists task,
      rec_document <$> important_memories_collection m2 !! 0%nat
      = Some (json_dumps task) /\
      task !! "status" = Some (PStr "pending") /\
      task !! "completed_at" = Some PNone) /\
  (get_all_tasks None None m2).1 = [] /\
  u.1 = TaskNotFound /\
  important_memories_collection u.2 = important_memories_collection m2.
Proof.
  split; [vm_compute; reflexivity|].
  split; [eexists; repeat split; vm_compute; reflexivity|].
  repeat split; vm_compute; reflexivity.
Qed.

End TasksTheory.

(** ** Text normalisation *)

Module NormalTheory.
Import PyStr.

Lemma is_space_to_lower (c : ascii) : is_space (to_lower c) = is_space c.
Proof. destruct c as [[] [] [] [] [] [] [] []]; reflexivity. Qed.

Lemma to_lower_idem (c : ascii) : to_lower (to_lower c) = to_lower c.
Proof. destruct c as [[] [] [] [] [] [] [] []]; reflexivity. Qed.

Lemma lower_idem (s : string) : lower (lower s) = lower s.
Proof.
  induction s as [|c s IH]; simpl; [reflexivity|].
  rewrite to_lower_idem, IH. reflexivity.
Qed.

Lemma lstrip_lower (s : string) : lstrip (lower s) = lower (lstrip s).
Proof.
  induction s as [|c s IH]; simpl; [reflexivity|].
  rewrite is_space_to_lower. destruct (is_space c); [exact IH|reflexivity].
Qed.

Lemma rstrip_lower (s : string) : rstrip (lower s) = lower (rstrip s).
Proof.
  induction s as [|c s IH]; simpl; [reflexivity|].
  rewrite IH, is_space_to_lower.
  destruct (rstrip s); simpl; [destruct (is_space c)|]; reflexivity.
Qed.

Lemma strip_lower (s : string) : strip (lower s) = lower (strip s).
Proof. unfold strip. rewrite lstrip_lower. apply rstrip_lower. Qed.

Lemma rstrip_idem (s : string) : rstrip (rstrip s) = rstrip s.
Proof.
  induction s as [|c s IH]; simpl; [reflexivity|].
  destruct (rstrip s) as [|d r] eqn:E.
  - destruct (is_space c) eqn:Ec; simpl; [reflexivity|]. rewrite Ec. reflexivity.
  - simpl. simpl in IH. rewrite IH. reflexivity.
Qed.

Lemma lstrip_idem (s : string) : lstrip (lstrip s) = lstrip s.
Proof.
  induction s as [|c s IH]; simpl; [reflexivity|].
  destruct (is_space c) eqn:E; [exact IH|]. simpl. rewrite E. reflexivity.
Qed.

(** [rstrip] keeps the first character of a text that does not begin
    with white space. *)
Lemma lstrip_rstrip (s : string) :
  lstrip s = s -> lstrip (rstrip s) = rstrip s.
Proof.
  destruct s as [|c s]; simpl; [reflexivity|].
  destruct (is_space c) eqn:E.
  - intros H. apply (f_equal String.length) in H. simpl in H.
    assert (L : forall t, (String.length (lstrip t) <= String.length t)%nat).
    { clear. induction t as [|d t IH]; simpl; [lia|].
      destruct (is_space d); simpl; lia. }
    specialize (L s). lia.
  - intros _. destruct (rstrip s); simpl; rewrite E; reflexivity.
Qed.

Lemma strip_idem (s : string) : strip (strip s) = strip s.
Proof.
  unfold strip.
  rewrite (lstrip_rstrip (lstrip s)) by apply lstrip_idem.
  apply rstrip_idem.
Qed.

(** The text the extraction and the mood parser work on is a fixed point
    of the normalisation. *)
Lemma normal_idem (s : string) :
  strip (lower (strip (lower s))) = strip (lower s).
Proof.
  rewrite (strip_lower (strip (lower s))), strip_idem, <- strip_lower.
  rewrite lower_idem. reflexivity.
Qed.

End NormalTheory.

(** ** More on fact extraction *)

Module FactsMore.
Import PyStr PyStrTheory NormalTheory Facts FactsTheory.

(** X1. The extraction reads its message through [lower] and [strip] only:
    upper case and surrounding white space never change the facts. *)
Theorem extract_normalised (message : string) :
  _extract_user_facts (strip (lower message)) = _extract_user_facts message.
Proof.
  unfold _extract_user_facts. cbv zeta. rewrite normal_idem. reflexivity.
Qed.

Lemma name_step_shape (message_lower lit : string)
    (facts : gmap string fact_value) :
  (facts = ∅ \/
   exists name, facts = {["name" := FStr name]} /\ (1 < String.length name)%nat) ->
  name_step message_lower facts lit = ∅ \/
  exists name, name_step message_lower facts lit = {["name" := FStr name]} /\
               (1 < String.length name)%nat.
Proof.
  intros H. unfold name_step.
  destruct (pattern_name lit message_lower) as [name|]; [|exact H].
  destruct (1 <? String.length name)%nat eqn:E; [|exact H].
  apply Nat.ltb_lt in E. right. exists name. split; [|exact E].
  destruct H as [->|(n0 & -> & _)].
  - reflexivity.
  - apply insert_singleton_eq.
Qed.

(** X2. The extraction never raises, and its result holds at most one fact:
    nothing, a name of two characters or more, or a one-element list under
    pets, support_preferences or notes. *)
Theorem extract_at_most_one_fact (message : string) :
  exists facts,
    _extract_user_facts message = Some facts /\
    (facts = ∅ \/
     (exists name, facts = {["name" := FStr name]} /\
                   (1 < String.length name)%nat) \/
     (exists key item, facts = {[key := FList [item]]} /\
                       (key = "pets" \/ key = "support_preferences" \/
                        key = "notes"))).
Proof.
  unfold _extract_user_facts. cbv zeta.
  destruct (startswith "store this:" (strip (lower message))
            || startswith "store this :" (strip (lower message))) eqn:E.
  - destruct (store_this_has_colon _ E) as (tail & ->). simpl.
    destruct (store_this_shape (strip tail)) as (key & item & -> & K).
    eexists. split; [reflexivity|]. right. right. eauto.
  - eexists. split; [reflexivity|].
    unfold scan_names, name_patterns. simpl.
    destruct (name_step_shape (strip (lower message)) "call me "
                (name_step (strip (lower message)) ∅ "my name is ")) as [H|H].
    + apply name_step_shape. left. reflexivity.
    + left. exact H.
    + right. left. exact H.
Qed.

Lemma re_search_contains (lit s g : string) :
  re_search_name lit s = Some g -> contains lit s = true.
Proof.
  induction s as [|c s IH]; simpl.
  - unfold match_name_at, startswith.
    destruct (strip_prefix lit "") as [rest|]; [reflexivity|discriminate].
  - unfold match_name_at, startswith.
    destruct (strip_prefix lit (String c s)) as [rest|]; [reflexivity|].
    intros H. simpl. exact (IH H).
Qed.

(** X3. A message that neither starts with the store command nor holds one
    of the two name phrases yields no fact. *)
Theorem extract_nothing (message : string) :
  startswith "store this:" (strip (lower message)) = false ->
  startswith "store this :" (strip (lower message)) = false ->
  contains "my name is " (strip (lower message)) = false ->
  contains "call me " (strip (lower message)) = false ->
  _extract_user_facts message = Some ∅.
Proof.
  intros S1 S2 N1 N2. unfold _extract_user_facts. cbv zeta.
  rewrite S1, S2. simpl. f_equal.
  unfold scan_names, name_patterns. simpl.
  assert (P : forall lit, contains lit (strip (lower message)) = false ->
                          pattern_name lit (strip (lower message)) = None).
  { intros lit C. unfold pattern_name.
    destruct (re_search_name lit (strip (lower message))) as [g|] eqn:R;
      [|reflexivity].
    apply re_search_contains in R. congruence. }
  unfold name_step. rewrite (P _ N1), (P _ N2). reflexivity.
Qed.

Lemma extract_nothing_witness :
  _extract_user_facts "I feel tired today" = Some ∅.
Proof. apply extract_nothing; reflexivity. Defined.

End FactsMore.

(** ** The profile as the chain reads and writes it *)

Module ProfileMore.
Import Store Memory MemoryTheory Chain ChainTheory.

Lemma get_user_profile_unfold (m : memory) :
  get_user_profile m =
  (match List.filter (has_id profile_id) (user_profile_collection m) with
   | r :: _ =>
       if doc_truthy (rec_document r) then
         match json_loads (rec_document r) with
         | Some profile_data => ProfileFound profile_data (rec_metadata r)
         | None => ProfileError
         end
       else ProfileAbsent
   | [] => ProfileAbsent
   end,
   logged UserProfile (CallGet [profile_id]) m).
Proof.
  unfold get_user_profile, catch, mbind, M_bind, bind, do_get, of_option.
  rewrite get_one. simpl.
  destruct (List.filter (has_id profile_id) (user_profile_collection m))
    as [|r l]; [reflexivity|].
  destruct (doc_truthy (rec_document r)); [|reflexivity].
  destruct (json_loads (rec_document r)); reflexivity.
Qed.

Lemma replace_head (id : string) (r : record) (c : collection) :
  rec_id r = id -> existsb (has_id id) c = true ->
  exists l,
    List.filter (has_id id)
      (List.map (fun r' => if has_id id r' then r else r') c) = r :: l.
Proof.
  intros Hr. induction c as [|x c IH]; simpl; [discriminate|].
  destruct (has_id id x) eqn:E; simpl.
  - intros _. rewrite (has_id_self id r Hr). eauto.
  - rewrite E. exact IH.
Qed.

(** The first record [get] finds after [update_user_profile] is the one
    just written, whatever the collection held. *)
Lemma first_after_update (P : gmap string pyval) (now : string) (m : memory) :
  exists l,
    List.filter (has_id profile_id)
      (user_profile_collection (update_user_profile P now m).2)
    = profile_record P now :: l.
Proof.
  rewrite update_user_profile_unfold. simpl.
  destruct (existsb (has_id profile_id) (user_profile_collection m)) eqn:E; simpl.
  - apply replace_head; [reflexivity|exact E].
  - exists []. apply (append_absent profile_id _ (profile_record_id P now)), E.
Qed.

Lemma get_after_update (P : gmap string pyval) (now : string) (m : memory) :
  (get_user_profile (update_user_profile P now m).2).1
  = ProfileFound (JObject P) (profile_metadata now).
Proof.
  rewrite get_user_profile_unfold. cbn [fst].
  destruct (first_after_update P now m) as (l & ->). reflexivity.
Qed.

(** X4. What [update_user_profile] writes, [get_user_profile] reads back:
    after an update with the profile [P], on any state of the store, the
    profile is found, it is [P], and its metadata is the one of that
    update. *)
Theorem profile_round_trip (P : gmap string pyval) (now : string) (m : memory) :
  (update_user_profile P now m).1 = ProfileUpdated now profile_id /\
  (get_user_profile (update_user_profile P now m).2).1
  = ProfileFound (JObject P) (profile_metadata now) /\
  profile_of (get_user_profile (update_user_profile P now m).2).1 = JObject P.
Proof.
  split; [rewrite update_user_profile_unfold; reflexivity|].
  rewrite get_after_update. split; reflexivity.
Qed.

Section store.
Variable list_of_set : list string -> list string.

(** The store after [_store_user_facts] with a delta that is not empty
    and a profile that reads as a dict. *)
Lemma store_user_facts_unfold (facts : gmap string fact_value)
    (now_merge now_update : string) (m : memory)
    (profile_data : gmap string pyval) :
  facts <> ∅ ->
  profile_of (get_user_profile m).1 = JObject profile_data ->
  (_store_user_facts list_of_set facts now_merge now_update m).2
  = (update_user_profile
       (<["last_updated" := PStr now_merge]>
          (merge_facts list_of_set facts profile_data))
       now_update (get_user_profile m).2).2.
Proof.
  intros Hf Hp.
  unfold _store_user_facts, catch, mbind, M_bind, bind, call.
  destruct (decide (facts = ∅)) as [E|_]; [contradiction|].
  cbn [fst snd]. rewrite Hp. reflexivity.
Qed.

(** X5. After [_store_user_facts] with a delta that is not empty, reading
    the profile gives the merge of the delta into the profile read before,
    stamped with [last_updated]. *)
Theorem store_facts_round_trip (facts : gmap string fact_value)
    (now_merge now_update : string) (m : memory)
    (profile_data : gmap string pyval) :
  facts <> ∅ ->
  profile_of (get_user_profile m).1 = JObject profile_data ->
  (get_user_profile
     (_store_user_facts list_of_set facts now_merge now_update m).2).1
  = ProfileFound
      (JObject (<["last_updated" := PStr now_merge]>
                  (merge_facts list_of_set facts profile_data)))
      (profile_metadata now_update).
Proof.
  intros Hf Hp.
  rewrite (store_user_facts_unfold facts now_merge now_update m profile_data Hf Hp).
  apply get_after_update.
Qed.

(** X6. A stored profile whose document is not JSON is read as an error,
    and the next [_store_user_facts] replaces it by the delta merged into
    the empty profile: what the document held is lost. *)
Theorem store_facts_over_unreadable_profile (facts : gmap string fact_value)
    (now_merge now_update : string) (m : memory)
    (r : record) (l : list record) (text : string) :
  List.filter (has_id profile_id) (user_profile_collection m) = r :: l ->
  rec_document r = Malformed text ->
  text <> "" ->
  facts <> ∅ ->
  (get_user_profile m).1 = ProfileError /\
  (get_user_profile
     (_store_user_facts list_of_set facts now_merge now_update m).2).1
  = ProfileFound
      (JObject (<["last_updated" := PStr now_merge]>
                  (merge_facts list_of_set facts ∅)))
      (profile_metadata now_update).
Proof.
  intros Hr Hd Ht Hf.
  assert (E : (get_user_profile m).1 = ProfileError).
  { rewrite get_user_profile_unfold. cbn [fst]. rewrite Hr, Hd. simpl.
    destruct (String.eqb text "") eqn:X; [|reflexivity].
    apply String.eqb_eq in X. contradiction. }
  split; [exact E|].
  rewrite (store_user_facts_unfold facts now_merge now_update m ∅ Hf)
    by (rewrite E; reflexivity).
  apply get_after_update.
Qed.

(** X7. A stored profile whose document is JSON but no object (a list, a
    number, null) makes [_store_user_facts] fail on the first fact: the
    exception is swallowed, nothing is written, and the delta is lost. *)
Theorem store_facts_on_non_object_profile (facts : gmap string fact_value)
    (now_merge now_update : string) (m : memory)
    (r : record) (l : list record) (text : string) :
  List.filter (has_id profile_id) (user_profile_collection m) = r :: l ->
  rec_document r = Json (JValue text) ->
  facts <> ∅ ->
  let m' := (_store_user_facts list_of_set facts now_merge now_update m).2 in
  user_profile_collection m' = user_profile_collection m /\
  calls m' = calls m ++ [(UserProfile, CallGet [profile_id])].
Proof.
  intros Hr Hd Hf.
  unfold _store_user_facts, catch, mbind, M_bind, bind, call, of_option.
  destruct (decide (facts = ∅)) as [E|_]; [contradiction|].
  rewrite get_user_profile_unfold. cbn [fst snd]. rewrite Hr, Hd. simpl.
  split; reflexivity.
Qed.

(** X8. The merge changes the keys of the delta only: a key the delta does
    not hold keeps its value, and a text fact overwrites whatever its key
    held. *)
Theorem merge_changes_delta_keys_only (facts : gmap string fact_value)
    (profile_data : gmap string pyval) :
  (forall key, facts !! key = None ->
     merge_facts list_of_set facts profile_data !! key = profile_data !! key) /\
  (forall key s, facts !! key = Some (FStr s) ->
     merge_facts list_of_set facts profile_data !! key = Some (PStr s)) /\
  (forall key value, facts !! key = Some (FList value) ->
     merge_facts list_of_set facts profile_data !! key
     = Some (PList (list_of_set (existing_list profile_data key ++ value)))).
Proof.
  repeat split; intros; rewrite merge_facts_lookup, H; reflexivity.
Qed.

Hypothesis list_of_set_spec :
  forall xs, NoDup (list_of_set xs) /\ forall x, x ∈ list_of_set xs <-> x ∈ xs.

(** X9. Merging the same delta a second time adds nothing: at a list key
    the second merge holds the same elements as the first, each once. *)
Theorem merge_twice_same_elements (facts : gmap string fact_value)
    (profile_data : gmap string pyval) (key : string) (value : list string) :
  facts !! key = Some (FList value) ->
  exists once twice,
    merge_facts list_of_set facts profile_data !! key = Some (PList once) /\
    merge_facts list_of_set facts
      (merge_facts list_of_set facts profile_data) !! key
    = Some (PList twice) /\
    twice ≡ₚ once.
Proof.
  intros H.
  exists (list_of_set (existing_list profile_data key ++ value)).
  exists (list_of_set
            (list_of_set (existing_list profile_data key ++ value) ++ value)).
  assert (E1 : merge_facts list_of_set facts profile_data !! key
               = Some (PList (list_of_set
                                (existing_list profile_data key ++ value)))).
  { rewrite merge_facts_lookup, H. reflexivity. }
  split; [exact E1|]. split.
  - rewrite merge_facts_lookup, H. unfold merged_value, existing_list at 1.
    rewrite E1. reflexivity.
  - apply NoDup_Permutation.
    + apply list_of_set_spec.
    + apply list_of_set_spec.
    + intros x.
      rewrite (proj2 (list_of_set_spec _) x), elem_of_app.
      rewrite (proj2 (list_of_set_spec _) x), elem_of_app. tauto.
Qed.

End store.

Lemma remove_dups_spec (xs : list string) :
  NoDup (remove_dups xs) /\ forall x, x ∈ remove_dups xs <-> x ∈ xs.
Proof.
  split; [apply NoDup_remove_dups|]. intros x. apply elem_of_remove_dups.
Qed.

Lemma store_facts_round_trip_witness :
  (get_user_profile
     (_store_user_facts remove_dups {["pets" := FList ["Bruno"]]}
        "t1" "t2" empty_memory).2).1
  = ProfileFound
      (JObject (<["last_updated" := PStr "t1"]>
                  (merge_facts remove_dups {["pets" := FList ["Bruno"]]} ∅)))
      (profile_metadata "t2").
Proof.
  apply store_facts_round_trip.
  - intros E. apply (f_equal (lookup "pets")) in E. discriminate.
  - reflexivity.
Defined.

Lemma store_facts_over_unreadable_profile_witness :
  let m := Memory_ [] [] [] []
             [Record_ profile_id (Malformed "{ name: ") ∅] [] [] in
  (get_user_profile m).1 = ProfileError /\
  (get_user_profile
     (_store_user_facts remove_dups {["name" := FStr "Alex"]} "t1" "t2" m).2).1
  = ProfileFound
      (JObject (<["last_updated" := PStr "t1"]>
                  (merge_facts remove_dups {["name" := FStr "Alex"]} ∅)))
      (profile_metadata "t2").
Proof.
  apply (store_facts_over_unreadable_profile remove_dups _ "t1" "t2" _
           (Record_ profile_id (Malformed "{ name: ") ∅) [] "{ name: ").
  - reflexivity.
  - reflexivity.
  - discriminate.
  - intros E. apply (f_equal (lookup "name")) in E. discriminate.
Defined.

Lemma store_facts_on_non_object_profile_witness :
  let m := Memory_ [] [] [] []
             [Record_ profile_id (Json (JValue "[1, 2]")) ∅] [] [] in
  let m' := (_store_user_facts remove_dups {["name" := FStr "Alex"]}
               "t1" "t2" m).2 in
  user_profile_collection m' = user_profile_collection m /\
  calls m' = calls m ++ [(UserProfile, CallGet [profile_id])].
Proof.
  apply (store_facts_on_non_object_profile remove_dups _ "t1" "t2" _
           (Record_ profile_id (Json (JValue "[1, 2]")) ∅) [] "[1, 2]").
  - reflexivity.
  - reflexivity.
  - intros E. apply (f_equal (lookup "name")) in E. discriminate.
Defined.

Lemma merge_changes_delta_keys_only_witness :
  merge_facts remove_dups {["name" := FStr "Alex"]}
    {["pets" := PList ["Bruno"]]} !! "pets" = Some (PList ["Bruno"]) /\
  merge_facts remove_dups {["name" := FStr "Alex"]}
    {["name" := PStr "Al"]} !! "name" = Some (PStr "Alex").
Proof.
  split.
  - rewrite (proj1 (merge_changes_delta_keys_only remove_dups
                      {["name" := FStr "Alex"]} {["pets" := PList ["Bruno"]]})
               "pets"); reflexivity.
  - apply (proj1 (proj2 (merge_changes_delta_keys_only remove_dups
                           {["name" := FStr "Alex"]} {["name" := PStr "Al"]}))).
    reflexivity.
Defined.

Lemma merge_twice_same_elements_witness :
  exists once twice,
    merge_facts remove_dups {["pets" := FList ["Bruno"; "Whiskers"]]}
      {["pets" := PList ["Bruno"]]} !! "pets" = Some (PList once) /\
    merge_facts remove_dups {["pets" := FList ["Bruno"; "Whiskers"]]}
      (merge_facts remove_dups {["pets" := FList ["Bruno"; "Whiskers"]]}
         {["pets" := PList ["Bruno"]]}) !! "pets" = Some (PList twice) /\
    twice ≡ₚ once.
Proof.
  apply (merge_twice_same_elements remove_dups remove_dups_spec
           _ _ "pets" ["Bruno"; "Whiskers"]).
  reflexivity.
Defined.

End ProfileMore.

(** ** The order of texts *)

Module StringOrder.

Lemma ltb_lt (a b : string) : String.ltb a b = true <-> OrderedTypeEx.String_as_OT.lt a b.
Proof.
  rewrite <- OrderedTypeEx.String_as_OT.cmp_lt. unfold String.ltb, OrderedTypeEx.String_as_OT.cmp.
  destruct (String.compare a b); split; congruence.
Qed.

Lemma leb_iff (a b : string) :
  String.leb a b = true <-> String.ltb a b = true \/ a = b.
Proof.
  unfold String.leb, String.ltb.
  destruct (String.compare a b) eqn:E.
  - apply String.compare_eq_iff in E. tauto.
  - tauto.
  - split; [discriminate|]. intros [H| ->]; [discriminate|].
    assert (X : String.compare b b = Eq).
    { clear E. induction b as [|c b IH]; simpl; [reflexivity|].
      unfold Ascii.compare. rewrite N.compare_refl. exact IH. }
    congruence.
Qed.

Lemma ltb_trans (a b c : string) :
  String.ltb a b = true -> String.ltb b c = true -> String.ltb a c = true.
Proof. rewrite !ltb_lt. apply OrderedTypeEx.String_as_OT.lt_trans. Qed.

Lemma leb_trans (a b c : string) :
  String.leb a b = true -> String.leb b c = true -> String.leb a c = true.
Proof.
  rewrite !leb_iff. intros [H1| ->] [H2| ->]; auto.
  left. exact (ltb_trans a b c H1 H2).
Qed.

Lemma ltb_leb (a b : string) : String.ltb a b = true -> String.leb a b = true.
Proof. intros H. apply leb_iff. left. exact H. Qed.

Lemma ltb_false_leb (a b : string) :
  String.ltb a b = false -> String.leb b a = true.
Proof.
  intros H. destruct (String.leb_total a b) as [L|L]; [|exact L].
  apply leb_iff in L. destruct L as [L| ->]; [congruence|].
  apply leb_iff. right. reflexivity.
Qed.

Lemma compare_refl (a : string) : String.compare a a = Eq.
Proof.
  induction a as [|c a IH]; simpl; [reflexivity|].
  unfold Ascii.compare. rewrite N.compare_refl. exact IH.
Qed.

Lemma ltb_irrefl (a : string) : String.ltb a a = false.
Proof. unfold String.ltb. rewrite compare_refl. reflexivity. Qed.

Lemma ltb_asym (a b : string) :
  String.ltb a b = true -> String.ltb b a = false.
Proof.
  unfold String.ltb. rewrite (String.compare_antisym b a).
  destruct (String.compare a b); simpl; congruence.
Qed.

Lemma ltb_connected (a b : string) :
  String.eqb a b = false -> String.ltb a b = false -> String.ltb b a = true.
Proof.
  unfold String.ltb. intros E. rewrite (String.compare_antisym b a).
  destruct (String.compare a b) eqn:C; simpl; try congruence.
  apply String.compare_eq_iff in C. apply String.eqb_neq in E. contradiction.
Qed.

(** The order of lists of texts. *)
Lemma list_ltb_asym (l1 l2 : list string) :
  PyCmp.list_ltb l1 l2 = true -> PyCmp.list_ltb l2 l1 = false.
Proof.
  revert l2. induction l1 as [|x l1 IH]; intros [|y l2]; simpl;
    try discriminate; try reflexivity.
  rewrite (String.eqb_sym y x).
  destruct (String.eqb x y); [apply IH|apply ltb_asym].
Qed.

Lemma list_nlt_trans (a b c : list string) :
  PyCmp.list_ltb b a = false -> PyCmp.list_ltb c b = false ->
  PyCmp.list_ltb c a = false.
Proof.
  revert b c. induction a as [|x a IH]; intros [|y b] [|z c]; simpl;
    try discriminate; try reflexivity.
  destruct (String.eqb y x) eqn:Eyx.
  - apply String.eqb_eq in Eyx. subst y.
    destruct (String.eqb z x) eqn:Ezx; [apply IH|tauto].
  - intros Lyx.
    destruct (String.eqb z y) eqn:Ezy.
    + apply String.eqb_eq in Ezy. subst z. intros _. rewrite Eyx. exact Lyx.
    + intros Lzy.
      assert (Xy : String.ltb x y = true).
      { apply ltb_connected; assumption. }
      assert (Yz : String.ltb y z = true).
      { apply ltb_connected; assumption. }
      pose proof (ltb_trans x y z Xy Yz) as Xz.
      destruct (String.eqb z x) eqn:Ezx.
      * apply String.eqb_eq in Ezx. subst z. rewrite ltb_irrefl in Xz.
        discriminate.
      * apply ltb_asym, Xz.
Qed.

End StringOrder.

(** ** More on moods *)

Module MoodMore.
Import PyStr NormalTheory Store Memory MemoryTheory Mood MoodTheory
  MoodEntriesTheory SortTheory.

Section parse.
Variable py_float : string -> option pyfloat.

(** X10. A mood given as text is read through [lower] and [strip] only:
    upper case and surrounding white space never change the value. *)
Theorem parse_mood_text_normalised (s : string) :
  _parse_mood_value py_float (MoodText (strip (lower s)))
  = _parse_mood_value py_float (MoodText s).
Proof.
  unfold _parse_mood_value. cbv zeta. rewrite normal_idem. reflexivity.
Qed.

(** X11. A float mood is truncated, so the floats accepted are exactly those
    from 1 up to, and not including, 11; the value logged is the integer
    part.  10.9 is the mood 10 and 0.9 is rejected. *)
Theorem parse_mood_float (q : Q) :
  _parse_mood_value py_float (MoodFloat (Finite q))
  = if Qle_bool 1 q && negb (Qle_bool 11 q) then Some (Qround.Qfloor q) else None.
Proof. apply parse_finite_float. Qed.

(** X12. The label [log_mood] reports for a value is one the parser reads
    back as that value: for every value of the scale, parsing its label
    gives the value again.  [float] rejects the ten labels. *)
Theorem mood_label_round_trip (v : Z) :
  (forall label, In label (List.map fst mood_values) -> py_float label = None) ->
  (1 <= v <= 10)%Z ->
  assoc (value_mood v) mood_values = Some v /\
  _parse_mood_value py_float (MoodText (value_mood v)) = Some v.
Proof.
  intros F R.
  assert (C : (v = 1 \/ v = 2 \/ v = 3 \/ v = 4 \/ v = 5 \/ v = 6 \/ v = 7 \/
               v = 8 \/ v = 9 \/ v = 10)%Z) by lia.
  assert (G : forall label,
             In label (List.map fst mood_values) ->
             strip (lower label) = label ->
             _parse_mood_value py_float (MoodText label)
             = assoc label mood_values).
  { intros label I N. unfold _parse_mood_value. cbv zeta.
    rewrite N, (F label I). reflexivity. }
  repeat (destruct C as [C|C]); subst v;
    (split; [reflexivity|]; rewrite G; [reflexivity|simpl; tauto|reflexivity]).
Qed.

(** X13. A mood that parses is logged as one record appended to the mood
    collection, with the entry as its document; when the id is already in
    the collection the store's [add] fails, [log_mood] reports a failure
    and nothing is written. *)
Theorem log_mood_writes_one_record (mood : mood_input) (note : string)
    (sentiment : pyval) (mood_id now : string) (m : memory) (v : Z) :
  _parse_mood_value py_float mood = Some v ->
  let out := log_mood py_float mood note sentiment mood_id now m in
  let entry := mood_entry mood_id v note sentiment now in
  if existsb (has_id mood_id) (mood_data_collection m)
  then out.1 = MoodFailed /\
       mood_data_collection out.2 = mood_data_collection m
  else out.1 = MoodLogged entry now /\
       mood_data_collection out.2
       = mood_data_collection m
         ++ [Record_ mood_id (json_dumps entry)
               (mood_metadata mood_id v note now)].
Proof.
  intros P. unfold log_mood, catch, mbind, M_bind, bind, do_add, add. rewrite P.
  cbn [rec_id coll].
  destruct (existsb (has_id mood_id) (mood_data_collection m)); simpl;
    split; reflexivity.
Qed.

End parse.

Lemma mood_label_round_trip_witness :
  _parse_mood_value (fun _ => None) (MoodText (value_mood 8)) = Some 8%Z.
Proof.
  apply (mood_label_round_trip (fun _ => None) 8).
  - reflexivity.
  - lia.
Defined.

Lemma log_mood_writes_one_record_witness :
  let out := log_mood (fun _ => None) (MoodInt 7) "" PNone "m-1" "t0"
               empty_memory in
  out.1 = MoodLogged (mood_entry "m-1" 7 "" PNone "t0") "t0" /\
  mood_data_collection out.2
  = [Record_ "m-1" (json_dumps (mood_entry "m-1" 7 "" PNone "t0"))
       (mood_metadata "m-1" 7 "" "t0")].
Proof.
  apply (log_mood_writes_one_record (fun _ => None) (MoodInt 7) "" PNone
           "m-1" "t0" empty_memory 7).
  reflexivity.
Defined.

End MoodMore.

(** ** Reading back the moods logged *)

Module MoodReadMore.
Import PyStr Store Memory MemoryTheory Mood MoodTheory MoodEntriesTheory
  SortTheory StringOrder.

Lemma le_timestamp_total (x y : gmap string pyval) :
  le_timestamp x y = true \/ le_timestamp y x = true.
Proof. apply String.leb_total. Qed.

Lemma le_timestamp_trans (x y z : gmap string pyval) :
  le_timestamp x y = true -> le_timestamp y z = true -> le_timestamp x z = true.
Proof. apply leb_trans. Qed.

Section entries.
Variable py_float : string -> option pyfloat.
Variable fromisoformat : string -> option datetime.
Variables start_date end_date : datetime.

(** An entry that is read carries a text timestamp. *)
Lemma read_entry_timestamp (doc : document) (d : gmap string pyval) (b : bool) :
  read_entry fromisoformat start_date end_date doc = Some (d, b) ->
  doc = Json (JObject d) /\ exists s, d !! "timestamp" = Some (PStr s).
Proof.
  unfold read_entry. destruct doc as [[d'|t]|t]; simpl; try discriminate.
  destruct (d' !! "timestamp") as [[| | | |s| |]|] eqn:T; simpl; try discriminate.
  destruct (fromisoformat (replace_Z s)) as [e|]; simpl; [|discriminate].
  destruct (dt_le start_date e) as [[|]|]; simpl; try discriminate.
  - destruct (dt_le e end_date) as [c|]; simpl; [|discriminate].
    intros H. injection H as <- <-. split; [reflexivity|]. eauto.
  - intros H. injection H as <- <-. split; [reflexivity|]. eauto.
Qed.

Lemma collected (r : record) (d : gmap string pyval) :
  In d (collect_entry fromisoformat start_date end_date [] r) ->
  read_entry fromisoformat start_date end_date (rec_document r) = Some (d, true).
Proof.
  unfold collect_entry.
  destruct (read_entry fromisoformat start_date end_date (rec_document r))
    as [[d' [|]]|]; simpl; try tauto.
  intros [->|[]]. reflexivity.
Qed.

(** X14. The entries of a period come oldest first: the list is sorted by
    the timestamp texts, and every entry in it is the document of a stored
    record and carries a text timestamp. *)
Theorem mood_entries_oldest_first (m : memory) :
  let result :=
    (_get_mood_entries_in_range fromisoformat start_date end_date m).1 in
  StronglySorted
    (fun x y => String.leb (timestamp_of x) (timestamp_of y) = true) result /\
  (forall d, In d result ->
     (exists s, d !! "timestamp" = Some (PStr s)) /\
     exists r, In r (mood_data_collection m) /\
               rec_document r = Json (JObject d)).
Proof.
  cbv zeta. rewrite entries_unfold. split.
  - apply (stable_sort_sorted le_timestamp le_timestamp_total le_timestamp_trans).
  - intros d H.
    apply (Permutation_in _ (stable_sort_perm le_timestamp _)) in H.
    apply in_flat_map in H. destruct H as (r & Hr & Hd).
    apply collected, read_entry_timestamp in Hd. destruct Hd as [D T].
    split; [exact T|]. exists r. split; [|exact D].
    unfold get_where in Hr. apply filter_In in Hr. apply Hr.
Qed.

Lemma log_mood_fresh (mood : mood_input) (note : string)
    (sentiment : pyval) (mood_id now : string) (m : memory) (v : Z) :
  _parse_mood_value py_float mood = Some v ->
  existsb (has_id mood_id) (mood_data_collection m) = false ->
  mood_data_collection
    (log_mood py_float mood note sentiment mood_id now m).2
  = mood_data_collection m
    ++ [Record_ mood_id (json_dumps (mood_entry mood_id v note sentiment now))
          (mood_metadata mood_id v note now)].
Proof.
  intros P F. unfold log_mood, catch, mbind, M_bind, bind, do_add, add.
  rewrite P. cbn [rec_id coll]. rewrite F. reflexivity.
Qed.

Lemma mood_entry_timestamp (mood_id : string) (v : Z) (note : string)
    (sentiment : pyval) (now : string) :
  mood_entry mood_id v note sentiment now !! "timestamp" = Some (PStr now).
Proof.
  unfold mood_entry. destruct (String.eqb note ""); reflexivity.
Qed.

(** X15. A mood logged under a fresh id is listed: when its timestamp
    parses to a time of the period asked for, the entry [log_mood]
    reported is among the entries of that period. *)
Theorem logged_mood_is_listed (mood : mood_input) (note : string)
    (sentiment : pyval) (mood_id now : string) (m : memory) (v : Z)
    (t : datetime) :
  _parse_mood_value py_float mood = Some v ->
  existsb (has_id mood_id) (mood_data_collection m) = false ->
  fromisoformat (replace_Z now) = Some t ->
  dt_le start_date t = Some true ->
  dt_le t end_date = Some true ->
  In (mood_entry mood_id v note sentiment now)
     (_get_mood_entries_in_range fromisoformat start_date end_date
        (log_mood py_float mood note sentiment mood_id now m).2).1.
Proof.
  intros P F T L U. rewrite entries_unfold.
  apply (Permutation_in _ (Permutation_sym (stable_sort_perm le_timestamp _))).
  apply in_flat_map.
  exists (Record_ mood_id (json_dumps (mood_entry mood_id v note sentiment now))
            (mood_metadata mood_id v note now)).
  split.
  - unfold get_where. apply filter_In. split.
    + rewrite (log_mood_fresh mood note sentiment mood_id now m v P F).
      apply in_or_app. right. left. reflexivity.
    + apply matches_type. reflexivity.
  - unfold collect_entry, read_entry. cbn [rec_document json_dumps json_loads].
    simpl. rewrite mood_entry_timestamp. simpl. rewrite T. simpl.
    rewrite L. simpl. rewrite U. simpl. left. reflexivity.
Qed.

End entries.

Lemma logged_mood_is_listed_witness :
  let fromisoformat := fun s : string =>
    if String.eqb s "2024-05-02T08:00:00+00:00"
    then Some (Datetime 2 true) else None in
  In (mood_entry "m-1" 7 "" PNone "2024-05-02T08:00:00Z")
     (_get_mood_entries_in_range fromisoformat (Datetime 1 true)
        (Datetime 3 true)
        (log_mood (fun _ => None) (MoodInt 7) "" PNone "m-1"
           "2024-05-02T08:00:00Z" empty_memory).2).1.
Proof.
  apply (logged_mood_is_listed (fun _ => None) _ (Datetime 1 true)
           (Datetime 3 true) (MoodInt 7) "" PNone "m-1"
           "2024-05-02T08:00:00Z" empty_memory 7 (Datetime 2 true));
    reflexivity.
Defined.

End MoodReadMore.

(** ** Sorting with a comparison that may raise *)

Module SortExnTheory.
Import PyCmp.

Section sort_exn.
Context {A : Type} (lt : A -> A -> option bool).

Lemma insert_exn_perm (x : A) (l l' : list A) :
  insert_exn lt x l = Some l' -> l' ≡ₚ x :: l.
Proof.
  revert l'. induction l as [|y l IH]; simpl; intros l' H.
  - injection H as <-. reflexivity.
  - destruct (lt y x) as [[|]|]; simpl in H; [|injection H as <-; reflexivity
                                               |discriminate].
    destruct (insert_exn lt x l) as [l0|]; simpl in H; [|discriminate].
    injection H as <-. rewrite (IH l0 eq_refl). apply perm_swap.
Qed.

Lemma sort_exn_perm (l l' : list A) : sort_exn lt l = Some l' -> l' ≡ₚ l.
Proof.
  revert l'. induction l as [|x l IH]; simpl; intros l' H.
  - injection H as <-. reflexivity.
  - destruct (sort_exn lt l) as [s|]; simpl in H; [|discriminate].
    rewrite (insert_exn_perm x s l' H), (IH s eq_refl). reflexivity.
Qed.

(** An order the comparison decides: [lt y x] true puts [y] before [x],
    false puts [x] before [y]. *)
Variable R : A -> A -> Prop.
Hypothesis lt_true : forall y x, lt y x = Some true -> R y x.
Hypothesis lt_false : forall y x, lt y x = Some false -> R x y.
Hypothesis R_trans : forall x y z, R x y -> R y z -> R x z.

Lemma insert_exn_sorted (x : A) (l l' : list A) :
  StronglySorted R l -> insert_exn lt x l = Some l' -> StronglySorted R l'.
Proof.
  revert l'. induction l as [|y l IH]; simpl; intros l' S H.
  - injection H as <-. repeat constructor.
  - apply StronglySorted_inv in S. destruct S as [S F].
    destruct (lt y x) as [[|]|] eqn:E; simpl in H; [| |discriminate].
    + destruct (insert_exn lt x l) as [l0|] eqn:I; simpl in H; [|discriminate].
      injection H as <-. constructor; [apply IH; [exact S|reflexivity]|].
      apply List.Forall_forall. intros z Hz.
      apply (Permutation_in _ (insert_exn_perm x l l0 I)) in Hz.
      destruct Hz as [<-|Hz]; [apply lt_true, E|].
      rewrite List.Forall_forall in F. apply F, Hz.
    + injection H as <-. constructor; [constructor; assumption|].
      constructor; [apply lt_false, E|].
      apply List.Forall_forall. intros z Hz.
      rewrite List.Forall_forall in F.
      apply (R_trans x y z); [apply lt_false, E|apply F, Hz].
Qed.

Lemma sort_exn_sorted (l l' : list A) :
  sort_exn lt l = Some l' -> StronglySorted R l'.
Proof.
  revert l'. induction l as [|x l IH]; simpl; intros l' H.
  - injection H as <-. constructor.
  - destruct (sort_exn lt l) as [s|]; simpl in H; [|discriminate].
    apply (insert_exn_sorted x s l'); [apply IH; reflexivity|exact H].
Qed.

End sort_exn.


End SortExnTheory.

(** ** More on tasks *)

Module TasksMore.
Import PyStr PyCmp NormalTheory Store Memory MemoryTheory Tasks TasksTheory
  SortExnTheory.

Lemma map_filter_sublist {A B} (f : A -> B) (P : A -> bool) (l : list A) :
  sublist (List.map f (List.filter P l)) (List.map f l).
Proof.
  induction l as [|x l IH]; simpl; [constructor|].
  destruct (P x); simpl; [apply sublist_skip|apply sublist_cons]; exact IH.
Qed.

(** X16. The tags of a task come from a vocabulary of eight: they are a
    sublist of it, so they come in its order and without repetition, and
    they do not depend on the case of the text. *)
Theorem extract_tags_vocabulary (text : string) :
  sublist (_extract_tags text)
    ["exercise"; "meditation"; "social"; "creative"; "learning"; "health";
     "urgent"; "relaxing"] /\
  NoDup (_extract_tags text) /\
  _extract_tags (lower text) = _extract_tags text.
Proof.
  assert (S : sublist (_extract_tags text)
                ["exercise"; "meditation"; "social"; "creative"; "learning";
                 "health"; "urgent"; "relaxing"]).
  { unfold _extract_tags. cbv zeta.
    apply (map_filter_sublist fst _ tag_keywords). }
  split; [exact S|]. split.
  - eapply sublist_NoDup; [|exact S].
    repeat (apply NoDup_cons; split;
            [rewrite ?elem_of_cons, elem_of_nil; intuition discriminate|]).
    apply NoDup_nil. exact I.
  - unfold _extract_tags. cbv zeta. rewrite lower_idem. reflexivity.
Qed.

Lemma assoc_In {B} (k : string) (l : list (string * B)) (v : B) :
  Mood.assoc k l = Some v -> In (k, v) l.
Proof.
  induction l as [|[k' v'] l IH]; simpl; [discriminate|].
  destruct (String.eqb k k') eqn:E.
  - apply String.eqb_eq in E. intros H. injection H as <-. subst. left.
    reflexivity.
  - intros H. right. exact (IH H).
Qed.

(** X17. At most three suggestions are given, and for the four categories
    that have suggestions of their own these three are the result,
    whatever the wellness impact: the advice for a challenging or a
    positive task is then never given. *)
Theorem wellness_suggestions_category_first (category wellness_impact : string) :
  (List.length (_generate_wellness_suggestions category wellness_impact)
   <= 3)%nat /\
  (forall suggestions,
      Mood.assoc category category_suggestions = Some suggestions ->
      _generate_wellness_suggestions category wellness_impact = suggestions) /\
  (Mood.assoc category category_suggestions = None ->
   wellness_impact <> "challenging" -> wellness_impact <> "positive" ->
   _generate_wellness_suggestions category wellness_impact = []).
Proof.
  split; [unfold _generate_wellness_suggestions; cbv zeta;
          rewrite length_take; apply Nat.le_min_l|].
  split.
  - intros suggestions H. unfold _generate_wellness_suggestions. cbv zeta.
    rewrite H. cbn [default].
    apply assoc_In in H. unfold category_suggestions in H. simpl in H.
    destruct H as [H|[H|[H|[H|[]]]]]; injection H as <- <-;
      destruct (String.eqb wellness_impact "challenging");
      [reflexivity| | reflexivity| | reflexivity| | reflexivity|];
      destruct (String.eqb wellness_impact "positive"); reflexivity.
  - intros H C P. unfold _generate_wellness_suggestions. cbv zeta.
    rewrite H. cbn [default].
    destruct (String.eqb wellness_impact "challenging") eqn:E1;
      [apply String.eqb_eq in E1; contradiction|].
    destruct (String.eqb wellness_impact "positive") eqn:E2;
      [apply String.eqb_eq in E2; contradiction|].
    reflexivity.
Qed.

Lemma wellness_suggestions_category_first_witness :
  _generate_wellness_suggestions "work" "challenging"
  = ["Take breaks every hour";
     "Practice deep breathing if you feel stressed";
     "Remember that your worth isn't tied to productivity"] /\
  _generate_wellness_suggestions "household" "neutral" = [].
Proof.
  split.
  - apply (proj1 (proj2 (wellness_suggestions_category_first
                           "work" "challenging"))).
    reflexivity.
  - apply (proj2 (proj2 (wellness_suggestions_category_first
                           "household" "neutral")));
      [reflexivity|discriminate|discriminate].
Defined.

End TasksMore.

(** ** Tasks in the store *)

Module TasksStoreMore.
Import PyStr PyCmp Store Memory MemoryTheory Tasks TaskViews TasksTheory
  SortExnTheory.

(** *** Listing *)








(** *** Updating *)

Lemma find_task_found (task_id : string) (tasks : list json)
    (d : gmap string pyval) :
  find_task task_id tasks = Some (Some d) ->
  d !! "id" = Some (PStr task_id) /\ In (JObject d) tasks.
Proof.
  induction tasks as [|[d'|text] tasks IH]; simpl; try discriminate.
  destruct (d' !! "id") as [id|] eqn:I; simpl; [|discriminate].
  destruct (is_text task_id id) eqn:T.
  - intros H. injection H as <-. split; [|left; reflexivity].
    destruct id; simpl in T; try discriminate.
    apply String.eqb_eq in T. subst. exact I.
  - intros H. destruct (IH H) as [A B]. split; [exact A|right; exact B].
Qed.

Lemma allowed_key (key k : string) :
  existsb (String.eqb key) allowed_updates = true ->
  ~ In k allowed_updates -> key <> k.
Proof.
  intros A N ->. apply N. apply existsb_exists in A.
  destruct A as (x & Hx & E). apply String.eqb_eq in E. subst. exact Hx.
Qed.

Lemma apply_update_frame (now key : string) (value : pyval)
    (acc : option (gmap string pyval)) (t' : gmap string pyval) :
  apply_update now key value acc = Some t' ->
  exists t0, acc = Some t0 /\
    forall k, ~ In k allowed_updates -> k <> "completed_at" ->
              t' !! k = t0 !! k.
Proof.
  unfold apply_update. destruct acc as [t0|]; [|discriminate].
  cbn [mbind option_bind].
  intros H. exists t0. split; [reflexivity|]. intros k N C.
  destruct (existsb (String.eqb key) allowed_updates) eqn:A;
    [|injection H as <-; reflexivity].
  pose proof (allowed_key key k A N) as Hk.
  destruct (String.eqb key "status" && is_text "completed" value).
  - destruct (t0 !! "status") as [status|]; simpl in H; [|discriminate].
    injection H as <-. rewrite lookup_insert_ne by exact Hk.
    destruct (negb (is_text "completed" status)); [|reflexivity].
    apply lookup_insert_ne. congruence.
  - injection H as <-. apply lookup_insert_ne. exact Hk.
Qed.

Lemma updates_frame (now : string) (task t' : gmap string pyval)
    (updates : gmap string pyval) :
  map_fold (apply_update now) (Some task) updates = Some t' ->
  forall k, ~ In k allowed_updates -> k <> "completed_at" ->
            t' !! k = task !! k.
Proof.
  revert t'.
  apply (map_fold_weak_ind
           (fun r (_ : gmap string pyval) =>
              forall t', r = Some t' ->
                forall k, ~ In k allowed_updates -> k <> "completed_at" ->
                          t' !! k = task !! k)).
  - intros t' H. injection H as <-. reflexivity.
  - intros key value u r _ IH t' H k N C.
    destruct (apply_update_frame now key value r t' H) as (t0 & -> & F).
    rewrite (F k N C). apply (IH t0 eq_refl k N C).
Qed.

(** What a successful [update_task] did: the task it found, the task it
    made of it, and the store it left. *)
Lemma update_task_updated (task_id : string) (updates : gmap string pyval)
    (now_completed now_updated : string) (m : memory)
    (t : gmap string pyval) :
  (update_task task_id updates now_completed now_updated m).1 = TaskUpdated t ->
  exists task t',
    find_task task_id (get_all_tasks None None m).1 = Some (Some task) /\
    map_fold (apply_update now_completed) (Some task) updates = Some t' /\
    t = <["updated_at" := PStr now_updated]> t' /\
    (update_task task_id updates now_completed now_updated m).2
    = (_update_task_in_memory t (get_all_tasks None None m).2).2.
Proof.
  unfold update_task, catch, mbind, M_bind, bind, call, of_option, mret, M_ret,
    ret.
  cbn [fst snd].
  destruct (find_task task_id (get_all_tasks None None m).1)
    as [[task|]|] eqn:F; cbn [fst snd]; try discriminate.
  destruct (map_fold (apply_update now_completed) (Some task) updates)
    as [t'|] eqn:U; cbn [fst snd]; [|discriminate].
  destruct (is_text "completed" (default PNone (updates !! "status")));
    cbn [fst snd].
  - destruct (<["updated_at" := PStr now_updated]> t' !! "title");
      cbn [fst snd]; [|discriminate].
    intros H. injection H as <-. exists task, t'.
    repeat split; try reflexivity; assumption.
  - intros H. injection H as <-. exists task, t'.
    repeat split; try reflexivity; assumption.
Qed.

(** X19. An update never changes a field outside the seven it allows and
    the two stamps: the task it reports agrees with the stored one on
    every other key, so the id and [created_at] cannot be changed, and
    [updated_at] is the clock reading of the update. *)
Theorem update_task_keeps_other_keys (task_id : string)
    (updates : gmap string pyval) (now_completed now_updated : string)
    (m : memory) (t : gmap string pyval) :
  (update_task task_id updates now_completed now_updated m).1 = TaskUpdated t ->
  exists task,
    In (JObject task) (get_all_tasks None None m).1 /\
    task !! "id" = Some (PStr task_id) /\
    t !! "id" = Some (PStr task_id) /\
    t !! "updated_at" = Some (PStr now_updated) /\
    forall k, ~ In k allowed_updates ->
              k <> "completed_at" -> k <> "updated_at" ->
              t !! k = task !! k.
Proof.
  intros H. destruct (update_task_updated _ _ _ _ _ _ H)
    as (task & t' & F & U & -> & _).
  apply find_task_found in F. destruct F as [I L].
  pose proof (updates_frame now_completed task t' updates U) as Fr.
  exists task. split; [exact L|]. split; [exact I|]. split; [|split].
  - rewrite lookup_insert_ne by discriminate. rewrite <- I. apply Fr.
    + unfold allowed_updates. simpl. intuition discriminate.
    + discriminate.
  - apply lookup_insert_eq.
  - intros k N C V. rewrite lookup_insert_ne by congruence. apply Fr; assumption.
Qed.

(** A task that lacks one of the fields the metadata index has no
    record. *)
Lemma task_record_missing (task : gmap string pyval) (key : string) :
  In key ["status"; "priority"; "category"; "created_at"; "wellness_impact"] ->
  task !! key = None -> task_record task = None.
Proof.
  intros K H. unfold task_record, task_metadata.
  destruct (task !! "id"); cbn [mbind option_bind]; [|reflexivity].
  destruct (task !! "status") eqn:S; cbn [mbind option_bind];
    [|reflexivity].
  destruct (task !! "priority") eqn:P; cbn [mbind option_bind];
    [|reflexivity].
  destruct (task !! "category") eqn:C; cbn [mbind option_bind];
    [|reflexivity].
  destruct (task !! "created_at") eqn:T; cbn [mbind option_bind];
    [|reflexivity].
  destruct (task !! "wellness_impact") eqn:W; cbn [mbind option_bind];
    [|reflexivity].
  simpl in K. destruct K as [<-|[<-|[<-|[<-|[<-|[]]]]]]; congruence.
Qed.

(** X20. What a successful update leaves in the store.  When the updated
    task has the five fields that the metadata index besides the id, the
    records with the id of the task are overwritten where they are by one
    record, whose document is the updated task and whose metadata have the
    type task, and every other record is kept.  When one of these fields
    is missing, the KeyError is swallowed: nothing is written, and the
    update is reported as a success all the same. *)
Theorem update_task_store (task_id : string)
    (updates : gmap string pyval) (now_completed now_updated : string)
    (m : memory) (t : gmap string pyval) :
  (update_task task_id updates now_completed now_updated m).1 = TaskUpdated t ->
  let c := important_memories_collection m in
  let c' := important_memories_collection
              (update_task task_id updates now_completed now_updated m).2 in
  c' = match task_record t with
       | Some r => List.map (fun r' => if has_id (rec_id r) r' then r else r') c
       | None => c
       end /\
  ((forall key,
       In key ["status"; "priority"; "category"; "created_at";
               "wellness_impact"] -> is_Some (t !! key)) ->
   exists metadata,
     metadata !! "type" = Some (MStr "task") /\
     c' = List.map (fun r' => if has_id task_id r'
                              then Record_ task_id (json_dumps t) metadata
                              else r') c) /\
  (forall key,
      In key ["status"; "priority"; "category"; "created_at";
              "wellness_impact"] ->
      t !! key = None -> c' = c).
Proof.
  intros H. cbv zeta.
  destruct (update_task_updated _ _ _ _ _ _ H)
    as (task & t' & F & U & Et & Em).
  assert (I : t !! "id" = Some (PStr task_id)).
  { rewrite Et. rewrite lookup_insert_ne by discriminate.
    rewrite (updates_frame now_completed task t' updates U "id").
    - apply (find_task_found _ _ _ F).
    - unfold allowed_updates. simpl. intuition discriminate.
    - discriminate. }
  assert (G : important_memories_collection (get_all_tasks None None m).2
              = important_memories_collection m).
  { unfold get_all_tasks, catch, mbind, M_bind, bind, do_get_where, of_option.
    cbn [coll]. destruct (sort_tasks _); reflexivity. }
  assert (E : important_memories_collection
                (update_task task_id updates now_completed now_updated m).2
              = match task_record t with
                | Some r =>
                    List.map (fun r' => if has_id (rec_id r) r' then r else r')
                      (important_memories_collection m)
                | None => important_memories_collection m
                end).
  { rewrite Em.
    unfold _update_task_in_memory, catch, mbind, M_bind, bind, of_option.
    destruct (task_record t) as [r|]; cbn [fst snd]; [|exact G].
    unfold do_update, update. cbn [coll]. rewrite G.
    destruct (existsb (has_id (rec_id r)) (important_memories_collection m))
      eqn:X; cbn [snd].
    - reflexivity.
    - cbn. rewrite G.
      transitivity (List.map id (important_memories_collection m));
        [symmetry; apply List.map_id|].
      apply List.map_ext_in. intros r' Hr'. unfold id.
      destruct (has_id (rec_id r) r') eqn:Y; [|reflexivity].
      assert (existsb (has_id (rec_id r)) (important_memories_collection m)
              = true).
      { apply existsb_exists. exists r'. split; assumption. }
      congruence. }
  split; [exact E|]. split.
  - intros A.
    destruct (A "status") as [status S]; [simpl; tauto|].
    destruct (A "priority") as [priority P]; [simpl; tauto|].
    destruct (A "category") as [category C]; [simpl; tauto|].
    destruct (A "created_at") as [created_at T]; [simpl; tauto|].
    destruct (A "wellness_impact") as [wellness_impact W]; [simpl; tauto|].
    destruct (task_record_fields t task_id status priority category created_at
                wellness_impact I S P C T W) as (metadata & R & Ty & _).
    exists metadata. split; [exact Ty|]. rewrite E, R. reflexivity.
  - intros key K N. rewrite E, (task_record_missing t key K N). reflexivity.
Qed.

End TasksStoreMore.

(** ** Adding and deleting tasks *)

Module TasksAddMore.
Import PyStr PyCmp Store Memory MemoryTheory Tasks TaskViews TasksTheory
  TasksStoreMore.

Lemma update_task_keeps_other_keys_witness :
  let a := add_task (fun _ => None) "walk" "" "medium" None "personal"
             "neutral" "id-a" "t0" empty_memory in
  let u := update_task "id-a" {["status" := PStr "completed"; "id" := PStr "x"]}
             "t2" "t3" a.2 in
  exists t, u.1 = TaskUpdated t /\
            t !! "id" = Some (PStr "id-a") /\
            t !! "updated_at" = Some (PStr "t3").
Proof.
  cbv zeta.
  pose (t := <["updated_at" := PStr "t3"]>
               (<["status" := PStr "completed"]>
                  (<["completed_at" := PStr "t2"]>
                     (added (add_task (fun _ => None) "walk" "" "medium" None
                               "personal" "neutral" "id-a" "t0"
                               empty_memory).1)))).
  assert (H : (update_task "id-a"
                 {["status" := PStr "completed"; "id" := PStr "x"]} "t2" "t3"
                 (add_task (fun _ => None) "walk" "" "medium" None "personal"
                    "neutral" "id-a" "t0" empty_memory).2).1 = TaskUpdated t)
    by (vm_compute; reflexivity).
  exists t. split; [exact H|].
  destruct (update_task_keeps_other_keys _ _ _ _ _ _ H)
    as (task & _ & _ & I & U & _).
  split; assumption.
Defined.

Lemma update_task_store_witness :
  let stored : gmap string pyval :=
    <["id" := PStr "id-a"]> (<["title" := PStr "walk"]> ∅) in
  let m := Memory_ []
             [Record_ "id-a" (json_dumps stored) {["type" := MStr "task"]}]
             [] [] [] [] [] in
  let u := update_task "id-a" {["title" := PStr "run"]} "t2" "t3" m in
  u.1 = TaskUpdated (<["updated_at" := PStr "t3"]>
                       (<["title" := PStr "run"]> stored)) /\
  important_memories_collection u.2 = important_memories_collection m.
Proof.
  cbv zeta.
  pose (t := <["updated_at" := PStr "t3"]>
               (<["title" := PStr "run"]>
                  (<["id" := PStr "id-a"]> (<["title" := PStr "walk"]> ∅)))
             : gmap string pyval).
  assert (H : (update_task "id-a" {["title" := PStr "run"]} "t2" "t3"
                 (Memory_ []
                    [Record_ "id-a"
                       (json_dumps
                          (<["id" := PStr "id-a"]>
                             (<["title" := PStr "walk"]> ∅)))
                       {["type" := MStr "task"]}]
                    [] [] [] [] [])).1 = TaskUpdated t)
    by (vm_compute; reflexivity).
  split; [exact H|].
  apply (proj2 (proj2 (update_task_store _ _ _ _ _ _ H)) "status").
  - simpl. tauto.
  - reflexivity.
Defined.

Section add.
Variable parse_due_date : string -> option string.

(** X21. [add_task] always reports success, and what it stores depends on
    the id: under a fresh id the task is appended to the collection as one
    record of type task and status pending, whose document is the task
    reported; under an id that is already there the store refuses the
    record, the exception is swallowed, and the collection is left as it
    was. *)
Theorem add_task_store (title description priority : string)
    (due_date : option string) (category wellness_impact task_id now : string)
    (m : memory) :
  let out := add_task parse_due_date title description priority due_date
               category wellness_impact task_id now m in
  exists task metadata,
    out.1 = TaskAdded task /\
    metadata !! "type" = Some (MStr "task") /\
    metadata !! "status" = Some (MStr "pending") /\
    important_memories_collection out.2
    = if existsb (has_id task_id) (important_memories_collection m)
      then important_memories_collection m
      else important_memories_collection m
           ++ [Record_ task_id (json_dumps task) metadata].
Proof.
  cbv zeta.
  destruct (add_task_record parse_due_date title description priority
              due_date category wellness_impact task_id now m)
    as (task & metadata & A & _ & _ & _ & _ & T & S & _ & _ & C).
  exists task, metadata. repeat split; assumption.
Qed.

(** X22. Deleting a task that was added under a fresh id leaves the
    collection as it was before the task was added. *)
Theorem delete_undoes_add (title description priority : string)
    (due_date : option string) (category wellness_impact task_id now : string)
    (m : memory) :
  existsb (has_id task_id) (important_memories_collection m) = false ->
  let a := add_task parse_due_date title description priority due_date
                 category wellness_impact task_id now m in
  (delete_task task_id a.2).1 = true /\
  important_memories_collection (delete_task task_id a.2).2
  = important_memories_collection m.
Proof.
  intros F. cbv zeta. split; [reflexivity|].
  destruct (add_task_record parse_due_date title description priority
              due_date category wellness_impact task_id now m)
    as (task & metadata & _ & _ & _ & _ & _ & _ & _ & _ & _ & C).
  rewrite F in C.
  unfold delete_task, catch, mbind, M_bind, bind, do_delete. cbn [fst snd coll].
  change (important_memories_collection
            (set_coll ImportantMemories ?c ?m0)) with c.
  rewrite C. unfold delete. rewrite List.filter_app. cbn [List.filter].
  unfold has_id at 2. cbn [rec_id]. rewrite String.eqb_refl. cbn [negb].
  rewrite app_nil_r. apply (delete_absent _ _ F).
Qed.

End add.

Lemma delete_undoes_add_witness :
  let m := (add_task (fun _ => None) "walk" "" "medium" None "personal"
              "neutral" "id-a" "t0" empty_memory).2 in
  let a := add_task (fun _ => None) "call mum" "" "high" None "social"
                 "neutral" "id-b" "t1" m in
  important_memories_collection (delete_task "id-b" a.2).2
  = important_memories_collection m.
Proof.
  apply (delete_undoes_add (fun _ => None) "call mum" "" "high" None "social"
           "neutral" "id-b" "t1").
  reflexivity.
Defined.

End TasksAddMore.

(** ** Saving to the long-term collections *)

Module ManagerSaves.
Import PyCmp Store Memory MemoryTheory Tasks TasksTheory Manager.

Lemma save_reflection_effect (reflection_content : document) (category : pyval)
    (reflection_id now : string) (m : memory) :
  let out := save_reflection reflection_content category reflection_id now m in
  (if existsb (has_id reflection_id) (reflections_collection m)
   then out.1 = NotSaved /\
        reflections_collection out.2 = reflections_collection m
   else exists metadata,
       out.1 = Saved (<["id" := PStr reflection_id]>
                        (<["saved" := PBool true]>
                           (<["category" := category]>
                              (<["timestamp" := PStr now]> ∅)))) /\
       reflections_collection out.2
       = reflections_collection m
         ++ [Record_ reflection_id reflection_content metadata] /\
       metadata !! "id" = Some (MStr reflection_id) /\
       metadata !! "category" = meta_of category /\
       metadata !! "timestamp" = Some (MStr now) /\
       metadata !! "type" = Some (MStr "reflection")) /\
  (forall n, n <> Reflections -> coll n out.2 = coll n m).
Proof.
  cbv zeta.
  unfold save_reflection, catch, mbind, M_bind, bind, do_add, add,
    clean_metadata.
  cbn [rec_id coll foldl fst snd].
  destruct (existsb (has_id reflection_id) (reflections_collection m));
    cbn [fst snd];
    (split; [|intros [] N; try reflexivity; contradiction]).
  - split; reflexivity.
  - eexists. split; [reflexivity|]. split; [reflexivity|].
    repeat split.
    + rewrite !put_meta_ne by discriminate. rewrite put_meta_eq. reflexivity.
    + rewrite !put_meta_ne by discriminate. rewrite put_meta_eq.
      destruct (meta_of category); [reflexivity|].
      rewrite put_meta_ne by discriminate. reflexivity.
    + rewrite !put_meta_ne by discriminate. rewrite put_meta_eq. reflexivity.
    + rewrite put_meta_eq. reflexivity.
Qed.

Lemma remember_important_effect (content : document) (importance : pyval)
    (memory_id now : string) (m : memory) :
  let out := remember_important content importance memory_id now m in
  (if existsb (has_id memory_id) (important_memories_collection m)
   then out.1 = NotSaved /\
        important_memories_collection out.2
        = important_memories_collection m
   else exists metadata,
       out.1 = Saved (<["id" := PStr memory_id]>
                        (<["saved" := PBool true]>
                           (<["importance" := importance]>
                              (<["timestamp" := PStr now]> ∅)))) /\
       important_memories_collection out.2
       = important_memories_collection m
         ++ [Record_ memory_id content metadata] /\
       metadata !! "id" = Some (MStr memory_id) /\
       metadata !! "importance" = meta_of importance /\
       metadata !! "timestamp" = Some (MStr now) /\
       metadata !! "type" = Some (MStr "important_memory")) /\
  (forall n, n <> ImportantMemories -> coll n out.2 = coll n m).
Proof.
  cbv zeta.
  unfold remember_important, catch, mbind, M_bind, bind, do_add, add,
    clean_metadata.
  cbn [rec_id coll foldl fst snd].
  destruct (existsb (has_id memory_id) (important_memories_collection m));
    cbn [fst snd];
    (split; [|intros [] N; try reflexivity; contradiction]).
  - split; reflexivity.
  - eexists. split; [reflexivity|]. split; [reflexivity|].
    repeat split.
    + rewrite !put_meta_ne by discriminate. rewrite put_meta_eq. reflexivity.
    + rewrite !put_meta_ne by discriminate. rewrite put_meta_eq.
      destruct (meta_of importance); [reflexivity|].
      rewrite put_meta_ne by discriminate. reflexivity.
    + rewrite !put_meta_ne by discriminate. rewrite put_meta_eq. reflexivity.
    + rewrite put_meta_eq. reflexivity.
Qed.

(** X23. A reflection and an important memory are saved as one record
    each, in their own collection and in no other.  Under a fresh id the
    record is appended with the content as its document and the id, the
    label (category or importance), the timestamp and the type as its
    metadata; a label that is None is left out of the metadata, and every
    other label, a list included, is written as it is.  Under an id that
    is already there the save reports [saved: False] and its collection is
    unchanged. *)
Theorem saves_write_one_record (content : document) (label : pyval)
    (id now : string) (m : memory) :
  (let out := save_reflection content label id now m in
   (if existsb (has_id id) (reflections_collection m)
    then out.1 = NotSaved /\
         reflections_collection out.2 = reflections_collection m
    else exists metadata,
        out.1 = Saved (<["id" := PStr id]>
                         (<["saved" := PBool true]>
                            (<["category" := label]>
                               (<["timestamp" := PStr now]> ∅)))) /\
        reflections_collection out.2
        = reflections_collection m ++ [Record_ id content metadata] /\
        metadata !! "id" = Some (MStr id) /\
        metadata !! "category" = meta_of label /\
        metadata !! "timestamp" = Some (MStr now) /\
        metadata !! "type" = Some (MStr "reflection")) /\
   (forall n, n <> Reflections -> coll n out.2 = coll n m)) /\
  (let out := remember_important content label id now m in
   (if existsb (has_id id) (important_memories_collection m)
    then out.1 = NotSaved /\
         important_memories_collection out.2
         = important_memories_collection m
    else exists metadata,
        out.1 = Saved (<["id" := PStr id]>
                         (<["saved" := PBool true]>
                            (<["importance" := label]>
                               (<["timestamp" := PStr now]> ∅)))) /\
        important_memories_collection out.2
        = important_memories_collection m ++ [Record_ id content metadata] /\
        metadata !! "id" = Some (MStr id) /\
        metadata !! "importance" = meta_of label /\
        metadata !! "timestamp" = Some (MStr now) /\
        metadata !! "type" = Some (MStr "important_memory")) /\
   (forall n, n <> ImportantMemories -> coll n out.2 = coll n m)) /\
  meta_of PNone = None /\
  (forall l, meta_of (PList l) = Some (MList l)) /\
  (forall s, meta_of (PStr s) = Some (MStr s)).
Proof.
  split; [apply save_reflection_effect|].
  split; [apply remember_important_effect|].
  repeat split.
Qed.

End ManagerSaves.

(** ** SOS requests and statistics *)

Module ManagerStats.
Import PyCmp Store Memory MemoryTheory Tasks Manager ManagerSaves.

Section sos.
Variable document_of : string -> document.

(** X24. An SOS request needs its timestamp and its content: without one
    of them nothing is saved and no call reaches the store.  With a text
    content, a text timestamp and neither urgency nor location, under a
    fresh id, the request is appended to the SOS collection as one record
    with the urgency medium and the location unknown. *)
Theorem save_sos_request_needs_fields (sos_data : gmap string pyval)
    (sos_id : string) (m : memory) :
  (sos_data !! "timestamp" = None ->
   save_sos_request document_of sos_data sos_id m = (NotSaved, m)) /\
  (sos_data !! "content" = None ->
   save_sos_request document_of sos_data sos_id m = (NotSaved, m)) /\
  (forall content timestamp,
      sos_data !! "content" = Some (PStr content) ->
      sos_data !! "timestamp" = Some (PStr timestamp) ->
      sos_data !! "urgency" = None ->
      sos_data !! "location" = None ->
      existsb (has_id sos_id) (sos_requests_collection m) = false ->
      exists metadata,
        (save_sos_request document_of sos_data sos_id m).1
        = Saved (<["id" := PStr sos_id]>
                   (<["saved" := PBool true]>
                      (<["timestamp" := PStr timestamp]> ∅))) /\
        sos_requests_collection
          (save_sos_request document_of sos_data sos_id m).2
        = sos_requests_collection m
          ++ [Record_ sos_id (document_of content) metadata] /\
        metadata !! "urgency" = Some (MStr "medium") /\
        metadata !! "location" = Some (MStr "unknown") /\
        metadata !! "timestamp" = Some (MStr timestamp) /\
        metadata !! "type" = Some (MStr "sos_request")).
Proof.
  unfold save_sos_request, catch, mbind, M_bind, bind, of_option, do_add, add.
  split; [intros ->; reflexivity|]. split.
  - intros C. rewrite C.
    destruct (sos_data !! "timestamp") as [timestamp|]; reflexivity.
  - intros content timestamp C T U L F. rewrite C, T, U, L.
    unfold clean_metadata.
    cbn -[String.eqb]. rewrite F. cbn -[String.eqb].
    eexists. repeat split; reflexivity.
Qed.

End sos.

Lemma save_sos_request_needs_fields_witness :
  let sos_data : gmap string pyval :=
    <["content" := PStr "help"]> (<["timestamp" := PStr "t0"]> ∅) in
  save_sos_request (fun s => Malformed s) (base.delete "timestamp" sos_data)
    "s-1" empty_memory = (NotSaved, empty_memory) /\
  save_sos_request (fun s => Malformed s) (base.delete "content" sos_data)
    "s-1" empty_memory = (NotSaved, empty_memory) /\
  exists metadata,
    sos_requests_collection
      (save_sos_request (fun s => Malformed s) sos_data "s-1" empty_memory).2
    = [Record_ "s-1" (Malformed "help") metadata] /\
    metadata !! "urgency" = Some (MStr "medium").
Proof.
  cbv zeta. split; [|split].
  - apply (proj1 (save_sos_request_needs_fields (fun s => Malformed s) _ "s-1"
                    empty_memory)).
    reflexivity.
  - apply (proj1 (proj2 (save_sos_request_needs_fields (fun s => Malformed s)
                           _ "s-1" empty_memory))).
    reflexivity.
  - destruct (proj2 (proj2 (save_sos_request_needs_fields
                              (fun s => Malformed s)
                              (<["content" := PStr "help"]>
                                 (<["timestamp" := PStr "t0"]> ∅))
                              "s-1" empty_memory)) "help" "t0")
      as (metadata & _ & C & U & _); try reflexivity.
    exists metadata. split; [exact C|exact U].
Defined.

(** *** Statistics *)

Lemma long_term_lookup (messages : list message) (limit : Z) (m : memory)
    (name : string) :
  long_term (get_memory_stats messages limit m) !! name
  = if String.eqb name "user_profile"
    then Some (count (user_profile_collection m))
    else if String.eqb name "sos_requests"
    then Some (count (sos_requests_collection m))
    else if String.eqb name "mood_data"
    then Some (count (mood_data_collection m))
    else if String.eqb name "important_memories"
    then Some (count (important_memories_collection m))
    else if String.eqb name "reflections"
    then Some (count (reflections_collection m))
    else None.
Proof.
  unfold get_memory_stats, counted. cbn [long_term foldl fst snd coll].
  destruct (String.eqb_spec name "user_profile") as [->|N1];
    [reflexivity|rewrite lookup_insert_ne by congruence].
  destruct (String.eqb_spec name "sos_requests") as [->|N2];
    [reflexivity|rewrite lookup_insert_ne by congruence].
  destruct (String.eqb_spec name "mood_data") as [->|N3];
    [reflexivity|rewrite lookup_insert_ne by congruence].
  destruct (String.eqb_spec name "important_memories") as [->|N4];
    [reflexivity|rewrite lookup_insert_ne by congruence].
  destruct (String.eqb_spec name "reflections") as [->|N5];
    [reflexivity|rewrite lookup_insert_ne by congruence].
  apply lookup_empty.
Qed.

Lemma save_journal_entry_frame (user_id text entry_id now : string)
    (m : memory) (n : coll_name) :
  n <> Journals ->
  coll n (save_journal_entry user_id text entry_id now m).2 = coll n m.
Proof.
  intros N.
  unfold save_journal_entry, catch, mbind, M_bind, bind, do_add, add.
  cbn [rec_id coll].
  destruct (existsb (has_id entry_id) (journals_collection m));
    destruct n; try reflexivity; contradiction.
Qed.

(** X25. The statistics count five collections and not the journals: no
    count is kept under journals, saving a journal entry changes no
    statistic, and a reflection saved under a fresh id raises the count of
    the reflections by one and leaves the four others as they were. *)
Theorem memory_stats_counts (messages : list message) (limit : Z)
    (m : memory) :
  long_term (get_memory_stats messages limit m) !! "journals" = None /\
  (forall user_id text entry_id now,
      get_memory_stats messages limit
        (save_journal_entry user_id text entry_id now m).2
      = get_memory_stats messages limit m) /\
  (forall content category reflection_id now,
      existsb (has_id reflection_id) (reflections_collection m) = false ->
      let m' := (save_reflection content category reflection_id now m).2 in
      long_term (get_memory_stats messages limit m') !! "reflections"
      = Some (S (count (reflections_collection m))) /\
      forall name, name <> "reflections" ->
        long_term (get_memory_stats messages limit m') !! name
        = long_term (get_memory_stats messages limit m) !! name).
Proof.
  split; [rewrite long_term_lookup; reflexivity|]. split.
  - intros user_id text entry_id now.
    unfold get_memory_stats, counted. cbn [foldl fst snd].
    rewrite !save_journal_entry_frame by discriminate. reflexivity.
  - intros content category reflection_id now F. cbv zeta.
    destruct (save_reflection_effect content category reflection_id now m)
      as [E Fr].
    rewrite F in E. destruct E as (metadata & _ & C & _).
    split.
    + rewrite long_term_lookup. cbn [String.eqb Ascii.eqb Bool.eqb].
      rewrite C. unfold count. rewrite length_app. cbn [List.length].
      f_equal. lia.
    + intros name N. rewrite !long_term_lookup.
      pose proof (Fr UserProfile ltac:(discriminate)) as F1.
      pose proof (Fr SosRequests ltac:(discriminate)) as F2.
      pose proof (Fr MoodData ltac:(discriminate)) as F3.
      pose proof (Fr ImportantMemories ltac:(discriminate)) as F4.
      cbn [coll] in F1, F2, F3, F4. rewrite F1, F2, F3, F4.
      destruct (String.eqb_spec name "reflections") as [->|_];
        [contradiction|reflexivity].
Qed.

Lemma memory_stats_counts_witness :
  let m' := (save_reflection (Malformed "a calm day") (PStr "general")
               "r-1" "t0" empty_memory).2 in
  long_term (get_memory_stats [] 2000 m') !! "reflections" = Some 1%nat /\
  long_term (get_memory_stats [] 2000 m') !! "mood_data" = Some 0%nat.
Proof.
  destruct (proj2 (proj2 (memory_stats_counts [] 2000 empty_memory))
              (Malformed "a calm day") (PStr "general") "r-1" "t0" eq_refl)
    as [R O].
  split; [exact R|].
  rewrite (O "mood_data") by discriminate. reflexivity.
Defined.

End ManagerStats.

(** ** Reflections, newest first *)

Module ReflectionsTheory.
Import PyCmp Store Memory MemoryTheory Manager SortExnTheory StringOrder.

Lemma StronglySorted_snoc {A} (R : A -> A -> Prop) (l : list A) (x : A) :
  StronglySorted R l -> List.Forall (fun y => R y x) l ->
  StronglySorted R (l ++ [x]).
Proof.
  induction 1 as [|y l S IH F]; simpl; intros H.
  - repeat constructor.
  - apply List.Forall_cons_iff in H. destruct H as [Hy H].
    constructor; [apply IH, H|].
    apply List.Forall_app. split; [exact F|]. constructor; [exact Hy|constructor].
Qed.

Lemma StronglySorted_rev {A} (R : A -> A -> Prop) (l : list A) :
  StronglySorted R l -> StronglySorted (fun x y => R y x) (rev l).
Proof.
  induction 1 as [|x l S IH F]; simpl; [constructor|].
  apply StronglySorted_snoc; [exact IH|].
  apply List.Forall_forall. intros y Hy. apply in_rev in Hy.
  rewrite List.Forall_forall in F. apply F, Hy.
Qed.

(** The order of the timestamps of two reflections. *)
Lemma timestamp_lt_true (v1 v2 : option meta_value) :
  py_lt (field_value v1) (field_value v2) = Some true ->
  py_le (field_value v1) (field_value v2).
Proof.
  assert (N : forall q1 q2, negb (Qle_bool q2 q1) = true -> (q1 <= q2)%Q).
  { intros q1 q2 H. apply negb_true_iff in H.
    apply Qlt_le_weak, Qnot_le_lt. intros X. apply Qle_bool_iff in X.
    congruence. }
  destruct v1 as [[s1|z1|q1|b1|l1|o1]|], v2 as [[s2|z2|q2|b2|l2|o2]|];
    unfold py_lt, py_le; simpl; try discriminate;
    intros H; injection H as H; try (apply N, H).
  - apply ltb_leb, H.
  - apply list_ltb_asym, H.
Qed.

Lemma timestamp_lt_false (v1 v2 : option meta_value) :
  py_lt (field_value v1) (field_value v2) = Some false ->
  py_le (field_value v2) (field_value v1).
Proof.
  assert (N : forall q1 q2, negb (Qle_bool q2 q1) = false -> (q2 <= q1)%Q).
  { intros q1 q2 H. apply negb_false_iff in H. apply Qle_bool_iff, H. }
  destruct v1 as [[s1|z1|q1|b1|l1|o1]|], v2 as [[s2|z2|q2|b2|l2|o2]|];
    unfold py_lt, py_le; simpl; try discriminate;
    intros H; injection H as H; try (apply N, H).
  - apply ltb_false_leb, H.
  - exact H.
Qed.

Lemma py_le_trans (v1 v2 v3 : pyval) :
  py_le v1 v2 -> py_le v2 v3 -> py_le v1 v3.
Proof.
  unfold py_le.
  destruct (number v1) as [q1|] eqn:N1, (number v2) as [q2|] eqn:N2,
    (number v3) as [q3|] eqn:N3; try tauto.
  - apply Qle_trans.
  - destruct v1; try discriminate; try tauto;
      destruct v2; try discriminate; try tauto;
      destruct v3; try discriminate; try tauto.
    + apply leb_trans.
    + apply list_nlt_trans.
Qed.

Section reflections.
Variable limited : list record -> Z -> list record.

(** The store returns records it found. *)
Hypothesis limited_found : forall l n r, In r (limited l n) -> In r l.

(** X26. The reflections come newest first: the list is in descending
    order of the timestamps, and each entry is made of a record of the
    reflections collection whose category is the one asked for, when one
    is asked for. *)
Theorem reflections_newest_first (category : option string) (limit : Z)
    (m : memory) :
  let result := (get_user_reflections limited category limit m).1 in
  StronglySorted
    (fun x y => py_le (field_value (refl_timestamp y))
                  (field_value (refl_timestamp x))) result /\
  (forall x, In x result ->
     exists r, In r (reflections_collection m) /\ x = reflection_of r /\
       forall c, category = Some c -> c <> "" ->
                 refl_category x = Some (MStr c)).
Proof.
  cbv zeta.
  unfold get_user_reflections, catch, mbind, M_bind, bind, do_get_where,
    of_option, sort_reverse.
  cbn [coll fst snd].
  set (w := match category with
            | Some c => if String.eqb c "" then [] else [("category", MStr c)]
            | None => []
            end).
  set (found := limited (get_where (reflections_collection m) w) limit).
  set (lt := fun x y : reflection =>
               py_lt (field_value (refl_timestamp x))
                 (field_value (refl_timestamp y))).
  destruct (sort_exn lt (rev (List.map reflection_of found))) as [s|] eqn:S;
    cbn [mbind option_bind fst];
    [|split; [constructor|intros x []]].
  split.
  - apply (StronglySorted_rev
             (fun x y => py_le (field_value (refl_timestamp x))
                           (field_value (refl_timestamp y)))).
    apply (sort_exn_sorted lt _
             (fun y x => timestamp_lt_true (refl_timestamp y) (refl_timestamp x))
             (fun y x => timestamp_lt_false (refl_timestamp y) (refl_timestamp x)))
      with (l := rev (List.map reflection_of found)); [|exact S].
    intros x y z. apply py_le_trans.
  - intros x Hx. apply in_rev in Hx.
    apply (Permutation_in _ (sort_exn_perm lt _ s S)) in Hx.
    apply in_rev in Hx. apply in_map_iff in Hx. destruct Hx as (r & <- & Hr).
    apply limited_found in Hr. unfold get_where in Hr.
    apply filter_In in Hr. destruct Hr as [Hr Hm].
    exists r. split; [exact Hr|]. split; [reflexivity|].
    intros c E Hc. unfold w in Hm. rewrite E in Hm.
    destruct (String.eqb c "") eqn:X;
      [apply String.eqb_eq in X; contradiction|].
    unfold matches in Hm. simpl in Hm. rewrite andb_true_r in Hm.
    apply bool_decide_eq_true in Hm. exact Hm.
Qed.

End reflections.

Lemma reflections_newest_first_witness :
  let limited := fun (l : list record) (n : Z) => take (Z.to_nat n) l in
  let m1 := (save_reflection (Malformed "a calm day") (PStr "general")
               "r-1" "2024-05-01" empty_memory).2 in
  let m2 := (save_reflection (Malformed "a long walk") (PStr "general")
               "r-2" "2024-05-02" m1).2 in
  let result := (get_user_reflections limited (Some "general") 10 m2).1 in
  List.map refl_content result
  = [Malformed "a long walk"; Malformed "a calm day"] /\
  StronglySorted
    (fun x y => py_le (field_value (refl_timestamp y))
                  (field_value (refl_timestamp x))) result.
Proof.
  cbv zeta. split; [vm_compute; reflexivity|].
  apply (reflections_newest_first
           (fun (l : list record) (n : Z) => take (Z.to_nat n) l)).
  intros l n r. generalize (Z.to_nat n). intros k. revert l.
  induction k as [|k IH]; intros [|x l]; simpl; try tauto.
  intros [H|H]; [left; exact H|right; exact (IH l H)].
Defined.

End ReflectionsTheory.

(** ** Journals *)

Module JournalsTheory.
Import PyCmp Store Memory MemoryTheory Manager SortExnTheory StringOrder.

Section sort_total.
Context {A : Type} (lt : A -> A -> option bool).

Lemma insert_exn_last (x : A) (l : list A) :
  List.Forall (fun y => lt y x = Some true) l ->
  insert_exn lt x l = Some (l ++ [x]).
Proof.
  induction 1 as [|y l Hy F IH]; simpl; [reflexivity|].
  rewrite Hy. simpl. rewrite IH. reflexivity.
Qed.

Variable P : A -> Prop.
Hypothesis comparable : forall x y, P x -> P y -> exists b, lt x y = Some b.

Lemma insert_exn_total (x : A) (l : list A) :
  P x -> List.Forall P l -> exists s, insert_exn lt x l = Some s.
Proof.
  intros Px. induction 1 as [|y l Py F IH]; simpl; [eauto|].
  destruct (comparable y x Py Px) as [[|] ->]; simpl; [|eauto].
  destruct IH as [s ->]. simpl. eauto.
Qed.

Lemma sort_exn_total (l : list A) :
  List.Forall P l -> exists s, sort_exn lt l = Some s /\ List.Forall P s.
Proof.
  induction 1 as [|x l Px F IH]; simpl; [eauto|].
  destruct IH as (s & -> & Fs). simpl.
  destruct (insert_exn_total x s Px Fs) as [s' E].
  exists s'. split; [exact E|].
  apply List.Forall_forall. intros y Hy.
  apply (Permutation_in _ (insert_exn_perm lt x s s' E)) in Hy.
  destruct Hy as [<-|Hy]; [exact Px|].
  rewrite List.Forall_forall in Fs. apply Fs, Hy.
Qed.

End sort_total.

Lemma mapM_snoc {A B} (f : A -> option B) (l : list A) (x : A) :
  mapM f (l ++ [x]) = ks ← mapM f l; k ← f x; Some (ks ++ [k]).
Proof.
  induction l as [|a l IH]; simpl.
  - destruct (f x); reflexivity.
  - destruct (f a); simpl; [|reflexivity]. rewrite IH.
    destruct (mapM f l); simpl; [|reflexivity].
    destruct (f x); reflexivity.
Qed.

Lemma mapM_snd {A B} (f : A -> option (B * A)) (l : list A)
    (ks : list (B * A)) :
  (forall x y, f x = Some y -> y.2 = x) ->
  mapM f l = Some ks -> List.map snd ks = l.
Proof.
  intros H. revert ks. induction l as [|a l IH]; intros ks; simpl.
  - intros E. injection E as <-. reflexivity.
  - destruct (f a) as [y|] eqn:Fa; simpl; [|discriminate].
    destruct (mapM f l) as [k|]; simpl; [|discriminate].
    intros E. injection E as <-. simpl.
    rewrite (H a y Fa), (IH k eq_refl). reflexivity.
Qed.

Lemma keyed_snd (e : journal_entry) (y : pyval * journal_entry) :
  (k ← entry_fields e !! "date"; Some (k, e)) = Some y -> y.2 = e.
Proof.
  destruct (entry_fields e !! "date"); simpl; [|discriminate].
  intros H. injection H as <-. reflexivity.
Qed.

Lemma journal_filter_matches (user_id : string) (r : record) :
  matches (journal_filter user_id) r = true <->
  rec_metadata r !! "userId" = Some (MStr user_id) /\
  rec_metadata r !! "type" = Some (MStr "journal_entry").
Proof.
  unfold matches, journal_filter. simpl.
  rewrite andb_true_r, andb_true_iff, !bool_decide_eq_true. reflexivity.
Qed.

Lemma read_journal_metadata (r : record) (e : journal_entry) :
  read_journal r = Some e -> entry_metadata e = rec_metadata r.
Proof.
  unfold read_journal. destruct (rec_document r) as [[d|t]|t]; simpl;
    try discriminate.
  intros H. injection H as <-. reflexivity.
Qed.

Lemma get_latest_unfold (user_id : string) (m : memory) :
  (get_latest_journal_entry user_id m).1
  = match omap read_journal
            (get_where (journals_collection m) (journal_filter user_id)) with
    | [] => JournalNoEntries
    | e :: entries =>
        match
          keyed ← mapM (fun e => k ← entry_fields e !! "date"; Some (k, e))
                    (e :: entries);
          sort_reverse (fun x y => py_lt x.1 y.1) keyed
        with
        | Some (latest :: _) => JournalFound latest.2
        | _ => JournalError
        end
    end.
Proof.
  unfold get_latest_journal_entry, catch, mbind at 1, M_bind, bind,
    do_get_where.
  cbn [coll fst snd].
  destruct (omap read_journal _) as [|e entries]; [reflexivity|].
  unfold mbind at 1 2, M_bind, bind, of_option.
  destruct (mapM _ (e :: entries)) as [keyed|]; cbn [mbind option_bind];
    [|reflexivity].
  destruct (sort_reverse _ keyed) as [[|latest sorted]|]; reflexivity.
Qed.

(** X27. The latest entry is an entry of the user asked for: it is read
    from a record of the journals collection whose metadata name that
    user and the type journal_entry.  When no record names the user, the
    answer is that no entries were found. *)
Theorem latest_journal_of_user (user_id : string) (m : memory) :
  (forall e, (get_latest_journal_entry user_id m).1 = JournalFound e ->
     entry_metadata e !! "userId" = Some (MStr user_id) /\
     entry_metadata e !! "type" = Some (MStr "journal_entry") /\
     exists r, In r (journals_collection m) /\ read_journal r = Some e) /\
  ((forall r, In r (journals_collection m) ->
      rec_metadata r !! "userId" <> Some (MStr user_id)) ->
   (get_latest_journal_entry user_id m).1 = JournalNoEntries).
Proof.
  rewrite get_latest_unfold. split.
  - intros e0.
    destruct (omap read_journal _) as [|e entries] eqn:O; [discriminate|].
    destruct (mapM _ (e :: entries)) as [keyed|] eqn:K;
      cbn [mbind option_bind]; [|discriminate].
    unfold sort_reverse.
    destruct (sort_exn _ (rev keyed)) as [s|] eqn:S;
      cbn [mbind option_bind]; [|discriminate].
    destruct (rev s) as [|latest sorted] eqn:R; [discriminate|].
    intros H. injection H as <-.
    assert (I : In latest keyed).
    { apply in_rev. apply (Permutation_in _ (sort_exn_perm _ _ s S)).
      apply in_rev. rewrite R. left. reflexivity. }
    assert (E : In latest.2 (e :: entries)).
    { rewrite <- (mapM_snd _ _ keyed keyed_snd K). apply in_map, I. }
    rewrite <- O in E. apply list_elem_of_In, list_elem_of_omap in E.
    destruct E as (r & Hr & Rd). apply list_elem_of_In in Hr.
    unfold get_where in Hr. apply filter_In in Hr. destruct Hr as [Hr Hm].
    apply journal_filter_matches in Hm. destruct Hm as [U T].
    rewrite (read_journal_metadata r _ Rd).
    split; [exact U|]. split; [exact T|]. exists r. split; assumption.
  - intros N.
    assert (G : get_where (journals_collection m) (journal_filter user_id) = []).
    { unfold get_where. apply filter_nil_existsb.
      destruct (existsb _ _) eqn:X; [|reflexivity].
      apply existsb_exists in X. destruct X as (r & Hr & Hm).
      apply journal_filter_matches in Hm. destruct (N r Hr (proj1 Hm)). }
    rewrite G. reflexivity.
Qed.

Lemma latest_journal_of_user_witness :
  let m1 := (save_journal_entry "ann" "a quiet day" "j-1" "2024-05-01"
               empty_memory).2 in
  let m2 := (save_journal_entry "bob" "a busy day" "j-2" "2024-05-02" m1).2 in
  (exists e, (get_latest_journal_entry "ann" m2).1 = JournalFound e /\
             entry_metadata e !! "userId" = Some (MStr "ann")) /\
  (get_latest_journal_entry "cat" m2).1 = JournalNoEntries.
Proof.
  cbv zeta. split.
  - exists (JournalEntry (journal_document "ann" "2024-05-01" "a quiet day")
              (journal_metadata "j-1" "ann" "2024-05-01")).
    assert (H : (get_latest_journal_entry "ann"
                   (save_journal_entry "bob" "a busy day" "j-2" "2024-05-02"
                      (save_journal_entry "ann" "a quiet day" "j-1"
                         "2024-05-01" empty_memory).2).2).1
                = JournalFound
                    (JournalEntry
                       (journal_document "ann" "2024-05-01" "a quiet day")
                       (journal_metadata "j-1" "ann" "2024-05-01")))
      by reflexivity.
    split; [exact H|].
    exact (proj1 (proj1 (latest_journal_of_user "ann" _) _ H)).
  - apply (proj2 (latest_journal_of_user "cat" _)).
    intros r H. vm_compute in H.
    destruct H as [<-|[<-|[]]]; vm_compute; discriminate.
Defined.

(** The dates of the entries read are texts before [now]. *)
Local Abbreviation dated_before now :=
  (fun ke : pyval * journal_entry =>
     exists s, ke.1 = PStr s /\ String.ltb s now = true).

Lemma mapM_dates (now : string) (entries : list journal_entry) :
  List.Forall (fun e => exists s, entry_fields e !! "date" = Some (PStr s) /\
                                  String.ltb s now = true) entries ->
  exists keyed,
    mapM (fun e => k ← entry_fields e !! "date"; Some (k, e)) entries
    = Some keyed /\
    List.Forall (dated_before now) keyed.
Proof.
  induction 1 as [|e entries (s & D & L) F (keyed & K & Fk)]; simpl.
  - exists []. split; [reflexivity|constructor].
  - rewrite D, K. simpl. eexists. split; [reflexivity|].
    constructor; [exists s; split; [reflexivity|exact L]|exact Fk].
Qed.

(** X28. An entry saved under a fresh id, with a date after the dates of
    the entries the user has, is the latest entry of that user: it is
    returned with the fields it was saved with and with its metadata. *)
Theorem latest_journal_is_the_one_saved (user_id text entry_id now : string)
    (m : memory) :
  existsb (has_id entry_id) (journals_collection m) = false ->
  (forall r e, In r (journals_collection m) ->
     matches (journal_filter user_id) r = true ->
     read_journal r = Some e ->
     exists s, entry_fields e !! "date" = Some (PStr s) /\
               String.ltb s now = true) ->
  (save_journal_entry user_id text entry_id now m).1
  = JournalSaved entry_id now /\
  (get_latest_journal_entry user_id
     (save_journal_entry user_id text entry_id now m).2).1
  = JournalFound (JournalEntry (journal_document user_id now text)
                    (journal_metadata entry_id user_id now)).
Proof.
  intros F D.
  set (rnew := Record_ entry_id (json_dumps (journal_document user_id now text))
                 (journal_metadata entry_id user_id now)).
  set (enew := JournalEntry (journal_document user_id now text)
                 (journal_metadata entry_id user_id now)).
  assert (S : save_journal_entry user_id text entry_id now m
              = (JournalSaved entry_id now,
                 set_coll Journals (journals_collection m ++ [rnew])
                   (logged Journals (CallAdd entry_id) m))).
  { unfold save_journal_entry, catch, mbind, M_bind, bind, do_add, add.
    cbn [rec_id coll]. rewrite F. reflexivity. }
  rewrite S. split; [reflexivity|]. cbn [snd].
  rewrite get_latest_unfold. cbn [journals_collection set_coll].
  unfold get_where. rewrite List.filter_app. cbn [List.filter].
  replace (matches (journal_filter user_id) rnew) with true
    by (symmetry; apply journal_filter_matches; split; reflexivity).
  rewrite omap_app.
  replace (omap read_journal [rnew]) with [enew] by reflexivity.
  set (olds := omap read_journal
                 (List.filter (matches (journal_filter user_id))
                    (journals_collection m))).
  assert (Fo : List.Forall
                 (fun e => exists s, entry_fields e !! "date" = Some (PStr s) /\
                                     String.ltb s now = true) olds).
  { apply List.Forall_forall. intros e He.
    apply list_elem_of_In, list_elem_of_omap in He.
    destruct He as (r & Hr & Rd). apply list_elem_of_In, filter_In in Hr.
    destruct Hr as [Hr Hm]. exact (D r e Hr Hm Rd). }
  destruct (mapM_dates now olds Fo) as (keyed & K & Fk).
  destruct (olds ++ [enew]) as [|e0 rest] eqn:E;
    [destruct olds; discriminate|].
  rewrite <- E. rewrite mapM_snoc, K. cbn [mbind option_bind].
  replace (entry_fields enew !! "date") with (Some (PStr now)) by reflexivity.
  cbn [mbind option_bind]. unfold sort_reverse.
  rewrite rev_app_distr. cbn [rev app sort_exn].
  destruct (sort_exn_total (fun x y : pyval * journal_entry => py_lt x.1 y.1)
              (dated_before now)
              (fun x y '(ex_intro _ s (conj Hx _)) '(ex_intro _ t (conj Hy _)) =>
                 ex_intro _ (String.ltb s t)
                   (eq_trans (f_equal2 py_lt Hx Hy) eq_refl))
              (rev keyed))
    as (s & Ss & Fs).
  { apply List.Forall_forall. intros x Hx. apply in_rev in Hx.
    rewrite List.Forall_forall in Fk. apply Fk, Hx. }
  rewrite Ss. cbn [mbind option_bind].
  rewrite (insert_exn_last _ (PStr now, enew) s).
  - cbn [mbind option_bind]. rewrite rev_app_distr. reflexivity.
  - apply List.Forall_forall. intros y Hy.
    rewrite List.Forall_forall in Fs. destruct (Fs y Hy) as (t & Ht & L).
    cbn [fst]. rewrite Ht. unfold py_lt. simpl. rewrite L. reflexivity.
Qed.

Lemma latest_journal_is_the_one_saved_witness :
  let m1 := (save_journal_entry "ann" "a quiet day" "j-1" "2024-05-01"
               empty_memory).2 in
  (get_latest_journal_entry "ann"
     (save_journal_entry "ann" "a better day" "j-2" "2024-05-02" m1).2).1
  = JournalFound (JournalEntry (journal_document "ann" "2024-05-02"
                                  "a better day")
                    (journal_metadata "j-2" "ann" "2024-05-02")).
Proof.
  cbv zeta.
  apply (latest_journal_is_the_one_saved "ann" "a better day" "j-2"
           "2024-05-02").
  - reflexivity.
  - intros r e H _ R. vm_compute in H. destruct H as [<-|[]].
    vm_compute in R. injection R as <-.
    exists "2024-05-01". split; reflexivity.
Defined.

End JournalsTheory.

(** ** Facts by category, and the feedback *)

Module CategoryTheory.
Import PyStr Facts FactsTheory FactsMore Store Memory MemoryTheory Chain
  ChainTheory ProfileMore Manager Feedback.

(** No fact is extracted under the key memories. *)
Lemma extract_no_memories (message : string) (facts : gmap string fact_value) :
  _extract_user_facts message = Some facts -> facts !! "memories" = None.
Proof.
  unfold _extract_user_facts. cbv zeta.
  destruct (startswith "store this:" (strip (lower message))
            || startswith "store this :" (strip (lower message))) eqn:E.
  - destruct (store_this_has_colon _ E) as (tail & ->). simpl.
    destruct (store_this_shape (strip tail)) as (key & item & -> & K).
    intros H. injection H as <-.
    apply lookup_singleton_ne. destruct K as [->|[->| ->]]; discriminate.
  - intros H. injection H as <-.
    unfold scan_names, name_patterns. simpl.
    destruct (name_step_shape (strip (lower message)) "call me "
                (name_step (strip (lower message)) ∅ "my name is "))
      as [->|(name & -> & _)].
    + apply name_step_shape. left. reflexivity.
    + apply lookup_empty.
    + apply lookup_singleton_ne. discriminate.
Qed.

Section category.
Variable list_of_set : list string -> list string.
Variable object_get : string -> string -> option pyval.

(** X29. The facts the chain stores are written at the top of the profile,
    and [get_user_memory_category] reads under the key memories: after
    the facts extracted from a message are stored in a profile that has no
    such key, the list of every category is still empty. *)
Theorem stored_facts_not_listed_by_category (message : string)
    (facts : gmap string fact_value) (now_merge now_update : string)
    (m : memory) (profile_data : gmap string pyval) (category : string) :
  _extract_user_facts message = Some facts ->
  facts <> ∅ ->
  profile_of (get_user_profile m).1 = JObject profile_data ->
  profile_data !! "memories" = None ->
  (get_user_memory_category object_get category
     (_store_user_facts list_of_set facts now_merge now_update m).2).1
  = PList [].
Proof.
  intros X Hf Hp Hm.
  rewrite (store_user_facts_unfold list_of_set facts now_merge now_update m
             profile_data Hf Hp).
  unfold get_user_memory_category, catch, mbind, M_bind, bind, call.
  cbn [fst snd]. rewrite get_after_update. cbn [profile_of].
  rewrite lookup_insert_ne by discriminate.
  rewrite merge_facts_lookup, (extract_no_memories message facts X), Hm.
  reflexivity.
Qed.

End category.

Lemma stored_facts_not_listed_by_category_witness :
  (get_user_memory_category (fun _ _ => None) "pets"
     (_store_user_facts remove_dups {["pets" := FList ["Bruno"]]} "t1" "t2"
        empty_memory).2).1
  = PList [].
Proof.
  apply (stored_facts_not_listed_by_category remove_dups (fun _ _ => None)
           "Store this: my dog's name is Bruno" _ "t1" "t2" empty_memory ∅).
  - reflexivity.
  - intros E. apply (f_equal (lookup "pets")) in E. discriminate.
  - reflexivity.
  - reflexivity.
Defined.

Section feedback.
Variable repr_list : list string -> string.

(** X30. The feedback is empty exactly when the facts hold none of the
    four keys name, pets, support_preferences and notes, whatever the
    language asked for. *)
Theorem feedback_empty_iff (facts : gmap string fact_value)
    (language : string) :
  _generate_memory_feedback repr_list facts language = "" <->
  facts !! "name" = None /\ facts !! "pets" = None /\
  facts !! "support_preferences" = None /\ facts !! "notes" = None.
Proof.
  unfold _generate_memory_feedback.
  destruct (decide (facts = ∅)) as [->|_].
  - rewrite !lookup_empty. tauto.
  - unfold sentence.
    destruct (facts !! "name"), (facts !! "pets"),
      (facts !! "support_preferences"), (facts !! "notes");
      simpl; split; intros H; try discriminate;
      try (destruct H as (H1 & H2 & H3 & H4); discriminate);
      repeat split; reflexivity.
Qed.

End feedback.

End CategoryTheory.
